(** * Session-log analyser (scripts/analyze-session.py): model and properties

    A shallow embedding of the statistics pipeline of
    [scripts/analyze-session.py]: the two passes of [analyze_session], the
    aggregation loops of [print_summary] and [export_snapshot], the file
    write that ends [export_snapshot], the report of [print_stats] and the
    control flow of [main].

    Python values are embedded as follows.
    - A decoded JSON value is a [json] tree.  Numbers are the integers
      ([JInt]).  Numbers with a fraction or an exponent decode to binary
      floating point and are outside the statistics of this embedding; what
      lines 72-81 do to a counter that holds floats is modelled apart
      ([add_input]).
    - A Python [str] is a [string]; one character stands for one code point
      (so the embedding covers code points below 256), [len] is
      [String.length] and [<] on [str] is [String.ltb].
    - An exception is a [Raise e] outcome of the [result] monad; nothing in
      the analysed functions catches an exception except the
      [json.JSONDecodeError] of the line decoder.  [analyze_session] is the
      function on the lines of a file that was read, with a decoder that
      either returns a value or raises [json.JSONDecodeError];
      [analyze_session_file] adds the file that cannot be read as text and
      the decoder that raises another exception.
    - The statistics dictionaries are iterated with [.items()], sorted with a
      stable sort and cut with a slice, so their insertion order is
      observable: they are association lists with unique keys ([pydict]).
      The invocation index [tool_names] is only ever looked up and the file
      system is only read and written by path: both are [gmap]s. *)

From Stdlib Require Import ZArith Ascii String List Permutation Lia.
From Stdlib Require SpecFloat.
From stdpp Require Import base option list strings gmap.

#[local] Set Warnings "-register-all".
Local Open Scope string_scope.
Local Open Scope list_scope.
Local Open Scope Z_scope.

(** ** Exceptions *)

Inductive exn : Type :=
  | AttributeError
  | TypeError
  | KeyError
  | ZeroDivisionError
  | OverflowError
  | RecursionError
  | UnicodeDecodeError.

Inductive result (A : Type) : Type :=
  | Ok (a : A)
  | Raise (e : exn).

Arguments Ok {A} a.
Arguments Raise {A} e.

#[global] Instance exn_eq_dec : EqDecision exn.
Proof. solve_decision. Defined.

#[global] Instance result_eq_dec {A : Type} `{EqDecision A}
  : EqDecision (result A).
Proof. solve_decision. Defined.

#[global] Instance result_ret : MRet result := fun A a => Ok a.
#[global] Instance result_bind : MBind result := fun A B f m =>
  match m with
  | Ok a => f a
  | Raise e => Raise e
  end.

(** [foldM step acc xs] is the loop [for x in xs: acc = step(x, acc)] in which
    the first exception leaves the loop. *)
Fixpoint foldM {A S : Type} (step : A -> S -> result S) (acc : S) (xs : list A)
  : result S :=
  match xs with
  | [] => Ok acc
  | x :: xs' => acc' ← step x acc; foldM step acc' xs'
  end.

(** ** JSON values as Python objects *)

Inductive json : Type :=
  | JNull
  | JBool (b : bool)
  | JInt (z : Z)
  | JStr (s : string)
  | JArr (l : list json)
  | JObj (o : list (string * json)).

(** Lookup in a decoded object: the pairs of a [JObj] are the items of the
    Python dict, whose keys are unique. *)
Fixpoint obj_get (k : string) (o : list (string * json)) : option json :=
  match o with
  | [] => None
  | (k', v) :: o' => if String.eqb k k' then Some v else obj_get k o'
  end.

(** [o.get(k)] on a dict: [None] (here [JNull]) when the key is absent. *)
Definition get_or_none (k : string) (o : list (string * json)) : json :=
  default JNull (obj_get k o).

(** [bool(x)]. *)
Definition truthy (x : json) : bool :=
  match x with
  | JNull => false
  | JBool b => b
  | JInt z => negb (z =? 0)%Z
  | JStr s => negb (String.eqb s "")
  | JArr l => match l with [] => false | _ => true end
  | JObj o => match o with [] => false | _ => true end
  end.

(** [x is None]. *)
Definition is_none (x : json) : bool :=
  match x with JNull => true | _ => false end.

(** The integer value of an [int] or a [bool] ([bool] is a subclass of
    [int]: [True] is 1 and [False] is 0). *)
Definition as_int (x : json) : option Z :=
  match x with
  | JInt z => Some z
  | JBool b => Some (if b then 1 else 0)%Z
  | _ => None
  end.

(** [acc + x] for an integer [acc]: anything but an [int] or a [bool] on the
    right raises [TypeError]. *)
Definition int_add (acc : Z) (x : json) : result Z :=
  match as_int x with
  | Some z => Ok (acc + z)%Z
  | None => Raise TypeError
  end.

(** [a == b]; it never raises on decoded JSON. *)
Fixpoint py_eq (a b : json) {struct a} : bool :=
  match a, b with
  | JNull, JNull => true
  | JStr s, JStr t => String.eqb s t
  | JArr l, JArr m =>
      (fix go (l m : list json) {struct l} : bool :=
         match l, m with
         | [], [] => true
         | x :: l', y :: m' => py_eq x y && go l' m'
         | _, _ => false
         end) l m
  | JObj o, JObj p =>
      Nat.eqb (length o) (length p)
      && (fix go (o : list (string * json)) {struct o} : bool :=
            match o with
            | [] => true
            | (k, v) :: o' =>
                match obj_get k p with
                | Some v' => py_eq v v' && go o'
                | None => false
                end
            end) o
  | _, _ =>
      match as_int a, as_int b with
      | Some x, Some y => (x =? y)%Z
      | _, _ => false
      end
  end.

(** The two orderings the analyser uses. *)
Inductive cmp_op : Type := OpLt | OpGt.

Definition cmp_Z (op : cmp_op) (x y : Z) : bool :=
  match op with OpLt => (x <? y)%Z | OpGt => (y <? x)%Z end.

Definition cmp_str (op : cmp_op) (s t : string) : bool :=
  match op with OpLt => String.ltb s t | OpGt => String.ltb t s end.

Definition cmp_len (op : cmp_op) (n m : nat) : bool :=
  match op with OpLt => (n <? m)%nat | OpGt => (m <? n)%nat end.

(** [a < b] and [a > b].  Numbers compare by value, strings by code points,
    lists at their first pair of unequal elements (by length when one is a
    prefix of the other); every other pair of types raises [TypeError]. *)
Fixpoint py_cmp (op : cmp_op) (a b : json) {struct a} : result bool :=
  match a, b with
  | JStr s, JStr t => Ok (cmp_str op s t)
  | JArr l, JArr m =>
      (fix go (l m : list json) {struct l} : result bool :=
         match l, m with
         | x :: l', y :: m' => if py_eq x y then go l' m' else py_cmp op x y
         | _, _ => Ok (cmp_len op (length l) (length m))
         end) l m
  | _, _ =>
      match as_int a, as_int b with
      | Some x, Some y => Ok (cmp_Z op x y)
      | _, _ => Raise TypeError
      end
  end.

(** ** Dictionary keys

    [hash(x)] raises [TypeError] on a list or a dict.  [True] and [1]
    ([False] and [0]) are equal and hash alike, so they are one key. *)
Inductive pykey : Type :=
  | KNone
  | KInt (z : Z)
  | KStr (s : string).

#[global] Instance pykey_eq_dec : EqDecision pykey.
Proof. solve_decision. Defined.

#[global] Instance pykey_countable : Countable pykey.
Proof.
  refine (inj_countable'
    (fun k => match k with
              | KNone => inl ()
              | KInt z => inr (inl z)
              | KStr s => inr (inr s)
              end)
    (fun x => match x with
              | inl _ => KNone
              | inr (inl z) => KInt z
              | inr (inr s) => KStr s
              end) _).
  by intros [].
Defined.

Definition py_hash (x : json) : result pykey :=
  match x with
  | JNull => Ok KNone
  | JBool b => Ok (KInt (if b then 1 else 0))
  | JInt z => Ok (KInt z)
  | JStr s => Ok (KStr s)
  | JArr _ | JObj _ => Raise TypeError
  end.

(** ** Insertion-ordered dictionaries *)

Definition pydict (K V : Type) : Type := list (K * V).

Section pydict.
Context {K V : Type} `{EqDecision K}.

Fixpoint dict_get (k : K) (d : pydict K V) : option V :=
  match d with
  | [] => None
  | (k', v) :: d' => if decide (k = k') then Some v else dict_get k d'
  end.

(** [d[k] = v]: an existing key keeps its place, a new key goes last. *)
Fixpoint dict_set (k : K) (v : V) (d : pydict K V) : pydict K V :=
  match d with
  | [] => [(k, v)]
  | (k', v') :: d' =>
      if decide (k = k') then (k', v) :: d' else (k', v') :: dict_set k v d'
  end.

Definition dict_keys (d : pydict K V) : list K := map fst d.

(** [k in d]. *)
Definition dict_mem (k : K) (d : pydict K V) : bool :=
  match dict_get k d with Some _ => true | None => false end.

(** [d[k] = f(d[k])] on a [defaultdict] whose factory returns [dflt]. *)
Definition dd_update (dflt : V) (f : V -> V) (k : K) (d : pydict K V)
  : pydict K V :=
  dict_set k (f (default dflt (dict_get k d))) d.
End pydict.

(** [d[k] += n] on a plain dict: [KeyError] when [k] is absent. *)
Definition item_iadd {K} `{EqDecision K} (k : K) (n : Z) (d : pydict K Z)
  : result (pydict K Z) :=
  match dict_get k d with
  | Some x => Ok (dict_set k (x + n)%Z d)
  | None => Raise KeyError
  end.

(** [d[k] += n] on a [defaultdict(int)]. *)
Definition dd_iadd {K} `{EqDecision K} (k : K) (n : Z) (d : pydict K Z)
  : pydict K Z :=
  dd_update 0%Z (fun x => (x + n)%Z) k d.

Definition sumZ (l : list Z) : Z := foldr Z.add 0%Z l.

(** [len(s)]. *)
Definition len (s : string) : Z := Z.of_nat (String.length s).

(** ** Session statistics *)

(** One entry of [tool_result_sizes]: [{'count': _, 'total_chars': _}]. *)
Record size_agg : Type := SizeAgg { sz_count : Z; sz_total_chars : Z }.

(** One entry of [models]: [{'input': _, 'output': _, 'calls': _}]. *)
Record model_usage : Type :=
  ModelUsage { mu_input : Z; mu_output : Z; mu_calls : Z }.

Definition size_agg0 : size_agg := SizeAgg 0 0.
Definition model_usage0 : model_usage := ModelUsage 0 0 0.

(** The dict [stats] of [analyze_session]; [ts_first] and [ts_last] are
    [stats['timestamps']['first']] and [['last']]. *)
Record stats : Type := Stats {
  session_id : json;
  file : string;
  messages : pydict string Z;
  tool_calls : pydict pykey Z;
  tool_result_sizes : pydict pykey size_agg;
  tokens : pydict string Z;
  models : pydict pykey model_usage;
  ts_first : json;
  ts_last : json;
}.

Definition set_session_id (v : json) (st : stats) : stats :=
  Stats v (file st) (messages st) (tool_calls st) (tool_result_sizes st)
        (tokens st) (models st) (ts_first st) (ts_last st).
Definition set_messages (v : pydict string Z) (st : stats) : stats :=
  Stats (session_id st) (file st) v (tool_calls st) (tool_result_sizes st)
        (tokens st) (models st) (ts_first st) (ts_last st).
Definition set_tool_calls (v : pydict pykey Z) (st : stats) : stats :=
  Stats (session_id st) (file st) (messages st) v (tool_result_sizes st)
        (tokens st) (models st) (ts_first st) (ts_last st).
Definition set_tool_result_sizes (v : pydict pykey size_agg) (st : stats)
  : stats :=
  Stats (session_id st) (file st) (messages st) (tool_calls st) v
        (tokens st) (models st) (ts_first st) (ts_last st).
Definition set_tokens (v : pydict string Z) (st : stats) : stats :=
  Stats (session_id st) (file st) (messages st) (tool_calls st)
        (tool_result_sizes st) v (models st) (ts_first st) (ts_last st).
Definition set_models (v : pydict pykey model_usage) (st : stats) : stats :=
  Stats (session_id st) (file st) (messages st) (tool_calls st)
        (tool_result_sizes st) (tokens st) v (ts_first st) (ts_last st).
Definition set_timestamps (f l : json) (st : stats) : stats :=
  Stats (session_id st) (file st) (messages st) (tool_calls st)
        (tool_result_sizes st) (tokens st) (models st) f l.

(** The literal that opens [analyze_session]. *)
Definition stats_init (path : string) : stats := {|
  session_id := JNull;
  file := path;
  messages := [("user", 0); ("assistant", 0); ("system", 0)];
  tool_calls := [];
  tool_result_sizes := [];
  tokens := [("input", 0); ("output", 0); ("cache_read", 0);
             ("cache_creation", 0)];
  models := [];
  ts_first := JNull;
  ts_last := JNull;
|}.

(** The invocation index [tool_names]: identifier to tool name. *)
Abbreviation index := (gmap pykey pykey).

(** ** analyze_session *)

(** [for block in x]: a list yields its elements, a string its characters, a
    dict its keys; [None], a [bool] or an [int] is not iterable. *)
Definition py_iter (x : json) : result (list json) :=
  match x with
  | JArr l => Ok l
  | JStr s => Ok (map (fun c => JStr (String c "")) (list_ascii_of_string s))
  | JObj o => Ok (map (fun kv => JStr (fst kv)) o)
  | _ => Raise TypeError
  end.

(** [d[k] += x] for a decoded value [x] on a plain dict of integers. *)
Definition item_iadd_json (k : string) (x : json) (d : pydict string Z)
  : result (pydict string Z) :=
  match dict_get k d with
  | Some a => s ← int_add a x; Ok (dict_set k s d)
  | None => Raise KeyError
  end.

(** Lines 51-53. *)
Definition track_session_id (o : list (string * json)) (st : stats) : stats :=
  match obj_get "sessionId" o with
  | Some sid =>
      if negb (truthy (session_id st)) then set_session_id sid st else st
  | None => st
  end.

(** Lines 55-61. *)
Definition track_timestamps (o : list (string * json)) (st : stats)
  : result stats :=
  match obj_get "timestamp" o with
  | Some ts =>
      is_lt ← (if is_none (ts_first st) then Ok true
            else py_cmp OpLt ts (ts_first st));
      let f := if is_lt : bool then ts else ts_first st in
      is_gt ← (if is_none (ts_last st) then Ok true
            else py_cmp OpGt ts (ts_last st));
      let l := if is_gt : bool then ts else ts_last st in
      Ok (set_timestamps f l st)
  | None => Ok st
  end.

(** Lines 63-65. *)
Definition count_message (record_type : json) (st : stats) : result stats :=
  if existsb (fun t => py_eq record_type (JStr t))
             ["user"; "assistant"; "system"]
  then
    match record_type with
    | JStr t => m ← item_iadd t 1 (messages st); Ok (set_messages m st)
    | _ => Ok st
    end
  else Ok st.

(** Lines 72-76: the four usage counters go into the session totals. *)
Definition add_usage (u : list (string * json)) (st : stats) : result stats :=
  t ← item_iadd_json "input"
        (default (JInt 0) (obj_get "input_tokens" u)) (tokens st);
  t ← item_iadd_json "output"
        (default (JInt 0) (obj_get "output_tokens" u)) t;
  t ← item_iadd_json "cache_read"
        (default (JInt 0) (obj_get "cache_read_input_tokens" u)) t;
  t ← item_iadd_json "cache_creation"
        (default (JInt 0) (obj_get "cache_creation_input_tokens" u)) t;
  Ok (set_tokens t st).

(** Lines 78-82: per-model usage. *)
Definition add_model_usage (m u : list (string * json)) (st : stats)
  : result stats :=
  model ← py_hash (default (JStr "unknown") (obj_get "model" m));
  let e := default model_usage0 (dict_get model (models st)) in
  i ← int_add (mu_input e) (default (JInt 0) (obj_get "input_tokens" u));
  o ← int_add (mu_output e) (default (JInt 0) (obj_get "output_tokens" u));
  Ok (set_models
        (dict_set model (ModelUsage i o (mu_calls e + 1)) (models st)) st).

(** Lines 86-91: one content block of an assistant message. *)
Definition tool_use_block (block : json) (acc : pydict pykey Z * index)
  : result (pydict pykey Z * index) :=
  let '(calls, tool_names) := acc in
  match block with
  | JObj b =>
      if py_eq (get_or_none "type" b) (JStr "tool_use") then
        let tool_name := default (JStr "unknown") (obj_get "name" b) in
        let tool_id := get_or_none "id" b in
        name ← py_hash tool_name;
        let calls' := dd_iadd name 1 calls in
        if truthy tool_id then
          id ← py_hash tool_id; Ok (calls', <[id := name]> tool_names)
        else Ok (calls', tool_names)
      else Ok acc
  | _ => Ok acc
  end.

(** Lines 68-91: an assistant record that has a message. *)
Definition assistant_message (msg : json) (acc : stats * index)
  : result (stats * index) :=
  let '(st, tool_names) := acc in
  match msg with
  | JObj m =>
      match default (JObj []) (obj_get "usage" m) with
      | JObj u =>
          st ← add_usage u st;
          st ← add_model_usage m u st;
          blocks ← py_iter (default (JArr []) (obj_get "content" m));
          '(calls, tool_names) ←
            foldM tool_use_block (tool_calls st, tool_names) blocks;
          Ok (set_tool_calls calls st, tool_names)
      | _ => Raise AttributeError
      end
  | _ => Raise AttributeError
  end.

(** Lines 49-91: the body of the first loop for a decoded line. *)
Definition pass1_record (obj : json) (acc : stats * index)
  : result (stats * index) :=
  let '(st, tool_names) := acc in
  match obj with
  | JObj o =>
      let record_type := get_or_none "type" o in
      let st := track_session_id o st in
      st ← track_timestamps o st;
      st ← count_message record_type st;
      if py_eq record_type (JStr "assistant") then
        match obj_get "message" o with
        | Some msg => assistant_message msg (st, tool_names)
        | None => Ok (st, tool_names)
        end
      else Ok (st, tool_names)
  | _ => Raise AttributeError
  end.

Section analyze.
(** [json.loads] on one line: [None] stands for [json.JSONDecodeError].
    [json.dumps] on a decoded value.  Both belong to the Python library. *)
Variable json_loads : string -> option json.
Variable json_dumps : json -> string.

(** Lines 43-47, then the loop body. *)
Definition pass1_line (line : string) (acc : stats * index)
  : result (stats * index) :=
  match json_loads line with
  | Some obj => pass1_record obj acc
  | None => Ok acc
  end.

(** Lines 110-115. *)
Definition content_size (content : json) : Z :=
  match content with
  | JStr s => len s
  | JArr l => sumZ (map (fun b => len (json_dumps b)) l)
  | _ => len (json_dumps content)
  end.

(** Lines 104-118: one content block of a user message. *)
Definition tool_result_block (tool_names : index) (block : json)
    (sizes : pydict pykey size_agg) : result (pydict pykey size_agg) :=
  match block with
  | JObj b =>
      if py_eq (get_or_none "type" b) (JStr "tool_result") then
        tool_id ← py_hash (get_or_none "tool_use_id" b);
        let tool_name := default (KStr "unknown") (tool_names !! tool_id) in
        let content := default (JStr "") (obj_get "content" b) in
        let size := content_size content in
        let sizes :=
          dd_update size_agg0
            (fun e => SizeAgg (sz_count e + 1) (sz_total_chars e))
            tool_name sizes in
        Ok (dd_update size_agg0
              (fun e => SizeAgg (sz_count e) (sz_total_chars e + size))
              tool_name sizes)
      else Ok sizes
  | _ => Ok sizes
  end.

(** Lines 100-118: the body of the second loop for a decoded line. *)
Definition pass2_record (tool_names : index) (obj : json) (st : stats)
  : result stats :=
  match obj with
  | JObj o =>
      if py_eq (get_or_none "type" o) (JStr "user") then
        match obj_get "message" o with
        | Some (JObj m) =>
            match get_or_none "content" m with
            | JArr blocks =>
                sizes ← foldM (tool_result_block tool_names)
                          (tool_result_sizes st) blocks;
                Ok (set_tool_result_sizes sizes st)
            | _ => Ok st
            end
        | Some _ => Raise AttributeError
        | None => Ok st
        end
      else Ok st
  | _ => Raise AttributeError
  end.

Definition pass2_line (tool_names : index) (line : string) (st : stats)
  : result stats :=
  match json_loads line with
  | Some obj => pass2_record tool_names obj st
  | None => Ok st
  end.

Definition pass1 (path : string) (lines : list string)
  : result (stats * index) :=
  foldM pass1_line (stats_init path, ∅) lines.

Definition pass2 (tool_names : index) (lines : list string) (st : stats)
  : result stats :=
  foldM (pass2_line tool_names) st lines.

(** [analyze_session(jsonl_path)] where [lines] is what [f.readlines()]
    returns for that path. *)
Definition analyze_session (path : string) (lines : list string)
  : result stats :=
  '(st, tool_names) ← pass1 path lines;
  pass2 tool_names lines st.
End analyze.

(** ** Aggregation: print_summary and export_snapshot *)

(** [a // b]. *)
Definition py_floordiv (a b : Z) : result Z :=
  if (b =? 0)%Z then Raise ZeroDivisionError else Ok (a / b)%Z.

(** [sorted(l, key=lambda x: -key(x))]: the sort is stable. *)
Fixpoint insert_desc {A : Type} (key : A -> Z) (x : A) (l : list A) : list A :=
  match l with
  | [] => [x]
  | y :: l' =>
      if (key y <=? key x)%Z then x :: l else y :: insert_desc key x l'
  end.

Definition sorted_desc {A : Type} (key : A -> Z) (l : list A) : list A :=
  foldr (insert_desc key) [] l.

(** The dict [totals] of [print_summary] and of [export_snapshot]. *)
Record totals : Type := Totals {
  t_messages : pydict string Z;
  t_tokens : pydict string Z;
  t_tool_calls : pydict pykey Z;
  t_tool_result_sizes : pydict pykey size_agg;
}.

Definition tokens0 : pydict string Z :=
  [("input", 0); ("output", 0); ("cache_read", 0); ("cache_creation", 0)].

(** Lines 202-207. *)
Definition summary_totals0 : totals :=
  Totals [("user", 0); ("assistant", 0); ("system", 0)] tokens0 [] [].

(** Lines 288-293. *)
Definition snapshot_totals0 : totals :=
  Totals [("user", 0); ("assistant", 0)] tokens0 [] [].

(** [for k, v in items: tot[k] += v] on a plain dict. *)
Definition add_items (items tot : pydict string Z) : result (pydict string Z) :=
  foldM (fun kv t => item_iadd (fst kv) (snd kv) t) tot items.

(** Lines 296-298: the same loop behind the guard [if k in tot]. *)
Definition add_known_items (items tot : pydict string Z)
  : result (pydict string Z) :=
  foldM (fun kv t =>
           if dict_mem (fst kv) t then item_iadd (fst kv) (snd kv) t else Ok t)
        tot items.

(** Lines 214-215 and 301-302. *)
Definition add_tool_calls (items tot : pydict pykey Z) : pydict pykey Z :=
  fold_left (fun t kv => dd_iadd (fst kv) (snd kv) t) items tot.

(** Lines 216-218 and 303-305. *)
Definition add_tool_result_sizes (items tot : pydict pykey size_agg)
  : pydict pykey size_agg :=
  fold_left
    (fun t kv =>
       let t :=
         dd_update size_agg0
           (fun e => SizeAgg (sz_count e + sz_count (snd kv)) (sz_total_chars e))
           (fst kv) t in
       dd_update size_agg0
         (fun e =>
            SizeAgg (sz_count e) (sz_total_chars e + sz_total_chars (snd kv)))
         (fst kv) t)
    items tot.

(** Lines 210-218: one session in the loop of [print_summary]. *)
Definition summary_accumulate (st : stats) (t : totals) : result totals :=
  m ← add_items (messages st) (t_messages t);
  k ← add_items (tokens st) (t_tokens t);
  Ok (Totals m k
        (add_tool_calls (tool_calls st) (t_tool_calls t))
        (add_tool_result_sizes (tool_result_sizes st)
           (t_tool_result_sizes t))).

(** Lines 296-305: one session in the loop of [export_snapshot]. *)
Definition snapshot_accumulate (st : stats) (t : totals) : result totals :=
  m ← add_known_items (messages st) (t_messages t);
  k ← add_items (tokens st) (t_tokens t);
  Ok (Totals m k
        (add_tool_calls (tool_calls st) (t_tool_calls t))
        (add_tool_result_sizes (tool_result_sizes st)
           (t_tool_result_sizes t))).

Definition summary_totals (all_stats : list stats) : result totals :=
  foldM summary_accumulate summary_totals0 all_stats.

Definition snapshot_totals (all_stats : list stats) : result totals :=
  foldM snapshot_accumulate snapshot_totals0 all_stats.

Definition read_tools : list pykey := [KStr "Read"; KStr "Glob"; KStr "Grep"].

(** [sum(calls.get(t, 0) for t in read_tools)]. *)
Definition read_search_calls_of (calls : pydict pykey Z) : Z :=
  sumZ (map (fun t => default 0%Z (dict_get t calls)) read_tools).

(** [sum(sizes.get(t, {}).get('total_chars', 0) for t in read_tools)]. *)
Definition read_search_chars_of (sizes : pydict pykey size_agg) : Z :=
  sumZ (map (fun t => match dict_get t sizes with
                      | Some d => sz_total_chars d
                      | None => 0%Z
                      end) read_tools).

(** [sum(d['total_chars'] for d in sizes.values())]. *)
Definition total_chars_of (sizes : pydict pykey size_agg) : Z :=
  sumZ (map (fun kv => sz_total_chars (snd kv)) sizes).

(** [total // count if count else 0], lines 253 and 258. *)
Definition average (d : size_agg) : result Z :=
  if negb (sz_count d =? 0)%Z then py_floordiv (sz_total_chars d) (sz_count d)
  else Ok 0%Z.

(** [chars * 100 // total_chars if total_chars else 0], lines 249 and 259. *)
Definition percentage (chars total_chars : Z) : result Z :=
  if negb (total_chars =? 0)%Z then py_floordiv (chars * 100) total_chars
  else Ok 0%Z.

(** What [print_summary] prints about result sizes: the numbers of the
    lines written by lines 249, 254 and 260. *)
Record size_row : Type := SizeRow {
  row_tool : pykey;
  row_chars : Z;
  row_pct : option Z;
  row_avg : Z;
}.

Record size_report : Type := SizeReport {
  rep_read_chars : Z;
  rep_read_pct : Z;
  rep_read_rows : list size_row;
  rep_all_rows : list size_row;
}.

(** Lines 250-254: a read tool is listed when its [total_chars] is not 0. *)
Definition read_row (sizes : pydict pykey size_agg) (tool : pykey)
    (rows : list size_row) : result (list size_row) :=
  match dict_get tool sizes with
  | Some d =>
      if negb (sz_total_chars d =? 0)%Z then
        avg ← average d;
        Ok (rows ++ [SizeRow tool (sz_total_chars d) None avg])
      else Ok rows
  | None => Ok rows
  end.

(** Lines 257-260. *)
Definition all_row (total_chars : Z) (kv : pykey * size_agg)
    (rows : list size_row) : result (list size_row) :=
  avg ← average (snd kv);
  pct ← percentage (sz_total_chars (snd kv)) total_chars;
  Ok (rows ++ [SizeRow (fst kv) (sz_total_chars (snd kv)) (Some pct) avg]).

(** Lines 243-260; [None] when [totals['tool_result_sizes']] is empty. *)
Definition report_sizes (sizes : pydict pykey size_agg)
  : result (option size_report) :=
  match sizes with
  | [] => Ok None
  | _ =>
      let read_chars := read_search_chars_of sizes in
      let total_chars := total_chars_of sizes in
      read_pct ← percentage read_chars total_chars;
      read_rows ← foldM (read_row sizes) [] read_tools;
      all_rows ←
        foldM (all_row total_chars) []
          (take 10 (sorted_desc (fun kv => sz_total_chars (snd kv)) sizes));
      Ok (Some (SizeReport read_chars read_pct read_rows all_rows))
  end.

(** [d[k]] on a plain dict. *)
Definition item (k : string) (d : pydict string Z) : result Z :=
  match dict_get k d with
  | Some v => Ok v
  | None => Raise KeyError
  end.

(** The least quotient that a float cannot hold: [int / int] gives the
    float nearest to the quotient and raises [OverflowError] when that is
    2^1024 or more, that is from the midpoint between the greatest float,
    2^1024 - 2^971, and 2^1024 on. *)
Definition float_limit : Z := 2 ^ 1024 - 2 ^ 970.

(** The three texts of [format_tokens]: [str(n)], [f"{n/1_000:.1f}K"] and
    [f"{n/1_000_000:.1f}M"].  The digits of the last two come from rounding
    a float to one decimal, which this model leaves to the reader of the
    text. *)
Inductive token_text : Type :=
  | Plain (n : Z)
  | Thousands (n : Z)
  | Millions (n : Z).

(** [format_tokens(n)], lines 128-134, on an integer.  The quotient
    [n/1_000_000] does not fit a float from [float_limit] millions on;
    [n/1_000] is taken below a million only. *)
Definition format_tokens (n : Z) : result token_text :=
  if (1000000 <=? n)%Z then
    if (float_limit * 1000000 <=? n)%Z then Raise OverflowError
    else Ok (Millions n)
  else if (1000 <=? n)%Z then Ok (Thousands n)
  else Ok (Plain n).

(** What [print_summary] prints, as numbers. *)
Record summary : Type := Summary {
  sum_sessions : nat;
  sum_totals : totals;
  sum_read_total : Z;
  sum_read_calls : list (pykey * Z);
  sum_all_tools : list (pykey * Z);
  sum_sizes : option size_report;
}.

(** Lines 225-228: the four token totals go through [format_tokens]. *)
Definition format_totals (tokens : pydict string Z) : result unit :=
  input ← item "input" tokens;
  _ ← format_tokens input;
  output ← item "output" tokens;
  _ ← format_tokens output;
  cache_read ← item "cache_read" tokens;
  _ ← format_tokens cache_read;
  cache_creation ← item "cache_creation" tokens;
  _ ← format_tokens cache_creation;
  Ok tt.

(** Lines 196-260.  Line 235 reads [totals['tool_calls'][tool]] on a
    [defaultdict], which adds a missing read tool with count 0 before the
    listing of all tools. *)
Definition print_summary (all_stats : list stats) : result summary :=
  t ← summary_totals all_stats;
  _ ← format_totals (t_tokens t);
  let read_total := read_search_calls_of (t_tool_calls t) in
  let calls :=
    fold_left (fun c tool => dd_iadd tool 0 c) read_tools (t_tool_calls t) in
  let read_calls :=
    filter (fun kv => snd kv ≠ 0%Z)
      (map (fun tool => (tool, default 0%Z (dict_get tool calls))) read_tools) in
  let all_tools := take 15 (sorted_desc snd calls) in
  sizes ← report_sizes (t_tool_result_sizes t);
  Ok (Summary (length all_stats) t read_total read_calls all_tools sizes).

(** The dict [snapshot] of [export_snapshot]. *)
Record snapshot : Type := Snapshot {
  snap_timestamp : string;
  grafema_mcp_enabled : bool;
  sessions_count : nat;
  snap_messages : pydict string Z;
  snap_tokens : pydict string Z;
  snap_tool_calls : pydict pykey Z;
  snap_tool_result_sizes : pydict pykey size_agg;
  read_search_calls : Z;
  read_search_chars : Z;
  total_tool_result_chars : Z;
  snap_note : option string;
}.

Definition newline : string := String "010"%char EmptyString.

(** The file system: the text of each existing file, by path. *)
Abbreviation filesystem := (gmap string string).

Section export.
(** [json.dumps] on the snapshot dict. *)
Variable json_dumps : snapshot -> string.

(** Lines 307-325; [now] is [datetime.now(timezone.utc).isoformat()]. *)
Definition build_snapshot (now : string) (n : nat) (t : totals)
    (grafema_mcp : bool) (note : option string) : snapshot := {|
  snap_timestamp := now;
  grafema_mcp_enabled := grafema_mcp;
  sessions_count := n;
  snap_messages := t_messages t;
  snap_tokens := t_tokens t;
  snap_tool_calls := t_tool_calls t;
  snap_tool_result_sizes := t_tool_result_sizes t;
  read_search_calls := read_search_calls_of (t_tool_calls t);
  read_search_chars := read_search_chars_of (t_tool_result_sizes t);
  total_tool_result_chars := total_chars_of (t_tool_result_sizes t);
  snap_note :=
    match note with
    | Some s => if String.eqb s "" then None else Some s
    | None => None
    end;
|}.

(** Lines 327-330: mode ['a'] adds to the end of an existing file, mode
    ['w'] starts the file anew. *)
Definition write_snapshot (output_path : string) (append : bool)
    (text : string) (fs : filesystem) : filesystem :=
  match fs !! output_path with
  | Some old =>
      if append then <[output_path := old +:+ text]> fs
      else <[output_path := text]> fs
  | None => <[output_path := text]> fs
  end.

(** [export_snapshot(all_stats, output_path, append, grafema_mcp, note)];
    it returns the snapshot and leaves the file system changed. *)
Definition export_snapshot (now : string) (all_stats : list stats)
    (output_path : string) (append : bool) (grafema_mcp : bool)
    (note : option string) (fs : filesystem)
  : result (snapshot * filesystem) :=
  t ← snapshot_totals all_stats;
  let snap := build_snapshot now (length all_stats) t grafema_mcp note in
  Ok (snap, write_snapshot output_path append (json_dumps snap +:+ newline) fs).
End export.

(** ** Reading and decoding: analyze_session on a path *)

(** What [json.loads(line)] does: it returns the decoded value, raises
    [json.JSONDecodeError], or raises another exception ([RecursionError]
    on a text nested deeper than the interpreter allows). *)
Inductive loads_outcome : Type :=
  | Loaded (v : json)
  | JSONDecodeError
  | LoadsRaised (e : exn).

Section analyze_file.
Variable loads : string -> loads_outcome.
Variable json_dumps : json -> string.

(** The decoder as the two loops take it between [try] and [except]:
    [None] is the line that the [except] clause skips. *)
Definition decoded (line : string) : option json :=
  match loads line with
  | Loaded v => Some v
  | JSONDecodeError | LoadsRaised _ => None
  end.

(** Lines 43-91: the [except] of line 46 catches [json.JSONDecodeError]
    only, so another exception of [json.loads] leaves the function. *)
Definition pass1_try (line : string) (acc : stats * index)
  : result (stats * index) :=
  match loads line with
  | LoadsRaised e => Raise e
  | Loaded _ | JSONDecodeError => pass1_line decoded line acc
  end.

(** Lines 94-118, with the [except] of line 97. *)
Definition pass2_try (tool_names : index) (line : string) (st : stats)
  : result stats :=
  match loads line with
  | LoadsRaised e => Raise e
  | Loaded _ | JSONDecodeError =>
      pass2_line decoded json_dumps tool_names line st
  end.

(** [analyze_session(jsonl_path)] from the outcome of [f.readlines()], lines
    38-39, which no [try] encloses: the lines of the file, or the exception
    of a file that is not text in the encoding of [open]
    ([UnicodeDecodeError]). *)
Definition analyze_session_file (contents : result (list string))
    (path : string) : result stats :=
  lines ← contents;
  '(st, tool_names) ← foldM pass1_try (stats_init path, ∅) lines;
  foldM (pass2_try tool_names) st lines.
End analyze_file.

(** ** Token counts that are floats

    A JSON number with a fraction or an exponent decodes to a [float], and
    [+=] on lines 73-74 and 80-81 then adds in binary floating point.  The
    statistics above hold integers; what follows is lines 73 and 80 for a
    counter whose values are numbers of either kind. *)

(** A Python number: an [int], or a [float], which is a binary64 value. *)
Inductive number : Type :=
  | NInt (z : Z)
  | NFloat (f : SpecFloat.spec_float).

(** [float(z)]: the float nearest to [z], ties to even; [OverflowError]
    when it is beyond the greatest float. *)
Definition float_of_int (z : Z) : result SpecFloat.spec_float :=
  match SpecFloat.binary_normalize 53 1024 z 0 false with
  | SpecFloat.S754_infinity _ => Raise OverflowError
  | f => Ok f
  end.

(** [a + b]: exact on two [int]s; with a [float], the [int] is converted
    and the sum is rounded. *)
Definition num_add (a b : number) : result number :=
  match a, b with
  | NInt x, NInt y => Ok (NInt (x + y))
  | NInt x, NFloat g =>
      f ← float_of_int x; Ok (NFloat (SpecFloat.SFadd 53 1024 f g))
  | NFloat f, NInt y =>
      g ← float_of_int y; Ok (NFloat (SpecFloat.SFadd 53 1024 f g))
  | NFloat f, NFloat g => Ok (NFloat (SpecFloat.SFadd 53 1024 f g))
  end.

(** [a == b]: an [int] and a [float] are equal when they are the same
    number. *)
Definition num_eq (a b : number) : bool :=
  let int_float (x : Z) (f : SpecFloat.spec_float) : bool :=
    match f with
    | SpecFloat.S754_zero _ => (x =? 0)%Z
    | SpecFloat.S754_finite s m e =>
        let v := (if s then - Z.pos m else Z.pos m)%Z in
        if (0 <=? e)%Z then (x =? v * 2 ^ e)%Z else (x * 2 ^ (- e) =? v)%Z
    | _ => false
    end in
  match a, b with
  | NInt x, NInt y => (x =? y)%Z
  | NInt x, NFloat g => int_float x g
  | NFloat f, NInt y => int_float y f
  | NFloat f, NFloat g => SpecFloat.SFeqb f g
  end.

(** Lines 73 and 80 for one assistant message: [x] is
    [usage.get('input_tokens', 0)], the first component of [acc] is
    [stats['tokens']['input']] and the second holds
    [stats['models'][m]['input']] for every model [m]. *)
Definition add_input (model : pykey) (x : number)
    (acc : number * pydict pykey number)
  : result (number * pydict pykey number) :=
  total ← num_add (fst acc) x;
  entry ← num_add (default (NInt 0) (dict_get model (snd acc))) x;
  Ok (total, dict_set model entry (snd acc)).

(** The two counters after the assistant messages of a file, each given by
    its model and its input tokens. *)
Definition input_totals (msgs : list (pykey * number))
  : result (number * pydict pykey number) :=
  foldM (fun m acc => add_input (fst m) (snd m) acc) (NInt 0, []) msgs.

(** [sum(l)]. *)
Definition num_sum (l : list number) : result number :=
  foldM (fun x acc => num_add acc x) (NInt 0) l.

(** ** The report of one session: print_stats *)

(** [a < b] on two dictionary keys: numbers compare by value, strings by
    code points; [None] and keys of two kinds do not compare. *)
Definition key_lt (a b : pykey) : result bool :=
  match a, b with
  | KInt x, KInt y => Ok (x <? y)%Z
  | KStr s, KStr t => Ok (String.ltb s t)
  | _, _ => Raise TypeError
  end.

#[global] Instance model_usage_eq_dec : EqDecision model_usage.
Proof. solve_decision. Defined.

(** [a < b] on two items [(model, usage)] of [stats['models'].items()].
    Tuples compare at their first pair of unequal components: the models
    when they differ, else the usages, and two unequal dicts do not
    compare. *)
Definition item_lt (a b : pykey * model_usage) : result bool :=
  if decide (fst a = fst b) then
    if decide (snd a = snd b) then Ok false else Raise TypeError
  else key_lt (fst a) (fst b).

(** [sorted(l)] under a comparison that can raise: a stable insertion sort.
    The sort of Python is stable too and lets the exception of a comparison
    through, but it compares other pairs than this one does.  On the items
    of [models] the two agree: the keys differ from one another, a sort
    that ends has ordered every two elements, so either sort raises
    [TypeError] exactly when two keys are of different kinds, and the
    sorted list is unique. *)
Fixpoint insert_asc {A : Type} (lt : A -> A -> result bool) (x : A)
    (l : list A) : result (list A) :=
  match l with
  | [] => Ok [x]
  | y :: l' =>
      b ← lt y x;
      if b : bool then r ← insert_asc lt x l'; Ok (y :: r) else Ok (x :: l)
  end.

Fixpoint sorted_asc {A : Type} (lt : A -> A -> result bool) (l : list A)
  : result (list A) :=
  match l with
  | [] => Ok []
  | x :: l' => s ← sorted_asc lt l'; insert_asc lt x s
  end.

Definition edit_tools : list pykey :=
  [KStr "Edit"; KStr "Write"; KStr "NotebookEdit"].

(** Lines 181-183 and 186-188: the tools of [group] that the table lists,
    with their counts. *)
Definition listed_of (group : list pykey) (calls : pydict pykey Z)
  : list (pykey * Z) :=
  omap (fun tool =>
          match dict_get tool calls with
          | Some n => Some (tool, n)
          | None => None
          end) group.

(** Lines 177-193: what the section on tool calls prints. *)
Record tool_groups : Type := ToolGroups {
  grp_read_total : Z;
  grp_read : list (pykey * Z);
  grp_edit_total : Z;
  grp_edit : list (pykey * Z);
  grp_other : list (pykey * Z);
}.

Definition group_tools (calls : pydict pykey Z) : tool_groups := {|
  grp_read_total := sumZ (map (fun t => default 0%Z (dict_get t calls))
                            read_tools);
  grp_read := listed_of read_tools calls;
  grp_edit_total := sumZ (map (fun t => default 0%Z (dict_get t calls))
                            edit_tools);
  grp_edit := listed_of edit_tools calls;
  grp_other :=
    filter (fun kv => (fst kv ∉ read_tools) /\ (fst kv ∉ edit_tools))
      (sorted_desc snd calls);
|}.

(** What [print_stats] prints, as values: the token counts are those handed
    to [format_tokens]. *)
Record stats_report : Type := StatsReport {
  rpt_session : json;
  rpt_file : string;
  rpt_duration : option string;
  rpt_user : Z;
  rpt_assistant : Z;
  rpt_system : Z;
  rpt_input : Z;
  rpt_output : Z;
  rpt_cache_read : Z;
  rpt_cache_creation : Z;
  rpt_total : Z;
  rpt_models : option (list (pykey * model_usage));
  rpt_tools : option tool_groups;
}.

(** Line 169: the input and the output of a model go through
    [format_tokens]. *)
Definition format_model (kv : pykey * model_usage) (_ : unit) : result unit :=
  _ ← format_tokens (mu_input (snd kv));
  _ ← format_tokens (mu_output (snd kv));
  Ok tt.

Section print_stats.
(** Lines 144-150: the text of [last - first] when both timestamps parse as
    ISO dates, [None] when anything in the [try] block raises. *)
Variable duration : json -> json -> option string.

(** [print_stats(stats, verbose)], lines 137-193. *)
Definition print_stats (st : stats) (verbose : bool) : result stats_report :=
  let session :=
    if truthy (session_id st) then session_id st else JStr "unknown" in
  let elapsed :=
    if truthy (ts_first st) && truthy (ts_last st)
    then duration (ts_first st) (ts_last st) else None in
  user ← item "user" (messages st);
  assistant ← item "assistant" (messages st);
  system ← item "system" (messages st);
  input ← item "input" (tokens st);
  _ ← format_tokens input;
  output ← item "output" (tokens st);
  _ ← format_tokens output;
  cache_read ← item "cache_read" (tokens st);
  _ ← format_tokens cache_read;
  cache_creation ← item "cache_creation" (tokens st);
  _ ← format_tokens cache_creation;
  let total := sumZ (map snd (tokens st)) in
  _ ← format_tokens total;
  by_model ←
    match models st with
    | [] => Ok None
    | items =>
        sorted ← sorted_asc item_lt items;
        _ ← foldM format_model tt sorted;
        Ok (Some sorted)
    end;
  let tools :=
    match tool_calls st with
    | [] => None
    | calls => Some (group_tools calls)
    end in
  Ok (StatsReport session (file st) elapsed user assistant system input
        output cache_read cache_creation total by_model tools).
End print_stats.

(** ** The command line: main *)

(** The namespace that [parser.parse_args()] returns.  [arg_files] holds the
    positional arguments as paths; an option that was not given is
    [None]. *)
Record args : Type := Args {
  arg_files : list string;
  arg_verbose : bool;
  arg_json : bool;
  arg_summary_only : bool;
  arg_grafema : bool;
  arg_worktree : option (list string);
  arg_export : bool;
  arg_export_path : option string;
  arg_grafema_mcp : bool;
  arg_note : option string;
}.

(** What [main] prints, one constructor a [print] site: line 373, the call
    of line 381, line 384, the call of line 386 and lines 406-410. *)
Inductive output : Type :=
  | NoFilesMessage
  | StatsPrinted (r : stats_report)
  | JsonPrinted (all_stats : list stats)
  | SummaryPrinted (s : summary)
  | ExportPrinted (path : string) (snap : snapshot).

(** How a run of [main] ends: it returns, [sys.exit(code)] ends it, or an
    exception leaves it. *)
Inductive exit_status : Type :=
  | Returned
  | SystemExit (code : Z)
  | Uncaught (e : exn).

(** A run of [main]: what it printed (of a call that raised, nothing), the
    file system it leaves and how it ended. *)
Record run : Type := Run {
  printed : list output;
  files_after : filesystem;
  status : exit_status;
}.

Section main.
Variable json_loads : string -> option json.
Variable json_dumps : json -> string.
Variable snapshot_dumps : snapshot -> string.
Variable duration : json -> json -> option string.
(** [datetime.now(timezone.utc).isoformat()] at the export. *)
Variable now : string.
(** [find_grafema_sessions(worktree)], lines 263-279: a directory listing of
    [~/.claude/projects], taken as given. *)
Variable find_grafema_sessions : option string -> list string.
(** The lines that [f.readlines()] gives for the text of a file. *)
Variable readlines : string -> list string.
(** Lines 395-398: [stats/session-stats.jsonl] beside the scripts, once its
    directory is there. *)
Variable default_export_path : string.

(** Lines 364-370. *)
Definition files_to_analyze (a : args) : list string :=
  if arg_grafema a then find_grafema_sessions None
  else
    match arg_worktree a with
    | Some (w :: ws) =>
        concat (map (fun w => find_grafema_sessions (Some w)) (w :: ws))
    | _ => arg_files a
    end.

(** Lines 376-381: the loop over the paths, from the statistics and the
    output so far.  The third component is the exception that left the
    loop.  [path.exists()] is [fs !! path] being defined: the file system
    holds the files that can be read, and no directory. *)
Fixpoint analyze_files (a : args) (fs : filesystem) (paths : list string)
    (all_stats : list stats) (out : list output)
  : list stats * list output * option exn :=
  match paths with
  | [] => (all_stats, out, None)
  | path :: rest =>
      match fs !! path with
      | None => analyze_files a fs rest all_stats out
      | Some text =>
          match analyze_session json_loads json_dumps path (readlines text)
          with
          | Raise e => (all_stats, out, Some e)
          | Ok st =>
              if negb (arg_summary_only a) && negb (arg_json a) then
                match print_stats duration st (arg_verbose a) with
                | Raise e => (all_stats ++ [st], out, Some e)
                | Ok r =>
                    analyze_files a fs rest (all_stats ++ [st])
                      (out ++ [StatsPrinted r])
                end
              else analyze_files a fs rest (all_stats ++ [st]) out
          end
      end
  end.

(** Lines 383-386. *)
Definition print_totals (a : args) (all_stats : list stats)
    (out : list output) : result (list output) :=
  if arg_json a then Ok (out ++ [JsonPrinted all_stats])
  else if (1 <? length all_stats)%nat then
    s ← print_summary all_stats; Ok (out ++ [SummaryPrinted s])
  else Ok out.

(** Lines 389-410; [export_snapshot] is called with its default
    [append=True]. *)
Definition export_requested (a : args) (all_stats : list stats)
    (out : list output) (fs : filesystem) : run :=
  match arg_export a, all_stats with
  | true, _ :: _ =>
      let export_path := default default_export_path (arg_export_path a) in
      match export_snapshot snapshot_dumps now all_stats export_path true
              (arg_grafema_mcp a) (arg_note a) fs with
      | Ok (snap, fs') =>
          Run (out ++ [ExportPrinted export_path snap]) fs' Returned
      | Raise e => Run out fs (Uncaught e)
      end
  | _, _ => Run out fs Returned
  end.

(** [main()] on the parsed arguments, lines 360-410. *)
Definition main (a : args) (fs : filesystem) : run :=
  match files_to_analyze a with
  | [] => Run [NoFilesMessage] fs (SystemExit 1)
  | paths =>
      match analyze_files a fs paths [] [] with
      | (_, out, Some e) => Run out fs (Uncaught e)
      | (all_stats, out, None) =>
          match print_totals a all_stats out with
          | Raise e => Run out fs (Uncaught e)
          | Ok out' => export_requested a all_stats out' fs
          end
      end
  end.
End main.

(** ** Reference notions used by the statements *)

(** The scenario of one assistant record followed by one user record. *)
Definition scenario_assistant : json :=
  JObj [("type", JStr "assistant");
        ("message",
         JObj [("content",
                JArr [JObj [("type", JStr "tool_use"); ("name", JStr "Read");
                            ("id", JStr "t1")]]);
               ("usage",
                JObj [("input_tokens", JInt 100);
                      ("output_tokens", JInt 50)])])].

Definition scenario_user : json :=
  JObj [("type", JStr "user");
        ("message",
         JObj [("content",
                JArr [JObj [("type", JStr "tool_result");
                            ("tool_use_id", JStr "t1");
                            ("content", JStr "hello")]])])].

(** A decoder that knows three lines, for the examples. *)
Definition scenario_loads (line : string) : option json :=
  if String.eqb line "assistant-line" then Some scenario_assistant
  else if String.eqb line "user-line" then Some scenario_user
  else if String.eqb line "system-line"
  then Some (JObj [("type", JStr "system")])
  else None.

Definition scenario_dumps (_ : json) : string := "null".

(** The shape the dict [stats['tokens']] keeps throughout a run. *)
Definition tokens_of (i o cr cc : Z) : pydict string Z :=
  [("input", i); ("output", o); ("cache_read", cr); ("cache_creation", cc)].

(** [sum(f(v) for v in d.values())]. *)
Definition sum_values {K V : Type} (f : V -> Z) (d : pydict K V) : Z :=
  sumZ (map (fun kv => f (snd kv)) d).

(** The values of the field [sessionId] of the decoded records that carry
    one, in file order. *)
Definition session_ids (json_loads : string -> option json)
    (lines : list string) : list json :=
  omap (fun line =>
          match json_loads line with
          | Some (JObj o) => obj_get "sessionId" o
          | _ => None
          end) lines.

(** The session id a run ends with, given the [sessionId] values it meets:
    the first truthy one, and without a truthy one the last one ([None] when
    there is none at all). *)
Definition adopted_session_id (ids : list json) : json :=
  match List.find truthy ids with
  | Some v => v
  | None => default JNull (last ids)
  end.

(** A decoder for a file whose first record has an empty [sessionId]. *)
Definition empty_sid_loads (line : string) : option json :=
  if String.eqb line "first" then Some (JObj [("sessionId", JStr "")])
  else if String.eqb line "second" then Some (JObj [("sessionId", JStr "s2")])
  else None.

(** *** Tool uses and tool results of a file *)

(** The name and the identifier of a [tool_use] block: [block.get('name',
    'unknown')] and [block.get('id')]. *)
Definition block_tool_use (block : json) : option (json * json) :=
  match block with
  | JObj b =>
      if py_eq (get_or_none "type" b) (JStr "tool_use")
      then Some (default (JStr "unknown") (obj_get "name" b), get_or_none "id" b)
      else None
  | _ => None
  end.

(** The content blocks of an assistant record. *)
Definition assistant_blocks (obj : json) : list json :=
  match obj with
  | JObj o =>
      if py_eq (get_or_none "type" o) (JStr "assistant") then
        match obj_get "message" o with
        | Some (JObj m) =>
            match py_iter (default (JArr []) (obj_get "content" m)) with
            | Ok blocks => blocks
            | Raise _ => []
            end
        | _ => []
        end
      else []
  | _ => []
  end.

(** Every [tool_use] block of the file, as (name, identifier), in file
    order. *)
Definition tool_uses (json_loads : string -> option json)
    (lines : list string) : list (json * json) :=
  flat_map (fun line =>
              match json_loads line with
              | Some obj => omap block_tool_use (assistant_blocks obj)
              | None => []
              end) lines.

(** What one tool use does to the call counters and to the index. *)
Definition use_step (acc : pydict pykey Z * index) (u : json * json)
  : pydict pykey Z * index :=
  match py_hash (fst u) with
  | Ok n =>
      (dd_iadd n 1 (fst acc),
       if truthy (snd u) then
         match py_hash (snd u) with
         | Ok k => <[k := n]> (snd acc)
         | Raise _ => snd acc
         end
       else snd acc)
  | Raise _ => acc
  end.

(** Some [tool_use] block of the file has a truthy identifier with key [k]
    and a name with key [n]. *)
Definition announces (json_loads : string -> option json)
    (lines : list string) (k n : pykey) : Prop :=
  exists name id,
    (name, id) ∈ tool_uses json_loads lines
    /\ truthy id = true /\ py_hash id = Ok k /\ py_hash name = Ok n.

(** The number of [tool_use] blocks of the file whose name has key [n]. *)
Definition uses_of (json_loads : string -> option json)
    (lines : list string) (n : pykey) : Z :=
  Z.of_nat (length (filter (fun u => py_hash (fst u) = Ok n)
                      (tool_uses json_loads lines))).

(** A decoder for a file whose only [tool_use] block has an empty
    identifier, announced after the result that refers to it. *)
Definition empty_id_use : json :=
  JObj [("type", JStr "assistant");
        ("message",
         JObj [("content",
                JArr [JObj [("type", JStr "tool_use"); ("name", JStr "Read");
                            ("id", JStr "")]])])].

Definition empty_id_result : json :=
  JObj [("type", JStr "user");
        ("message",
         JObj [("content",
                JArr [JObj [("type", JStr "tool_result");
                            ("tool_use_id", JStr "");
                            ("content", JStr "hello")]])])].

Definition empty_id_loads (line : string) : option json :=
  if String.eqb line "use" then Some empty_id_use
  else if String.eqb line "result" then Some empty_id_result
  else None.

(** A tool use whose name, and whose identifier when truthy, can be a
    dictionary key. *)
Definition use_hashable (u : json * json) : Prop :=
  (exists n, py_hash (fst u) = Ok n)
  /\ (truthy (snd u) = true -> exists k, py_hash (snd u) = Ok k).

(** The identifier and the content of a [tool_result] block:
    [block.get('tool_use_id')] and [block.get('content', '')]. *)
Definition block_tool_result (block : json) : option (json * json) :=
  match block with
  | JObj b =>
      if py_eq (get_or_none "type" b) (JStr "tool_result")
      then Some (get_or_none "tool_use_id" b,
                 default (JStr "") (obj_get "content" b))
      else None
  | _ => None
  end.

(** The content blocks of a user record whose content is a list. *)
Definition user_blocks (obj : json) : list json :=
  match obj with
  | JObj o =>
      if py_eq (get_or_none "type" o) (JStr "user") then
        match obj_get "message" o with
        | Some (JObj m) =>
            match get_or_none "content" m with
            | JArr blocks => blocks
            | _ => []
            end
        | _ => []
        end
      else []
  | _ => []
  end.

(** Every [tool_result] block of the file, as (identifier, content), in file
    order. *)
Definition tool_results (json_loads : string -> option json)
    (lines : list string) : list (json * json) :=
  flat_map (fun line =>
              match json_loads line with
              | Some obj => omap block_tool_result (user_blocks obj)
              | None => []
              end) lines.

(** The tool name a result with identifier [id] is attributed to. *)
Definition attributed_tool (tool_names : index) (id : json) : result pykey :=
  k ← py_hash id; Ok (default (KStr "unknown") (tool_names !! k)).

(** One more result of [size] characters for [tool]. *)
Definition add_result (tool : pykey) (size : Z)
    (sizes : pydict pykey size_agg) : pydict pykey size_agg :=
  dd_update size_agg0
    (fun e => SizeAgg (sz_count e) (sz_total_chars e + size)) tool
    (dd_update size_agg0
       (fun e => SizeAgg (sz_count e + 1) (sz_total_chars e)) tool sizes).

(** What one tool result does to the table of sizes. *)
Definition result_step (json_dumps : json -> string) (tool_names : index)
    (sizes : pydict pykey size_agg) (r : json * json)
  : pydict pykey size_agg :=
  match attributed_tool tool_names (fst r) with
  | Ok tool => add_result tool (content_size json_dumps (snd r)) sizes
  | Raise _ => sizes
  end.

(** The results of the file attributed to [tool]. *)
Definition results_of (json_loads : string -> option json)
    (tool_names : index) (lines : list string) (tool : pykey)
  : list (json * json) :=
  filter (fun r => attributed_tool tool_names (fst r) = Ok tool)
    (tool_results json_loads lines).

(** *** Snapshots *)

(** [sum(v for k', v in items if k' == k)]. *)
Definition items_sum (k : string) (items : list (string * Z)) : Z :=
  sumZ (map snd (filter (fun kv => fst kv = k) items)).

(** The messages of type [k] over all the sessions. *)
Definition messages_total (k : string) (all_stats : list stats) : Z :=
  sumZ (map (fun st => items_sum k (messages st)) all_stats).


(** The statistics of the file made of the two lines of the scenario and
    two system lines, and a serialiser of snapshots, for the examples. *)
Definition sample_lines : list string :=
  ["assistant-line"; "user-line"; "system-line"; "system-line"].

Definition sample_stats : stats := {|
  session_id := JNull;
  file := "session.jsonl";
  messages := [("user", 1); ("assistant", 1); ("system", 2)];
  tool_calls := [(KStr "Read", 1)];
  tool_result_sizes := [(KStr "Read", SizeAgg 1 5)];
  tokens := tokens_of 100 50 0 0;
  models := [(KStr "unknown", ModelUsage 100 50 1)];
  ts_first := JNull;
  ts_last := JNull;
|}.

Definition sample_dumps (s : snapshot) : string :=
  if grafema_mcp_enabled s then "{mcp}" else "{}".

Definition sample_fs : filesystem :=
  {[ "stats.jsonl" := String.append "earlier" newline ]}.

(** *** Timestamps *)








(** *** Invariants of a run *)

(** The models are listed once each, and the session totals of input and
    output tokens are the sums of the per-model totals. *)
Definition token_totals_agree (st : stats) : Prop :=
  NoDup (dict_keys (models st))
  /\ exists cr cc,
       tokens st
       = tokens_of (sum_values mu_input (models st))
           (sum_values mu_output (models st)) cr cc.

(** One step of the adoption of a session id: lines 52-53. *)
Definition adopt (cur sid : json) : json :=
  if negb (truthy cur) then sid else cur.

(** Session statistics that some run of [analyze_session] returns: what
    [main] puts in [all_stats]. *)
Definition analysed (st : stats) : Prop :=
  exists json_loads json_dumps path lines,
    analyze_session json_loads json_dumps path lines = Ok st.

(** The message and token counters keep the keys of their literals. *)
Definition counters_formed (st : stats) : Prop :=
  (exists u a s,
      messages st = [("user", u); ("assistant", a); ("system", s)])
  /\ (exists i o cr cc, tokens st = tokens_of i o cr cc).




(** Closes an equation between two tables of counters. *)
Ltac two_counts :=
  unfold sumZ; cbn [foldr map snd];
  repeat match goal with
         | |- Ok _ = Ok _ => f_equal
         | |- _ :: _ = _ :: _ => f_equal
         | |- (_, _) = (_, _) => f_equal
         end;
  lia.


(** ** Further reference notions *)

(** *** Records of a file *)

(** 1 when [obj] is an object whose type equals [t], else 0. *)
Definition type_is (t : string) (obj : json) : Z :=
  match obj with
  | JObj o => if py_eq (get_or_none "type" o) (JStr t) then 1 else 0
  | _ => 0
  end.

Definition has_type (json_loads : string -> option json) (t : string)
    (line : string) : Z :=
  match json_loads line with
  | Some obj => type_is t obj
  | None => 0
  end.

(** The number of records of type [t] in the file. *)
Definition records_of_type (json_loads : string -> option json)
    (t : string) (lines : list string) : Z :=
  sumZ (map (has_type json_loads t) lines).

(** The message and the usage of an assistant record that lines 68-82
    process: the record has a [message], the message is an object, and its
    [usage], an empty dict when absent, is an object. *)
Definition assistant_message_of (obj : json)
  : option (list (string * json) * list (string * json)) :=
  match obj with
  | JObj o =>
      if py_eq (get_or_none "type" o) (JStr "assistant") then
        match obj_get "message" o with
        | Some (JObj m) =>
            match default (JObj []) (obj_get "usage" m) with
            | JObj u => Some (m, u)
            | _ => None
            end
        | _ => None
        end
      else None
  | _ => None
  end.

(** The assistant messages of the file, in file order. *)
Definition assistant_messages (json_loads : string -> option json)
    (lines : list string)
  : list (list (string * json) * list (string * json)) :=
  omap (fun line => json_loads line ≫= assistant_message_of) lines.

(** [usage.get(field, 0)] as an integer. *)
Definition usage_value (field : string) (u : list (string * json)) : Z :=
  default 0 (as_int (default (JInt 0) (obj_get field u))).

(** The sum of [usage.get(field, 0)] over a list of messages. *)
Definition usage_total (field : string)
    (msgs : list (list (string * json) * list (string * json))) : Z :=
  sumZ (map (fun mu => usage_value field (snd mu)) msgs).

(** The key of [msg.get('model', 'unknown')] is [k]. *)
Definition has_model (k : pykey)
    (mu : list (string * json) * list (string * json)) : Prop :=
  py_hash (default (JStr "unknown") (obj_get "model" (fst mu))) = Ok k.

#[global] Instance has_model_dec (k : pykey)
    (mu : list (string * json) * list (string * json))
  : Decision (has_model k mu).
Proof. unfold has_model. apply _. Defined.

(** The usage of the messages of model [k]: input, output and number. *)
Definition model_usage_of (k : pykey)
    (msgs : list (list (string * json) * list (string * json)))
  : model_usage :=
  let mine := filter (has_model k) msgs in
  ModelUsage (usage_total "input_tokens" mine)
    (usage_total "output_tokens" mine) (Z.of_nat (length mine)).

(** The sum of two usages, field by field. *)
Definition model_usage_add (a b : model_usage) : model_usage :=
  ModelUsage (mu_input a + mu_input b) (mu_output a + mu_output b)
    (mu_calls a + mu_calls b).

(** A decoder that also knows a line holding a number, for the examples. *)
Definition number_loads (line : string) : option json :=
  if String.eqb line "42" then Some (JInt 42) else scenario_loads line.

(** A decoder for a file with a string timestamp and a [null] timestamp. *)
Definition null_ts_loads (line : string) : option json :=
  if String.eqb line "dated" then
    Some (JObj [("timestamp", JStr "2026-01-01T00:00:00Z")])
  else if String.eqb line "undated" then Some (JObj [("timestamp", JNull)])
  else None.

(** *** Well-formed tables *)

(** Every tool of the table was called at least once. *)
Definition calls_positive (calls : pydict pykey Z) : Prop :=
  Forall (fun kv => 1 <= snd kv) calls.

(** Every tool of the table has at least one result and a total size that is
    not negative. *)
Definition sizes_positive (sizes : pydict pykey size_agg) : Prop :=
  Forall (fun kv => 1 <= sz_count (snd kv) /\ 0 <= sz_total_chars (snd kv))
    sizes.

(** *** Aggregation *)

(** [sum(d.get(k, 0) for d in dicts)]. *)
Definition total_at {K : Type} `{EqDecision K} (k : K)
    (dicts : list (pydict K Z)) : Z :=
  sumZ (map (fun d => default 0 (dict_get k d)) dicts).

(** The results of tool [k] over a list of tables of sizes. *)
Definition sizes_at (k : pykey) (tables : list (pydict pykey size_agg))
  : size_agg :=
  SizeAgg
    (sumZ (map (fun d => sz_count (default size_agg0 (dict_get k d))) tables))
    (sumZ (map (fun d => sz_total_chars (default size_agg0 (dict_get k d)))
             tables)).

(** The calls of the three read and search tools over a list of tables. *)
Definition read_search_total (tables : list (pydict pykey Z)) : Z :=
  sumZ (map read_search_calls_of tables).

(** [l] is in descending order of [key]: no element comes before one with a
    greater key. *)
Fixpoint descending {A : Type} (key : A -> Z) (l : list A) : Prop :=
  match l with
  | [] => True
  | x :: l' => Forall (fun y => key y <= key x) l' /\ descending key l'
  end.

(** The numbers of a row of the size report are within their bounds: the
    size is between 0 and the total, the average between 0 and the size, and
    the percentage, when the row has one, between 0 and 100. *)
Definition row_in_bounds (total_chars : Z) (r : size_row) : Prop :=
  0 <= row_chars r <= total_chars
  /\ 0 <= row_avg r <= row_chars r
  /\ match row_pct r with
     | Some pct => 0 <= pct <= 100
     | None => True
     end.

(** A loop over the sessions whose step adds the two tables of a session,
    as both aggregation loops do. *)
Definition adds_tables (step : stats -> totals -> result totals) : Prop :=
  forall st t t',
    step st t = Ok t' ->
    t_tool_calls t' = add_tool_calls (tool_calls st) (t_tool_calls t)
    /\ t_tool_result_sizes t'
       = add_tool_result_sizes (tool_result_sizes st) (t_tool_result_sizes t).

(** The tools of the table that "All tools" is drawn from: the tools of the
    sessions and, after line 235, the three read and search tools. *)
Definition summary_tool (all_stats : list stats) (tool : pykey) : Prop :=
  tool ∈ read_tools
  \/ exists st, st ∈ all_stats /\ tool ∈ dict_keys (tool_calls st).

(** The items that the reads of line 235 add to a table without them. *)
Definition read_tools_items : pydict pykey Z :=
  [(KStr "Read", 0); (KStr "Glob", 0); (KStr "Grep", 0)].

(** *** The report of a session *)

(** Two keys that compare with [<]: two numbers or two strings. *)
Definition same_kind (a b : pykey) : Prop :=
  match a, b with
  | KInt _, KInt _ => True
  | KStr _, KStr _ => True
  | _, _ => False
  end.

#[global] Instance same_kind_dec (a b : pykey) : Decision (same_kind a b).
Proof. destruct a, b; simpl; apply _. Defined.










(** A clock for the examples: no duration is printed. *)
Definition no_duration (_ _ : json) : option string := None.

(** *** Runs of main *)

(** The paths of the list that exist, with the text of their files, in the
    order and with the repetitions of the list. *)
Definition existing (fs : filesystem) (paths : list string)
  : list (string * string) :=
  omap (fun path =>
          match fs !! path with
          | Some text => Some (path, text)
          | None => None
          end) paths.

(** The analysis of an existing path, given with the text of its file. *)
Definition analysis_of (json_loads : string -> option json)
    (json_dumps : json -> string) (readlines : string -> list string)
    (pt : string * string) : result stats :=
  analyze_session json_loads json_dumps (fst pt) (readlines (snd pt)).

(** Line 380: the report of each session is wanted. *)
Definition reports_wanted (a : args) : bool :=
  negb (arg_summary_only a) && negb (arg_json a).

(** Line 391: the file that an export writes. *)
Definition export_target (default_export_path : string) (a : args) : string :=
  default default_export_path (arg_export_path a).

(** The arguments of [analyze-session.py session.jsonl missing.jsonl
    session.jsonl --export --export-path stats.jsonl], for the examples. *)
Definition sample_args : args := {|
  arg_files := ["session.jsonl"; "missing.jsonl"; "session.jsonl"];
  arg_verbose := false;
  arg_json := false;
  arg_summary_only := false;
  arg_grafema := false;
  arg_worktree := None;
  arg_export := true;
  arg_export_path := Some "stats.jsonl";
  arg_grafema_mcp := false;
  arg_note := None;
|}.

(** No session of Grafema is found. *)
Definition no_sessions (_ : option string) : list string := [].

(** The lines of the examples are separated by [;]. *)
Fixpoint sample_readlines_from (line text : string) : list string :=
  match text with
  | EmptyString =>
      match line with EmptyString => [] | _ => [line] end
  | String c rest =>
      if Ascii.eqb c ";"%char then line :: sample_readlines_from "" rest
      else sample_readlines_from (line +:+ String c EmptyString) rest
  end.

Definition sample_readlines (text : string) : list string :=
  sample_readlines_from "" text.

(** A file system with one session log and one file of snapshots. *)
Definition sample_disk : filesystem :=
  {[ "session.jsonl" := "assistant-line;user-line;system-line;system-line";
     "stats.jsonl" := String.append "earlier" newline ]}.

(** *** Lines that do not decode *)

(** A line of 100000 opening brackets, on which [json.loads] gives up with
    [RecursionError]. *)
Definition deep_line : string := N.iter 100000 (String "["%char) "".

(** A decoder for the three lines of [scenario_loads] and [deep_line]; on
    any other line it raises [json.JSONDecodeError]. *)
Definition deep_loads (line : string) : loads_outcome :=
  if String.eqb line deep_line then LoadsRaised RecursionError
  else
    match scenario_loads line with
    | Some v => Loaded v
    | None => JSONDecodeError
    end.

(** The line decodes to a value. *)
Definition decodes (loads : string -> loads_outcome) (line : string) : Prop :=
  is_Some (decoded loads line).

(** [json.loads] raises [json.JSONDecodeError] on the line. *)
Definition not_json (loads : string -> loads_outcome) (line : string)
  : Prop :=
  match loads line with
  | JSONDecodeError => True
  | Loaded _ | LoadsRaised _ => False
  end.

#[global] Instance not_json_dec (loads : string -> loads_outcome)
    (line : string) : Decision (not_json loads line).
Proof. unfold not_json. destruct (loads line); apply _. Defined.

(** *** Float counters *)

(** The floats [1e16] and [1.0]. *)
Definition float_1e16 : SpecFloat.spec_float :=
  SpecFloat.binary_normalize 53 1024 (10 ^ 16) 0 false.

Definition float_1 : SpecFloat.spec_float :=
  SpecFloat.binary_normalize 53 1024 1 0 false.

(** Three assistant messages: model A with [1e16] input tokens, then model
    B twice with [1.0]. *)
Definition float_messages : list (pykey * number) :=
  [(KStr "A", NFloat float_1e16); (KStr "B", NFloat float_1);
   (KStr "B", NFloat float_1)].

(** ** The error monad and the loops *)

Lemma bind_Ok {A B : Type} (f : A -> result B) (a : A) :
  (Ok a ≫= f) = f a.
Proof. reflexivity. Qed.

Lemma bind_Ok_inv {A B : Type} (f : A -> result B) (m : result A) (b : B) :
  (m ≫= f) = Ok b -> exists a, m = Ok a /\ f a = Ok b.
Proof. destruct m as [a|e]; [eauto | discriminate]. Qed.

Lemma foldM_cons {A S : Type} (step : A -> S -> result S) (acc : S) (x : A)
    (xs : list A) :
  foldM step acc (x :: xs) = (acc' ← step x acc; foldM step acc' xs).
Proof. reflexivity. Qed.


(** A step that does nothing on the elements rejected by [P] can skip
    them. *)
Lemma foldM_filter {A S : Type} (P : A -> Prop) `{!forall x, Decision (P x)}
    (step : A -> S -> result S) (acc : S) (xs : list A) :
  (forall x s, ~ P x -> step x s = Ok s) ->
  foldM step acc (filter P xs) = foldM step acc xs.
Proof.
  intros Hskip. revert acc. induction xs as [|x xs IH]; intros acc; [done|].
  rewrite filter_cons. destruct (decide (P x)) as [HP|HP]; simpl.
  - destruct (step x acc); simpl; [apply IH | done].
  - rewrite (Hskip x acc HP). simpl. apply IH.
Qed.

(** ** Undecodable lines *)

(** On the lines of a file, [analyze_session] gives the outcome it gives
    without the lines that the decoder rejects, and such a line leaves the
    state of either pass as it is. *)
Lemma analyze_session_skips_rejected
    (json_loads : string -> option json) (json_dumps : json -> string)
    (path : string) (lines : list string) :
  analyze_session json_loads json_dumps path
    (filter (fun l => is_Some (json_loads l)) lines)
  = analyze_session json_loads json_dumps path lines
  /\ (forall line acc tool_names st,
        json_loads line = None ->
        pass1_line json_loads line acc = Ok acc
        /\ pass2_line json_loads json_dumps tool_names line st = Ok st).
Proof.
  split.
  - unfold analyze_session, pass1, pass2.
    rewrite foldM_filter.
    + destruct (foldM _ _ lines) as [[st idx]|e]; simpl; [|done].
      apply foldM_filter.
      intros l s Hl. unfold pass2_line.
      destruct (json_loads l); [|done]. exfalso. apply Hl. eauto.
    + intros l s Hl. unfold pass1_line.
      destruct (json_loads l); [|done]. exfalso. apply Hl. eauto.
  - intros line acc idx st Hnone. unfold pass1_line, pass2_line.
    by rewrite Hnone.
Qed.

Lemma foldM_ext {A S : Type} (f g : A -> S -> result S) (xs : list A) :
  (forall x s, x ∈ xs -> f x s = g x s) ->
  forall acc, foldM f acc xs = foldM g acc xs.
Proof.
  induction xs as [|x xs IH]; intros Hfg acc; [done|].
  cbn [foldM]. rewrite (Hfg x acc) by apply list_elem_of_here.
  destruct (g x acc); simpl; [|done].
  apply IH. intros y s Hy. apply Hfg. by apply list_elem_of_further.
Qed.

(** The two loops with a decoder that raises nothing but
    [json.JSONDecodeError] are those of [analyze_session]. *)
Lemma analyze_session_file_decoded (loads : string -> loads_outcome)
    (json_dumps : json -> string) (path : string) (lines : list string) :
  (forall line e, line ∈ lines -> loads line <> LoadsRaised e) ->
  analyze_session_file loads json_dumps (Ok lines) path
  = analyze_session (decoded loads) json_dumps path lines.
Proof.
  intros Hlines. unfold analyze_session_file, analyze_session, pass1, pass2.
  rewrite bind_Ok.
  rewrite (foldM_ext (pass1_try loads) (pass1_line (decoded loads))).
  - destruct (foldM (pass1_line (decoded loads)) _ lines) as [[st idx]|e];
      simpl; [|done].
    apply foldM_ext. intros line s Hin. unfold pass2_try.
    destruct (loads line) as [v| |e] eqn:Hl; [done|done|].
    by destruct (Hlines line e Hin).
  - intros line s Hin. unfold pass1_try.
    destruct (loads line) as [v| |e] eqn:Hl; [done|done|].
    by destruct (Hlines line e Hin).
Qed.

(** C3. On a file that was read, [analyze_session] gives the outcome it
    gives on the file without the lines on which [json.loads] raises
    [json.JSONDecodeError], and such a line leaves the state of either pass
    as it is: these lines never make it raise.  With a decoder that raises
    nothing else the outcome is that of the two loops on the decoded lines.
    A line on which [json.loads] raises another exception ends either loop
    with that exception, and so does a file that [readlines] cannot
    decode. *)
Theorem analyze_session_skips_undecodable
    (loads : string -> loads_outcome) (json_dumps : json -> string)
    (path : string) (lines : list string) :
  analyze_session_file loads json_dumps
    (Ok (filter (fun line => ~ not_json loads line) lines)) path
  = analyze_session_file loads json_dumps (Ok lines) path
  /\ (forall line acc tool_names st,
        not_json loads line ->
        pass1_try loads line acc = Ok acc
        /\ pass2_try loads json_dumps tool_names line st = Ok st)
  /\ ((forall line e, line ∈ lines -> loads line <> LoadsRaised e) ->
      analyze_session_file loads json_dumps (Ok lines) path
      = analyze_session (decoded loads) json_dumps path lines)
  /\ (forall line e acc tool_names st,
        loads line = LoadsRaised e ->
        pass1_try loads line acc = Raise e
        /\ pass2_try loads json_dumps tool_names line st = Raise e)
  /\ (forall e,
        analyze_session_file loads json_dumps (Raise e) path = Raise e).
Proof.
  assert (Hskip : forall line acc tool_names st,
             not_json loads line ->
             pass1_try loads line acc = Ok acc
             /\ pass2_try loads json_dumps tool_names line st = Ok st).
  { intros line acc idx st. unfold not_json, pass1_try, pass2_try,
      pass1_line, pass2_line, decoded.
    by destruct (loads line). }
  split; [|split; [exact Hskip|split;
                   [apply analyze_session_file_decoded|split; [|done]]]].
  - unfold analyze_session_file. rewrite !bind_Ok.
    rewrite foldM_filter.
    + destruct (foldM _ _ lines) as [[st idx]|e]; simpl; [|done].
      apply foldM_filter. intros l s Hl. apply dec_stable in Hl.
      by apply (Hskip l (s, idx) idx s).
    + intros l s Hl. apply dec_stable in Hl.
      by apply (Hskip l s ∅ (fst s)).
  - intros line e acc idx st Hl. unfold pass1_try, pass2_try.
    by rewrite Hl.
Qed.

(** The claim for every line that is no JSON: on a line nested too deep
    [json.loads] raises [RecursionError], which ends the analysis, while the
    file without that line is analysed. *)
Lemma deep_line_aborts :
  ~ (forall (loads : string -> loads_outcome) (json_dumps : json -> string)
       (path : string) (lines : list string),
        analyze_session_file loads json_dumps (Ok lines) path
        = analyze_session_file loads json_dumps
            (Ok (filter (decodes loads) lines)) path).
Proof.
  intros H.
  specialize (H deep_loads scenario_dumps "session.jsonl"
                ["system-line"; deep_line]).
  vm_compute in H. discriminate H.
Qed.

(** ** The two-line scenario *)

(** C2. Whatever the decoder and the serialiser, when the first line decodes
    to the assistant record and the second to the user record of the
    scenario, [analyze_session] returns statistics with
    [tool_calls = {"Read": 1}], [tokens.input = 100], [tokens.output = 50] and
    [tool_result_sizes = {"Read": {"count": 1, "total_chars": 5}}]. *)
Theorem analyze_session_scenario
    (json_loads : string -> option json) (json_dumps : json -> string)
    (path line1 line2 : string) :
  json_loads line1 = Some scenario_assistant ->
  json_loads line2 = Some scenario_user ->
  exists st,
    analyze_session json_loads json_dumps path [line1; line2] = Ok st
    /\ tool_calls st = [(KStr "Read", 1)]
    /\ dict_get "input" (tokens st) = Some 100
    /\ dict_get "output" (tokens st) = Some 50
    /\ tool_result_sizes st = [(KStr "Read", SizeAgg 1 5)].
Proof.
  intros H1 H2.
  unfold analyze_session, pass1, pass2, foldM, pass1_line, pass2_line.
  rewrite H1, H2.
  eexists. split; [vm_compute; reflexivity|].
  repeat split; reflexivity.
Qed.

Lemma analyze_session_scenario_witness :
  exists st,
    analyze_session scenario_loads scenario_dumps "session.jsonl"
      ["assistant-line"; "user-line"] = Ok st
    /\ tool_calls st = [(KStr "Read", 1)]
    /\ dict_get "input" (tokens st) = Some 100
    /\ dict_get "output" (tokens st) = Some 50
    /\ tool_result_sizes st = [(KStr "Read", SizeAgg 1 5)].
Proof.
  apply (analyze_session_scenario scenario_loads scenario_dumps
           "session.jsonl" "assistant-line" "user-line");
    reflexivity.
Defined.

(** ** Guarded divisions *)










(** ** Dictionaries *)

Section pydict_facts.
Context {K V : Type} `{EqDecision K}.
Implicit Types (k : K) (v : V) (d : pydict K V).

Lemma dict_get_set_eq k v d : dict_get k (dict_set k v d) = Some v.
Proof.
  induction d as [|[k' v'] d IH]; simpl.
  - by rewrite decide_True.
  - destruct (decide (k = k')) as [->|Hne]; simpl.
    + by rewrite decide_True.
    + by rewrite decide_False.
Qed.

Lemma dict_get_set_ne k k' v d :
  k <> k' -> dict_get k' (dict_set k v d) = dict_get k' d.
Proof.
  intros Hne. induction d as [|[k0 v0] d IH]; simpl.
  - rewrite decide_False; [done|congruence].
  - destruct (decide (k = k0)) as [->|Hne0]; simpl.
    + rewrite !decide_False; [done|congruence..].
    + destruct (decide (k' = k0)); [done|apply IH].
Qed.

Lemma dict_get_set k k' v d :
  dict_get k' (dict_set k v d)
  = if decide (k = k') then Some v else dict_get k' d.
Proof.
  case_decide as Hk; [subst; apply dict_get_set_eq|].
  by apply dict_get_set_ne.
Qed.

Lemma dict_get_None_keys k d : dict_get k d = None <-> k ∉ dict_keys d.
Proof.
  induction d as [|[k' v'] d IH]; simpl.
  - split; [intros _; apply not_elem_of_nil|done].
  - rewrite not_elem_of_cons. destruct (decide (k = k')); [|tauto].
    split; [done|tauto].
Qed.

Lemma dict_keys_set_present k v d :
  is_Some (dict_get k d) -> dict_keys (dict_set k v d) = dict_keys d.
Proof.
  induction d as [|[k' v'] d IH]; simpl.
  - by intros [? ?].
  - destruct (decide (k = k')); simpl; [done|].
    intros Hs. f_equal. by apply IH.
Qed.

Lemma dict_keys_set_absent k v d :
  dict_get k d = None -> dict_keys (dict_set k v d) = dict_keys d ++ [k].
Proof.
  induction d as [|[k' v'] d IH]; simpl; [done|].
  destruct (decide (k = k')); simpl; [done|].
  intros Hs. f_equal. by apply IH.
Qed.

Lemma dict_keys_set_NoDup k v d :
  NoDup (dict_keys d) -> NoDup (dict_keys (dict_set k v d)).
Proof.
  intros Hd. destruct (dict_get k d) as [old|] eqn:Hk.
  - by rewrite dict_keys_set_present.
  - rewrite dict_keys_set_absent by done. apply NoDup_app.
    split; [done|]. split; [|apply NoDup_singleton].
    intros x Hx ->%list_elem_of_singleton. by apply dict_get_None_keys in Hk.
Qed.

(** Writing one entry changes the sum of the values by the difference
    between the new and the old value of that entry. *)
Lemma sum_values_set (f : V -> Z) k v d :
  sum_values f (dict_set k v d)
  = sum_values f d + f v
    - match dict_get k d with Some old => f old | None => 0 end.
Proof.
  unfold sum_values.
  induction d as [|[k' v'] d IH]; simpl; [lia|].
  destruct (decide (k = k')); simpl; lia.
Qed.
End pydict_facts.

(** ** An invariant carried by a loop *)

Lemma foldM_invariant {A S : Type} (step : A -> S -> result S) (I : S -> Prop)
    (xs : list A) :
  (forall x s s', x ∈ xs -> step x s = Ok s' -> I s -> I s') ->
  forall acc acc', I acc -> foldM step acc xs = Ok acc' -> I acc'.
Proof.
  induction xs as [|x xs IH]; intros Hstep acc acc' Hacc; simpl.
  - by intros [= <-].
  - intros Hrun. apply bind_Ok_inv in Hrun as (s & Hs & Hrun).
    apply (IH (fun y s0 s1 Hy => Hstep y s0 s1 (list_elem_of_further _ _ _ Hy)) s);
      [|done].
    apply (Hstep x acc s); [apply list_elem_of_here|done..].
Qed.

(** ** What each step of pass 1 changes *)

Lemma track_session_id_effect (o : list (string * json)) (st : stats) :
  exists v, track_session_id o st = set_session_id v st.
Proof.
  unfold track_session_id.
  destruct (obj_get "sessionId" o) as [sid|];
    [destruct (negb (truthy (session_id st)))|]; eauto;
    exists (session_id st); by destruct st.
Qed.

Lemma track_timestamps_effect (o : list (string * json)) (st st' : stats) :
  track_timestamps o st = Ok st' -> exists f l, st' = set_timestamps f l st.
Proof.
  unfold track_timestamps. destruct (obj_get "timestamp" o) as [ts|].
  - intros Hrun.
    apply bind_Ok_inv in Hrun as (b1 & _ & Hrun).
    apply bind_Ok_inv in Hrun as (b2 & _ & Hrun).
    injection Hrun as <-. eauto.
  - intros [= <-]. exists (ts_first st), (ts_last st). by destruct st.
Qed.

Lemma count_message_effect (record_type : json) (st st' : stats) :
  count_message record_type st = Ok st' -> exists m, st' = set_messages m st.
Proof.
  unfold count_message.
  destruct (existsb _ _); [destruct record_type|];
    try (intros [= <-]; exists (messages st); by destruct st).
  intros Hrun. apply bind_Ok_inv in Hrun as (m & _ & [= <-]). eauto.
Qed.

Lemma item_iadd_json_tokens (k : string) (x : json) (i o cr cc : Z)
    (d : pydict string Z) :
  item_iadd_json k x (tokens_of i o cr cc) = Ok d ->
  exists z, as_int x = Some z
    /\ ((k = "input" /\ d = tokens_of (i + z) o cr cc)
        \/ (k = "output" /\ d = tokens_of i (o + z) cr cc)
        \/ (k = "cache_read" /\ d = tokens_of i o (cr + z) cc)
        \/ (k = "cache_creation" /\ d = tokens_of i o cr (cc + z))).
Proof.
  unfold item_iadd_json, int_add, tokens_of. simpl.
  repeat case_decide; subst; simpl; try discriminate;
    (destruct (as_int x) as [z|]; simpl; [|discriminate]);
    repeat (rewrite ?decide_True by done; rewrite ?decide_False by done);
    intros [= <-]; exists z; split; auto 6.
Qed.

Lemma add_usage_effect (u : list (string * json)) (st st' : stats)
    (i o cr cc : Z) :
  tokens st = tokens_of i o cr cc ->
  add_usage u st = Ok st' ->
  exists zi zo zr zc,
    as_int (default (JInt 0) (obj_get "input_tokens" u)) = Some zi
    /\ as_int (default (JInt 0) (obj_get "output_tokens" u)) = Some zo
    /\ st' = set_tokens (tokens_of (i + zi) (o + zo) (cr + zr) (cc + zc)) st.
Proof.
  intros Htok. unfold add_usage. rewrite Htok. intros Hrun.
  apply bind_Ok_inv in Hrun as (t1 & H1 & Hrun).
  apply item_iadd_json_tokens in H1
    as (zi & Hzi & [[_ ->]|[[? _]|[[? _]|[? _]]]]); try discriminate.
  apply bind_Ok_inv in Hrun as (t2 & H2 & Hrun).
  apply item_iadd_json_tokens in H2
    as (zo & Hzo & [[? _]|[[_ ->]|[[? _]|[? _]]]]); try discriminate.
  apply bind_Ok_inv in Hrun as (t3 & H3 & Hrun).
  apply item_iadd_json_tokens in H3
    as (zr & Hzr & [[? _]|[[? _]|[[_ ->]|[? _]]]]); try discriminate.
  apply bind_Ok_inv in Hrun as (t4 & H4 & Hrun).
  apply item_iadd_json_tokens in H4
    as (zc & Hzc & [[? _]|[[? _]|[[? _]|[_ ->]]]]); try discriminate.
  injection Hrun as <-. exists zi, zo, zr, zc. done.
Qed.

Lemma add_model_usage_effect (m u : list (string * json)) (st st' : stats) :
  add_model_usage m u st = Ok st' ->
  exists model e zi zo,
    py_hash (default (JStr "unknown") (obj_get "model" m)) = Ok model
    /\ e = default model_usage0 (dict_get model (models st))
    /\ as_int (default (JInt 0) (obj_get "input_tokens" u)) = Some zi
    /\ as_int (default (JInt 0) (obj_get "output_tokens" u)) = Some zo
    /\ st' = set_models
               (dict_set model
                  (ModelUsage (mu_input e + zi) (mu_output e + zo)
                     (mu_calls e + 1)) (models st)) st.
Proof.
  unfold add_model_usage, int_add. intros Hrun.
  apply bind_Ok_inv in Hrun as (model & Hm & Hrun).
  destruct (as_int (default (JInt 0) (obj_get "input_tokens" u))) as [zi|];
    [|discriminate].
  destruct (as_int (default (JInt 0) (obj_get "output_tokens" u))) as [zo|];
    [|discriminate].
  simpl in Hrun. injection Hrun as <-.
  exists model, (default model_usage0 (dict_get model (models st))), zi, zo.
  done.
Qed.

(** The parts of a successful [assistant_message]. *)
Lemma assistant_message_inv (msg : json) (st st' : stats)
    (tool_names tool_names' : index) :
  assistant_message msg (st, tool_names) = Ok (st', tool_names') ->
  exists m u st1 st2 blocks calls,
    msg = JObj m
    /\ default (JObj []) (obj_get "usage" m) = JObj u
    /\ add_usage u st = Ok st1
    /\ add_model_usage m u st1 = Ok st2
    /\ py_iter (default (JArr []) (obj_get "content" m)) = Ok blocks
    /\ foldM tool_use_block (tool_calls st2, tool_names) blocks
       = Ok (calls, tool_names')
    /\ st' = set_tool_calls calls st2.
Proof.
  unfold assistant_message. destruct msg as [| | | | |m]; try discriminate.
  destruct (default (JObj []) (obj_get "usage" m)) as [| | | | |u] eqn:Hu;
    try discriminate.
  intros Hrun.
  apply bind_Ok_inv in Hrun as (st1 & H1 & Hrun).
  apply bind_Ok_inv in Hrun as (st2 & H2 & Hrun).
  apply bind_Ok_inv in Hrun as (blocks & H3 & Hrun).
  apply bind_Ok_inv in Hrun as ([calls idx] & H4 & Hrun).
  injection Hrun as <- <-.
  exists m, u, st1, st2, blocks, calls. done.
Qed.

(** The parts of a successful [pass1_record]. *)
Lemma pass1_record_inv (obj : json) (st st' : stats)
    (tool_names tool_names' : index) :
  pass1_record obj (st, tool_names) = Ok (st', tool_names') ->
  exists o st1 st2,
    obj = JObj o
    /\ track_timestamps o (track_session_id o st) = Ok st1
    /\ count_message (get_or_none "type" o) st1 = Ok st2
    /\ ((exists msg,
           py_eq (get_or_none "type" o) (JStr "assistant") = true
           /\ obj_get "message" o = Some msg
           /\ assistant_message msg (st2, tool_names) = Ok (st', tool_names'))
        \/ ((py_eq (get_or_none "type" o) (JStr "assistant") = false
             \/ obj_get "message" o = None)
            /\ st' = st2 /\ tool_names' = tool_names)).
Proof.
  unfold pass1_record. destruct obj as [| | | | |o]; try discriminate.
  intros Hrun.
  apply bind_Ok_inv in Hrun as (st1 & H1 & Hrun).
  apply bind_Ok_inv in Hrun as (st2 & H2 & Hrun).
  exists o, st1, st2. repeat split; [done..|].
  destruct (py_eq (get_or_none "type" o) (JStr "assistant")) eqn:Ety.
  - destruct (obj_get "message" o) as [msg|] eqn:Emsg.
    + left. eauto.
    + right. injection Hrun as <- <-. auto.
  - right. injection Hrun as <- <-. auto.
Qed.

(** ** Invariants of the two passes *)

Lemma pass1_invariant (json_loads : string -> option json)
    (I : stats -> index -> Prop) (path : string) (lines : list string)
    (st : stats) (tool_names : index) :
  I (stats_init path) ∅ ->
  (forall line obj s i s' i',
      line ∈ lines -> json_loads line = Some obj ->
      pass1_record obj (s, i) = Ok (s', i') -> I s i -> I s' i') ->
  pass1 json_loads path lines = Ok (st, tool_names) ->
  I st tool_names.
Proof.
  intros Hinit Hstep Hrun. unfold pass1 in Hrun.
  apply (foldM_invariant (pass1_line json_loads)
           (fun acc => I (fst acc) (snd acc)) lines) in Hrun; [done| |done].
  intros line [s i] [s' i'] Hin Hline Hacc. simpl in *.
  unfold pass1_line in Hline.
  destruct (json_loads line) as [obj|] eqn:Hdec.
  - by apply (Hstep line obj s i).
  - by injection Hline as <- <-.
Qed.

Lemma pass2_record_effect (json_dumps : json -> string) (tool_names : index)
    (obj : json) (st st' : stats) :
  pass2_record json_dumps tool_names obj st = Ok st' ->
  exists sizes, st' = set_tool_result_sizes sizes st.
Proof.
  assert (Hid : exists sizes, st = set_tool_result_sizes sizes st)
    by (exists (tool_result_sizes st); by destruct st).
  unfold pass2_record. destruct obj as [| | | | |o]; try discriminate.
  destruct (py_eq _ _); [|by intros [= <-]].
  destruct (obj_get "message" o) as [[| | | | |m]|];
    try discriminate; [|by intros [= <-]].
  destruct (get_or_none "content" m); try by intros [= <-].
  intros Hrun. apply bind_Ok_inv in Hrun as (sizes & _ & [= <-]). eauto.
Qed.

Lemma pass2_effect (json_loads : string -> option json)
    (json_dumps : json -> string) (tool_names : index) (lines : list string)
    (st st' : stats) :
  pass2 json_loads json_dumps tool_names lines st = Ok st' ->
  exists sizes, st' = set_tool_result_sizes sizes st.
Proof.
  unfold pass2. intros Hrun.
  apply (foldM_invariant _
           (fun s => exists sizes, s = set_tool_result_sizes sizes st) lines)
    in Hrun; [done| |exists (tool_result_sizes st); by destruct st].
  intros line s s' _ Hline (sizes & ->). unfold pass2_line in Hline.
  destruct (json_loads line) as [obj|]; [|injection Hline as <-; eauto].
  apply pass2_record_effect in Hline as (sizes' & ->). eauto.
Qed.

(** The parts of a successful [analyze_session]. *)
Lemma analyze_session_inv (json_loads : string -> option json)
    (json_dumps : json -> string) (path : string) (lines : list string)
    (st : stats) :
  analyze_session json_loads json_dumps path lines = Ok st ->
  exists st1 tool_names,
    pass1 json_loads path lines = Ok (st1, tool_names)
    /\ pass2 json_loads json_dumps tool_names lines st1 = Ok st.
Proof.
  unfold analyze_session. intros Hrun.
  apply bind_Ok_inv in Hrun as ([st1 idx] & H1 & H2). eauto.
Qed.

(** ** Session totals and per-model totals *)

Lemma pass1_record_token_totals (obj : json) (st st' : stats)
    (tool_names tool_names' : index) :
  pass1_record obj (st, tool_names) = Ok (st', tool_names') ->
  token_totals_agree st -> token_totals_agree st'.
Proof.
  intros Hrun (Hnodup & cr & cc & Htok).
  apply pass1_record_inv in Hrun as (o & st1 & st2 & -> & Hts & Hcnt & Hrest).
  destruct (track_session_id_effect o st) as (v & Hsid). rewrite Hsid in Hts.
  apply track_timestamps_effect in Hts as (f & l & ->).
  apply count_message_effect in Hcnt as (msgs & ->).
  destruct Hrest as [(msg & _ & _ & Hmsg)|(_ & -> & _)];
    [|split; [exact Hnodup|exists cr, cc; exact Htok]].
  apply assistant_message_inv in Hmsg
    as (m & u & st3 & st4 & blocks & calls & -> & _ & Hu & Hm & _ & _ & ->).
  destruct (add_usage_effect u
              (set_messages msgs (set_timestamps f l (set_session_id v st)))
              st3 _ _ cr cc Htok Hu)
    as (zi & zo & zr & zc & Hzi & Hzo & Hst3).
  destruct (add_model_usage_effect m u st3 st4 Hm)
    as (model & e & zi' & zo' & _ & He & Hzi' & Hzo' & Hst4).
  subst e st4 st3. rewrite Hzi in Hzi'. rewrite Hzo in Hzo'.
  injection Hzi' as <-. injection Hzo' as <-.
  split; [by apply dict_keys_set_NoDup|].
  exists (cr + zr), (cc + zc). simpl.
  rewrite !sum_values_set. simpl.
  destruct (dict_get model (models st)) as [old|]; simpl;
    f_equal; repeat f_equal; lia.
Qed.

(** C4. In the statistics [analyze_session] returns, every model has one
    entry in [models], [tokens.input] is the sum of [models[m].input] and
    [tokens.output] is the sum of [models[m].output] over these entries. *)
Theorem session_tokens_sum_of_models
    (json_loads : string -> option json) (json_dumps : json -> string)
    (path : string) (lines : list string) (st : stats) :
  analyze_session json_loads json_dumps path lines = Ok st ->
  NoDup (dict_keys (models st))
  /\ dict_get "input" (tokens st) = Some (sum_values mu_input (models st))
  /\ dict_get "output" (tokens st) = Some (sum_values mu_output (models st)).
Proof.
  intros Hrun.
  apply analyze_session_inv in Hrun as (st1 & idx & H1 & H2).
  apply pass2_effect in H2 as (sizes & ->). simpl.
  assert (Hinv : token_totals_agree st1).
  { apply (pass1_invariant json_loads (fun s _ => token_totals_agree s)
             path lines st1 idx); [|by eauto using pass1_record_token_totals|done].
    split; [apply NoDup_nil_2|]. exists 0, 0. reflexivity. }
  destruct Hinv as (Hnodup & cr & cc & ->). split; [done|]. split; reflexivity.
Qed.

Lemma session_tokens_sum_of_models_witness :
  let st := sample_stats in
  NoDup (dict_keys (models st))
  /\ dict_get "input" (tokens st) = Some (sum_values mu_input (models st))
  /\ dict_get "output" (tokens st) = Some (sum_values mu_output (models st)).
Proof.
  exact (session_tokens_sum_of_models scenario_loads scenario_dumps
           "session.jsonl" sample_lines sample_stats eq_refl).
Defined.

(** The claim for every file: with token counts that are floats the
    additions of lines 73 and 80 round, and the session total of [1e16],
    [1.0] and [1.0] is [1e16] while the totals of the two models add up to
    [1e16 + 2.0]. *)
Lemma float_totals_differ :
  ~ (forall (msgs : list (pykey * number)) (total : number)
       (by_model : pydict pykey number),
        input_totals msgs = Ok (total, by_model) ->
        exists s,
          num_sum (map snd by_model) = Ok s /\ num_eq total s = true).
Proof.
  intros H.
  destruct (H float_messages _ _ eq_refl) as (s & Hs & Heq).
  vm_compute in Hs. injection Hs as <-.
  vm_compute in Heq. discriminate Heq.
Qed.

(** ** Session id *)

(** What a successful [pass1_record] does to the session id and to the
    timestamps. *)
Lemma pass1_record_header (obj : json) (st st' : stats)
    (tool_names tool_names' : index) :
  pass1_record obj (st, tool_names) = Ok (st', tool_names') ->
  exists o st1,
    obj = JObj o
    /\ track_timestamps o (track_session_id o st) = Ok st1
    /\ session_id st' = session_id (track_session_id o st)
    /\ ts_first st' = ts_first st1
    /\ ts_last st' = ts_last st1.
Proof.
  intros Hrun.
  apply pass1_record_inv in Hrun as (o & st1 & st2 & -> & Hts & Hcnt & Hrest).
  exists o, st1. split; [done|]. split; [done|].
  pose proof Hts as Hts'.
  apply track_timestamps_effect in Hts' as (f & l & Hst1).
  apply count_message_effect in Hcnt as (msgs & ->).
  assert (Hgoal : session_id st' = session_id (set_messages msgs st1)
                  /\ ts_first st' = ts_first (set_messages msgs st1)
                  /\ ts_last st' = ts_last (set_messages msgs st1)).
  { destruct Hrest as [(msg & _ & _ & Hmsg)|(_ & -> & _)]; [|done].
    apply assistant_message_inv in Hmsg
      as (m & u & st3 & st4 & blocks & calls & _ & _ & Hu & Hm & _ & _ & ->).
    destruct (add_model_usage_effect m u st3 st4 Hm)
      as (model & e & zi & zo & _ & _ & _ & _ & ->).
    unfold add_usage in Hu.
    apply bind_Ok_inv in Hu as (t1 & _ & Hu).
    apply bind_Ok_inv in Hu as (t2 & _ & Hu).
    apply bind_Ok_inv in Hu as (t3 & _ & Hu).
    apply bind_Ok_inv in Hu as (t4 & _ & [= <-]).
    done. }
  rewrite Hst1 in Hgoal |- *. exact Hgoal.
Qed.

Lemma track_session_id_adopt (o : list (string * json)) (st : stats) :
  session_id (track_session_id o st)
  = match obj_get "sessionId" o with
    | Some sid => adopt (session_id st) sid
    | None => session_id st
    end.
Proof.
  unfold track_session_id, adopt.
  destruct (obj_get "sessionId" o); [|done].
  by destruct (negb (truthy (session_id st))).
Qed.

Lemma pass1_session_id (json_loads : string -> option json)
    (lines : list string) (st st' : stats) (tool_names tool_names' : index) :
  foldM (pass1_line json_loads) (st, tool_names) lines = Ok (st', tool_names') ->
  session_id st'
  = fold_left adopt (session_ids json_loads lines) (session_id st).
Proof.
  revert st tool_names.
  induction lines as [|line lines IH]; intros st idx; simpl.
  - by intros [= <- _].
  - intros Hrun. apply bind_Ok_inv in Hrun as ([s i] & Hline & Hrun).
    apply IH in Hrun. rewrite Hrun. clear Hrun IH.
    unfold pass1_line in Hline.
    destruct (json_loads line) as [obj|]; [|by injection Hline as <- <-].
    apply pass1_record_header in Hline as (o & st1 & -> & _ & Hsid & _).
    rewrite Hsid, track_session_id_adopt.
    by destruct (obj_get "sessionId" o).
Qed.

Lemma default_last_cons {A : Type} (a b x : A) (l : list A) :
  default a (last (x :: l)) = default b (last (x :: l)).
Proof.
  revert x. induction l as [|y l IH]; intros x; [done|]. apply (IH y).
Qed.

Lemma fold_adopt_closed (ids : list json) (cur : json) :
  fold_left adopt ids cur
  = if truthy cur then cur
    else match List.find truthy ids with
         | Some v => v
         | None => default cur (last ids)
         end.
Proof.
  revert cur. induction ids as [|sid ids IH]; intros cur; simpl.
  - by destruct (truthy cur).
  - rewrite IH. unfold adopt.
    destruct (truthy cur) eqn:Hcur; simpl; [by rewrite Hcur|].
    destruct (truthy sid) eqn:Hsid; [done|].
    destruct (List.find truthy ids); [done|].
    destruct ids as [|x ids']; [done|].
    apply (default_last_cons sid cur x ids').
Qed.

(** C6, as stated: the session id is the [sessionId] of the first record
    that carries one.  It fails when that value is the empty string: the next
    record's [sessionId] replaces it. *)
Lemma first_session_id_not_kept :
  ~ (forall (json_loads : string -> option json) (json_dumps : json -> string)
       (path : string) (lines : list string) (st : stats) (v : json),
        analyze_session json_loads json_dumps path lines = Ok st ->
        head (session_ids json_loads lines) = Some v ->
        session_id st = v).
Proof.
  intros H.
  specialize (H empty_sid_loads scenario_dumps "session.jsonl"
                ["first"; "second"] _ (JStr "") eq_refl eq_refl).
  discriminate H.
Qed.

(** C6, amended. The session id of the statistics is the [sessionId] of the
    first record whose [sessionId] is truthy, whatever follows it; when no
    record has a truthy [sessionId] it is the [sessionId] of the last record
    that carries one, and [None] when no record does. *)
Theorem session_id_first_truthy
    (json_loads : string -> option json) (json_dumps : json -> string)
    (path : string) (lines : list string) (st : stats) :
  analyze_session json_loads json_dumps path lines = Ok st ->
  session_id st = adopted_session_id (session_ids json_loads lines).
Proof.
  intros Hrun.
  apply analyze_session_inv in Hrun as (st1 & idx & H1 & H2).
  apply pass2_effect in H2 as (sizes & ->). simpl.
  apply pass1_session_id in H1. rewrite H1, fold_adopt_closed. done.
Qed.

Lemma session_id_first_truthy_witness :
  JStr "s2" = adopted_session_id (session_ids empty_sid_loads ["first"; "second"]).
Proof.
  exact (session_id_first_truthy empty_sid_loads scenario_dumps
           "session.jsonl" ["first"; "second"]
           (Stats (JStr "s2") "session.jsonl"
              [("user", 0); ("assistant", 0); ("system", 0)] [] []
              (tokens_of 0 0 0 0) [] JNull JNull)
           eq_refl).
Defined.

(** ** Pass 1 as a fold over the tool uses of the file *)

Lemma tool_use_block_step (block : json) (acc acc' : pydict pykey Z * index) :
  tool_use_block block acc = Ok acc' ->
  acc' = match block_tool_use block with
         | Some u => use_step acc u
         | None => acc
         end.
Proof.
  destruct acc as [calls idx]. unfold tool_use_block, block_tool_use, use_step.
  destruct block as [| | | | |b]; try by intros [= <-].
  destruct (py_eq (get_or_none "type" b) (JStr "tool_use"));
    [|by intros [= <-]].
  simpl. destruct (py_hash (default (JStr "unknown") (obj_get "name" b)))
    as [n|e]; simpl; [|done].
  destruct (truthy (get_or_none "id" b)); [|by intros [= <-]].
  destruct (py_hash (get_or_none "id" b)) as [k|e]; simpl; [|done].
  by intros [= <-].
Qed.

Lemma tool_use_blocks_fold (blocks : list json)
    (acc acc' : pydict pykey Z * index) :
  foldM tool_use_block acc blocks = Ok acc' ->
  acc' = fold_left use_step (omap block_tool_use blocks) acc.
Proof.
  revert acc. induction blocks as [|blk blocks IH]; intros acc; simpl.
  - by intros [= <-].
  - intros Hrun. apply bind_Ok_inv in Hrun as (acc1 & Hblk & Hrun).
    apply tool_use_block_step in Hblk. apply IH in Hrun. subst acc1 acc'.
    by destruct (block_tool_use blk).
Qed.

Lemma pass1_record_uses (obj : json) (st st' : stats)
    (tool_names tool_names' : index) :
  pass1_record obj (st, tool_names) = Ok (st', tool_names') ->
  (tool_calls st', tool_names')
  = fold_left use_step (omap block_tool_use (assistant_blocks obj))
      (tool_calls st, tool_names).
Proof.
  intros Hrun.
  apply pass1_record_inv in Hrun as (o & st1 & st2 & -> & Hts & Hcnt & Hrest).
  destruct (track_session_id_effect o st) as (v & Hsid). rewrite Hsid in Hts.
  apply track_timestamps_effect in Hts as (f & l & ->).
  apply count_message_effect in Hcnt as (msgs & ->).
  unfold assistant_blocks.
  destruct Hrest as [(msg & Hty & Hmsg & Hrun)|([Hty|Hmsg] & -> & ->)].
  - rewrite Hty, Hmsg.
    apply assistant_message_inv in Hrun
      as (m & u & st3 & st4 & blocks & calls & -> & _ & Hu & Hm & Hit & Hfold
          & ->).
    rewrite Hit.
    destruct (add_model_usage_effect m u st3 st4 Hm)
      as (model & e & zi & zo & _ & _ & _ & _ & ->).
    unfold add_usage in Hu.
    apply bind_Ok_inv in Hu as (t1 & _ & Hu).
    apply bind_Ok_inv in Hu as (t2 & _ & Hu).
    apply bind_Ok_inv in Hu as (t3 & _ & Hu).
    apply bind_Ok_inv in Hu as (t4 & _ & [= <-]).
    simpl in *. by apply tool_use_blocks_fold in Hfold.
  - by rewrite Hty.
  - rewrite Hmsg. by destruct (py_eq _ _).
Qed.

Lemma pass1_fold_uses (json_loads : string -> option json)
    (lines : list string) (st st' : stats) (tool_names tool_names' : index) :
  foldM (pass1_line json_loads) (st, tool_names) lines = Ok (st', tool_names') ->
  (tool_calls st', tool_names')
  = fold_left use_step (tool_uses json_loads lines) (tool_calls st, tool_names).
Proof.
  revert st tool_names.
  induction lines as [|line lines IH]; intros st idx; simpl.
  - by intros [= <- <-].
  - intros Hrun. apply bind_Ok_inv in Hrun as ([s i] & Hline & Hrun).
    apply IH in Hrun. rewrite Hrun, fold_left_app. f_equal.
    unfold pass1_line in Hline.
    destruct (json_loads line) as [obj|]; [|by injection Hline as <- <-].
    by apply pass1_record_uses.
Qed.

(** *** Facts about the fold *)

Lemma dd_iadd_get {K} `{EqDecision K} (k k' : K) (n : Z) (d : pydict K Z) :
  default 0 (dict_get k' (dd_iadd k n d))
  = default 0 (dict_get k' d) + (if decide (k = k') then n else 0).
Proof.
  unfold dd_iadd, dd_update. rewrite dict_get_set.
  case_decide; subst; simpl; lia.
Qed.

Lemma use_step_calls (acc : pydict pykey Z * index) (u : json * json)
    (n : pykey) :
  default 0 (dict_get n (fst (use_step acc u)))
  = default 0 (dict_get n (fst acc))
    + (if decide (py_hash (fst u) = Ok n) then 1 else 0).
Proof.
  unfold use_step. destruct (py_hash (fst u)) as [n'|e]; simpl.
  - rewrite dd_iadd_get.
    destruct (decide (n' = n)) as [->|Hne].
    + by rewrite decide_True.
    + rewrite decide_False; [done|congruence].
  - lia.
Qed.

Lemma fold_uses_calls (uses : list (json * json))
    (acc : pydict pykey Z * index) (n : pykey) :
  default 0 (dict_get n (fst (fold_left use_step uses acc)))
  = default 0 (dict_get n (fst acc))
    + Z.of_nat (length (filter (fun u => py_hash (fst u) = Ok n) uses)).
Proof.
  revert acc. induction uses as [|u uses IH]; intros acc; simpl; [lia|].
  rewrite IH, use_step_calls, filter_cons.
  case_decide; simpl; lia.
Qed.

(** An entry of the index comes from the start or from a tool use. *)
Lemma fold_uses_index_sound (uses : list (json * json))
    (acc : pydict pykey Z * index) (k n : pykey) :
  snd (fold_left use_step uses acc) !! k = Some n ->
  snd acc !! k = Some n
  \/ exists name id,
       (name, id) ∈ uses
       /\ truthy id = true /\ py_hash id = Ok k /\ py_hash name = Ok n.
Proof.
  revert acc. induction uses as [|[name id] uses IH]; intros acc; simpl;
    [auto|].
  intros Hk. apply IH in Hk as [Hk|(name' & id' & Hin & ?)].
  - unfold use_step in Hk. simpl in Hk.
    destruct (py_hash name) as [n'|] eqn:Hn; [|auto]. simpl in Hk.
    destruct (truthy id) eqn:Hid; [|auto].
    destruct (py_hash id) as [k'|] eqn:Hk'; [|auto].
    destruct (decide (k' = k)) as [->|Hne].
    + rewrite lookup_insert_eq in Hk. injection Hk as ->.
      right. exists name, id. split; [apply list_elem_of_here|done].
    + rewrite lookup_insert_ne in Hk by done. auto.
  - right. exists name', id'. split; [by apply list_elem_of_further|done].
Qed.

(** A key of the index stays one. *)
Lemma fold_uses_index_mono (uses : list (json * json))
    (acc : pydict pykey Z * index) (k : pykey) :
  is_Some (snd acc !! k) -> is_Some (snd (fold_left use_step uses acc) !! k).
Proof.
  revert acc. induction uses as [|[name id] uses IH]; intros acc; simpl;
    [done|].
  intros Hk. apply IH. unfold use_step. simpl.
  destruct (py_hash name) as [n'|]; [|done]. simpl.
  destruct (truthy id); [|done].
  destruct (py_hash id) as [k'|]; [|done].
  destruct (decide (k' = k)) as [->|Hne].
  - rewrite lookup_insert_eq. eauto.
  - by rewrite lookup_insert_ne.
Qed.

(** Every tool use with a truthy identifier and hashable parts has its
    identifier in the index. *)
Lemma fold_uses_index_complete (uses : list (json * json))
    (acc : pydict pykey Z * index) (name id : json) (k n : pykey) :
  (name, id) ∈ uses ->
  truthy id = true -> py_hash id = Ok k -> py_hash name = Ok n ->
  is_Some (snd (fold_left use_step uses acc) !! k).
Proof.
  intros Hin Hid Hk Hn. revert acc.
  induction uses as [|u uses IH]; intros acc; [by apply elem_of_nil in Hin|].
  apply elem_of_cons in Hin as [<-|Hin]; simpl; [|by apply IH].
  apply fold_uses_index_mono. unfold use_step. simpl.
  rewrite Hn, Hid, Hk. simpl. rewrite lookup_insert_eq. eauto.
Qed.

(** *** A successful pass 1 has hashed every tool use *)

Lemma tool_use_block_hashable (block : json)
    (acc acc' : pydict pykey Z * index) :
  tool_use_block block acc = Ok acc' ->
  match block_tool_use block with
  | Some u => use_hashable u
  | None => True
  end.
Proof.
  destruct acc as [calls idx].
  unfold tool_use_block, block_tool_use, use_hashable.
  destruct block as [| | | | |b]; try done.
  destruct (py_eq (get_or_none "type" b) (JStr "tool_use")); [|done].
  simpl. destruct (py_hash (default (JStr "unknown") (obj_get "name" b)))
    as [n|e]; simpl; [|done].
  destruct (truthy (get_or_none "id" b)); [|intros _; split; [eauto|done]].
  destruct (py_hash (get_or_none "id" b)) as [k|e]; simpl; [|done].
  intros _. split; eauto.
Qed.

Lemma tool_use_blocks_hashable (blocks : list json)
    (acc acc' : pydict pykey Z * index) :
  foldM tool_use_block acc blocks = Ok acc' ->
  Forall use_hashable (omap block_tool_use blocks).
Proof.
  revert acc. induction blocks as [|blk blocks IH]; intros acc; simpl.
  - intros _. constructor.
  - intros Hrun. apply bind_Ok_inv in Hrun as (acc1 & Hblk & Hrun).
    apply tool_use_block_hashable in Hblk. apply IH in Hrun.
    destruct (block_tool_use blk); [by constructor|done].
Qed.

Lemma pass1_record_hashable (obj : json) (acc acc' : stats * index) :
  pass1_record obj acc = Ok acc' ->
  Forall use_hashable (omap block_tool_use (assistant_blocks obj)).
Proof.
  destruct acc as [st idx], acc' as [st' idx']. intros Hrun.
  apply pass1_record_inv in Hrun as (o & st1 & st2 & -> & _ & _ & Hrest).
  unfold assistant_blocks.
  destruct Hrest as [(msg & Hty & Hmsg & Hrun)|([Hty|Hmsg] & _)].
  - rewrite Hty, Hmsg.
    apply assistant_message_inv in Hrun
      as (m & u & st3 & st4 & blocks & calls & -> & _ & _ & _ & Hit & Hfold
          & _).
    rewrite Hit. by apply tool_use_blocks_hashable in Hfold.
  - rewrite Hty. constructor.
  - rewrite Hmsg. destruct (py_eq _ _); constructor.
Qed.

Lemma pass1_fold_hashable (json_loads : string -> option json)
    (lines : list string) (acc acc' : stats * index) :
  foldM (pass1_line json_loads) acc lines = Ok acc' ->
  Forall use_hashable (tool_uses json_loads lines).
Proof.
  revert acc. induction lines as [|line lines IH]; intros acc; simpl.
  - intros _. constructor.
  - intros Hrun. apply bind_Ok_inv in Hrun as (acc1 & Hline & Hrun).
    apply Forall_app. split; [|by apply (IH acc1)].
    unfold pass1_line in Hline.
    destruct (json_loads line) as [obj|]; [|constructor].
    by apply pass1_record_hashable in Hline.
Qed.

(** The index after pass 1, in terms of the tool uses of the file. *)
Lemma pass1_index (json_loads : string -> option json) (path : string)
    (lines : list string) (st : stats) (tool_names : index) :
  pass1 json_loads path lines = Ok (st, tool_names) ->
  (forall n, default 0 (dict_get n (tool_calls st))
             = uses_of json_loads lines n)
  /\ Forall use_hashable (tool_uses json_loads lines)
  /\ (forall k n, tool_names !! k = Some n -> announces json_loads lines k n)
  /\ (forall k n, announces json_loads lines k n -> is_Some (tool_names !! k)).
Proof.
  unfold pass1. intros Hrun.
  pose proof (pass1_fold_hashable _ _ _ _ Hrun) as Hhash.
  apply pass1_fold_uses in Hrun.
  assert (Hc : tool_calls st
               = fst (fold_left use_step (tool_uses json_loads lines) ([], ∅)))
    by exact (f_equal fst Hrun).
  assert (Hi : tool_names
               = snd (fold_left use_step (tool_uses json_loads lines) ([], ∅)))
    by exact (f_equal snd Hrun).
  repeat split.
  - intros n. rewrite Hc, fold_uses_calls. simpl. unfold uses_of. lia.
  - done.
  - intros k n Hk. rewrite Hi in Hk.
    apply fold_uses_index_sound in Hk as [Hk|Hk]; [|done].
    simpl in Hk. by rewrite lookup_empty in Hk.
  - intros k n (name & id & Hin & Hid & Hk & Hn). rewrite Hi.
    by apply (fold_uses_index_complete _ _ name id k n).
Qed.

(** ** Tool uses: counters and index *)

(** C7, as stated: after a [tool_use] block that carries an identifier,
    whatever its value, the index maps the identifier to the block's tool
    name.  It fails for the empty string, which the guard [if tool_id:]
    rejects. *)
Lemma empty_identifier_not_recorded :
  ~ (forall (b : list (string * json)) (id : json) (k n : pykey)
       (calls calls' : pydict pykey Z) (tool_names tool_names' : index),
        py_eq (get_or_none "type" b) (JStr "tool_use") = true ->
        obj_get "id" b = Some id ->
        py_hash id = Ok k ->
        py_hash (default (JStr "unknown") (obj_get "name" b)) = Ok n ->
        tool_use_block (JObj b) (calls, tool_names) = Ok (calls', tool_names') ->
        tool_names' !! k = Some n).
Proof.
  intros H.
  specialize (H [("type", JStr "tool_use"); ("name", JStr "Read");
                 ("id", JStr "")]
                (JStr "") (KStr "") (KStr "Read") [] [(KStr "Read", 1)] ∅ ∅
                eq_refl eq_refl eq_refl eq_refl eq_refl).
  by rewrite lookup_empty in H.
Qed.

(** C7, amended.  In a pass 1 that ends normally: the counter of each tool
    name is the number of [tool_use] blocks of that name in the file, every
    block having a name that is counted, with or without an identifier; every
    [tool_use] block whose identifier is truthy has that identifier in the
    index, mapped to the name of a block with that identifier; and right after
    such a block is processed the index maps its identifier to its own name,
    while a block with a falsy identifier leaves the index as it is. *)
Theorem tool_use_counted_and_indexed
    (json_loads : string -> option json) (path : string)
    (lines : list string) (st : stats) (tool_names : index) :
  pass1 json_loads path lines = Ok (st, tool_names) ->
  (forall n, default 0 (dict_get n (tool_calls st))
             = uses_of json_loads lines n)
  /\ (forall name id,
        (name, id) ∈ tool_uses json_loads lines ->
        exists n, py_hash name = Ok n)
  /\ (forall name id,
        (name, id) ∈ tool_uses json_loads lines ->
        truthy id = true ->
        exists k n, py_hash id = Ok k /\ tool_names !! k = Some n
                    /\ announces json_loads lines k n)
  /\ (forall b calls idx n,
        py_eq (get_or_none "type" b) (JStr "tool_use") = true ->
        py_hash (default (JStr "unknown") (obj_get "name" b)) = Ok n ->
        (truthy (get_or_none "id" b) = false ->
         tool_use_block (JObj b) (calls, idx) = Ok (dd_iadd n 1 calls, idx))
        /\ (forall k,
              truthy (get_or_none "id" b) = true ->
              py_hash (get_or_none "id" b) = Ok k ->
              tool_use_block (JObj b) (calls, idx)
              = Ok (dd_iadd n 1 calls, <[k := n]> idx)
              /\ (<[k := n]> idx) !! k = Some n)
        /\ default 0 (dict_get n (dd_iadd n 1 calls))
           = default 0 (dict_get n calls) + 1).
Proof.
  intros Hrun.
  apply pass1_index in Hrun as (Hcalls & Hhash & Hsound & Hcomplete).
  rewrite Forall_forall in Hhash.
  split; [done|]. split; [|split].
  - intros name id Hin. by destruct (Hhash _ Hin) as [Hn _].
  - intros name id Hin Hid.
    destruct (Hhash _ Hin) as [[n Hn] Hk]. destruct (Hk Hid) as [k Hk'].
    simpl in *.
    destruct (Hcomplete k n) as [n' Hn']; [by exists name, id|].
    exists k, n'. auto.
  - intros b calls idx n Hty Hn. unfold tool_use_block.
    rewrite Hty, Hn. simpl. split; [|split].
    + by intros ->.
    + intros k Hid Hk. rewrite Hid, Hk. split; [done|].
      apply lookup_insert_eq.
    + rewrite dd_iadd_get, decide_True by done. done.
Qed.

Lemma tool_use_counted_and_indexed_witness :
  default 0 (dict_get (KStr "Read") [(KStr "Read", 1)])
  = uses_of scenario_loads ["assistant-line"; "user-line"] (KStr "Read").
Proof.
  exact (proj1 (tool_use_counted_and_indexed scenario_loads "session.jsonl"
                  ["assistant-line"; "user-line"]
                  (Stats JNull "session.jsonl"
                     [("user", 1); ("assistant", 1); ("system", 0)]
                     [(KStr "Read", 1)] []
                     (tokens_of 100 50 0 0)
                     [(KStr "unknown", ModelUsage 100 50 1)] JNull JNull)
                  {[ KStr "t1" := KStr "Read" ]}
                  eq_refl)
           (KStr "Read")).
Defined.

(** ** Pass 2 as a fold over the tool results of the file *)

Lemma tool_result_block_step (json_dumps : json -> string)
    (tool_names : index) (block : json) (sizes sizes' : pydict pykey size_agg) :
  tool_result_block json_dumps tool_names block sizes = Ok sizes' ->
  match block_tool_result block with
  | Some r =>
      (exists k, py_hash (fst r) = Ok k)
      /\ sizes' = result_step json_dumps tool_names sizes r
  | None => sizes' = sizes
  end.
Proof.
  unfold tool_result_block, block_tool_result, result_step, attributed_tool.
  destruct block as [| | | | |b]; try by intros [= <-].
  destruct (py_eq (get_or_none "type" b) (JStr "tool_result"));
    [|by intros [= <-]].
  simpl. destruct (py_hash (get_or_none "tool_use_id" b)) as [k|e]; simpl;
    [|done].
  intros [= <-]. split; [eauto|done].
Qed.

Lemma tool_result_blocks_fold (json_dumps : json -> string)
    (tool_names : index) (blocks : list json)
    (sizes sizes' : pydict pykey size_agg) :
  foldM (tool_result_block json_dumps tool_names) sizes blocks = Ok sizes' ->
  Forall (fun r => exists k, py_hash (fst r) = Ok k)
    (omap block_tool_result blocks)
  /\ sizes' = fold_left (result_step json_dumps tool_names)
                (omap block_tool_result blocks) sizes.
Proof.
  revert sizes. induction blocks as [|blk blocks IH]; intros sizes; simpl.
  - intros [= <-]. split; [constructor|done].
  - intros Hrun. apply bind_Ok_inv in Hrun as (s1 & Hblk & Hrun).
    apply tool_result_block_step in Hblk. apply IH in Hrun as [Hall ->].
    destruct (block_tool_result blk) as [r|].
    + destruct Hblk as [Hk ->]. split; [by constructor|done].
    + by subst s1.
Qed.

Lemma pass2_record_results (json_dumps : json -> string) (tool_names : index)
    (obj : json) (st st' : stats) :
  pass2_record json_dumps tool_names obj st = Ok st' ->
  Forall (fun r => exists k, py_hash (fst r) = Ok k)
    (omap block_tool_result (user_blocks obj))
  /\ tool_result_sizes st'
     = fold_left (result_step json_dumps tool_names)
         (omap block_tool_result (user_blocks obj)) (tool_result_sizes st).
Proof.
  unfold pass2_record, user_blocks.
  destruct obj as [| | | | |o]; try discriminate.
  destruct (py_eq _ _); [|intros [= <-]; split; [constructor|done]].
  destruct (obj_get "message" o) as [[| | | | |m]|];
    try discriminate; [|intros [= <-]; split; [constructor|done]].
  destruct (get_or_none "content" m) as [| | | |blocks|];
    try (intros [= <-]; split; [constructor|done]).
  intros Hrun. apply bind_Ok_inv in Hrun as (sizes & Hfold & [= <-]).
  by apply tool_result_blocks_fold in Hfold.
Qed.

Lemma pass2_fold_results (json_loads : string -> option json)
    (json_dumps : json -> string) (tool_names : index) (lines : list string)
    (st st' : stats) :
  pass2 json_loads json_dumps tool_names lines st = Ok st' ->
  Forall (fun r => exists k, py_hash (fst r) = Ok k)
    (tool_results json_loads lines)
  /\ tool_result_sizes st'
     = fold_left (result_step json_dumps tool_names)
         (tool_results json_loads lines) (tool_result_sizes st).
Proof.
  unfold pass2. revert st.
  induction lines as [|line lines IH]; intros st; simpl.
  - intros [= <-]. split; [constructor|done].
  - intros Hrun. apply bind_Ok_inv in Hrun as (s1 & Hline & Hrun).
    apply IH in Hrun as [Hall ->]. rewrite Forall_app, fold_left_app.
    unfold pass2_line in Hline.
    destruct (json_loads line) as [obj|].
    + apply pass2_record_results in Hline as [Hall1 ->]. done.
    + injection Hline as <-. split; [split; [constructor|done]|done].
Qed.

Lemma add_result_get (tool tool' : pykey) (size : Z)
    (sizes : pydict pykey size_agg) :
  default size_agg0 (dict_get tool' (add_result tool size sizes))
  = if decide (tool = tool') then
      SizeAgg (sz_count (default size_agg0 (dict_get tool' sizes)) + 1)
        (sz_total_chars (default size_agg0 (dict_get tool' sizes)) + size)
    else default size_agg0 (dict_get tool' sizes).
Proof.
  unfold add_result, dd_update.
  case_decide as Hk.
  - subst. by rewrite !dict_get_set_eq.
  - by rewrite !dict_get_set_ne.
Qed.

Lemma fold_results_get (json_dumps : json -> string) (tool_names : index)
    (results : list (json * json)) (sizes : pydict pykey size_agg)
    (tool : pykey) :
  let mine :=
    filter (fun r => attributed_tool tool_names (fst r) = Ok tool) results in
  let old := default size_agg0 (dict_get tool sizes) in
  default size_agg0
    (dict_get tool (fold_left (result_step json_dumps tool_names) results sizes))
  = SizeAgg (sz_count old + Z.of_nat (length mine))
      (sz_total_chars old
       + sumZ (map (fun r => content_size json_dumps (snd r)) mine)).
Proof.
  revert sizes. induction results as [|r results IH]; intros sizes; simpl.
  - destruct (default size_agg0 (dict_get tool sizes)) as [c t]. simpl.
    f_equal; lia.
  - rewrite IH. clear IH. rewrite filter_cons. unfold result_step.
    destruct (attributed_tool tool_names (fst r)) as [t|e].
    + rewrite add_result_get.
      destruct (decide (t = tool)) as [->|Hne].
      * rewrite decide_True by done. cbn [length map sz_count sz_total_chars].
        rewrite Nat2Z.inj_succ. unfold sumZ. cbn [foldr]. f_equal; lia.
      * rewrite decide_False by congruence. done.
    + rewrite decide_False by done. done.
Qed.

(** Pass 1 leaves the table of result sizes and the file name alone. *)
Lemma pass1_record_frame (obj : json) (st st' : stats)
    (tool_names tool_names' : index) :
  pass1_record obj (st, tool_names) = Ok (st', tool_names') ->
  tool_result_sizes st' = tool_result_sizes st /\ file st' = file st.
Proof.
  intros Hrun.
  apply pass1_record_inv in Hrun as (o & st1 & st2 & -> & Hts & Hcnt & Hrest).
  destruct (track_session_id_effect o st) as (v & Hsid). rewrite Hsid in Hts.
  apply track_timestamps_effect in Hts as (f & l & ->).
  apply count_message_effect in Hcnt as (msgs & ->).
  destruct Hrest as [(msg & _ & _ & Hmsg)|(_ & -> & _)]; [|done].
  apply assistant_message_inv in Hmsg
    as (m & u & st3 & st4 & blocks & calls & _ & _ & Hu & Hm & _ & _ & ->).
  destruct (add_model_usage_effect m u st3 st4 Hm)
    as (model & e & zi & zo & _ & _ & _ & _ & ->).
  unfold add_usage in Hu.
  apply bind_Ok_inv in Hu as (t1 & _ & Hu).
  apply bind_Ok_inv in Hu as (t2 & _ & Hu).
  apply bind_Ok_inv in Hu as (t3 & _ & Hu).
  apply bind_Ok_inv in Hu as (t4 & _ & [= <-]).
  done.
Qed.

Lemma pass1_sizes_empty (json_loads : string -> option json) (path : string)
    (lines : list string) (st : stats) (tool_names : index) :
  pass1 json_loads path lines = Ok (st, tool_names) ->
  tool_result_sizes st = [].
Proof.
  apply (pass1_invariant json_loads (fun s _ => tool_result_sizes s = []));
    [done|].
  intros line obj s i s' i' _ _ Hrec Hs.
  apply pass1_record_frame in Hrec as [-> _]. done.
Qed.

(** ** Attribution of tool results *)

(** C1, as stated: in a file with one tool use and one tool result that
    refers to it, the result is counted under the name of the tool.  It fails
    when the shared identifier is the empty string, even when the use is
    announced after the result: the use is not indexed and the result goes
    to "unknown". *)
Lemma later_tool_use_not_attributed :
  ~ (forall (json_loads : string -> option json)
       (json_dumps : json -> string) (path : string) (lines : list string)
       (st : stats) (name id content : json) (n : pykey),
        analyze_session json_loads json_dumps path lines = Ok st ->
        tool_results json_loads lines = [(id, content)] ->
        tool_uses json_loads lines = [(name, id)] ->
        py_hash name = Ok n ->
        dict_get n (tool_result_sizes st)
        = Some (SizeAgg 1 (content_size json_dumps content))).
Proof.
  intros H.
  specialize (H empty_id_loads scenario_dumps "session.jsonl"
                ["result"; "use"] _ (JStr "Read") (JStr "") (JStr "hello")
                (KStr "Read") eq_refl eq_refl eq_refl eq_refl).
  vm_compute in H. discriminate H.
Qed.

(** An identifier that cannot be a dictionary key makes the lookup itself
    raise, before any fallback. *)
Lemma tool_result_unhashable_id_raises (json_dumps : json -> string) :
  tool_result_block json_dumps ∅
    (JObj [("type", JStr "tool_result"); ("tool_use_id", JArr [])]) []
  = Raise TypeError.
Proof. reflexivity. Qed.

(** C1, amended.  When [analyze_session] returns, with [tool_names] the index
    left by pass 1 over the whole file:
    - an identifier announced by a [tool_use] block with a truthy identifier,
      anywhere in the file, before or after the result, and under one name
      only, is mapped to that name, and every result with that identifier is
      attributed to it;
    - an identifier that no such block announces is absent from the index,
      and a result with an absent, hashable identifier is attributed to
      "unknown";
    - every [tool_result] block of the file is attributed to some tool, and
      the entry of each tool in [tool_result_sizes] counts the results
      attributed to it and sums their sizes;
    - a [tool_result] block whose identifier is hashable does not raise. *)
Theorem tool_result_attribution
    (json_loads : string -> option json) (json_dumps : json -> string)
    (path : string) (lines : list string) (st : stats) :
  analyze_session json_loads json_dumps path lines = Ok st ->
  exists st1 tool_names,
    pass1 json_loads path lines = Ok (st1, tool_names)
    /\ (forall k n,
          announces json_loads lines k n ->
          (forall n', announces json_loads lines k n' -> n' = n) ->
          tool_names !! k = Some n
          /\ forall id, py_hash id = Ok k ->
                        attributed_tool tool_names id = Ok n)
    /\ (forall k,
          (forall n, ~ announces json_loads lines k n) ->
          tool_names !! k = None)
    /\ (forall id k,
          py_hash id = Ok k -> tool_names !! k = None ->
          attributed_tool tool_names id = Ok (KStr "unknown"))
    /\ (forall id content,
          (id, content) ∈ tool_results json_loads lines ->
          exists tool, attributed_tool tool_names id = Ok tool)
    /\ (forall tool,
          let mine := results_of json_loads tool_names lines tool in
          default size_agg0 (dict_get tool (tool_result_sizes st))
          = SizeAgg (Z.of_nat (length mine))
              (sumZ (map (fun r => content_size json_dumps (snd r)) mine)))
    /\ (forall b sizes k,
          py_hash (get_or_none "tool_use_id" b) = Ok k ->
          exists sizes',
            tool_result_block json_dumps tool_names (JObj b) sizes
            = Ok sizes').
Proof.
  intros Hrun.
  apply analyze_session_inv in Hrun as (st1 & idx & H1 & H2).
  exists st1, idx. split; [done|].
  pose proof (pass1_sizes_empty _ _ _ _ _ H1) as Hempty.
  apply pass1_index in H1 as (_ & _ & Hsound & Hcomplete).
  apply pass2_fold_results in H2 as [Hhash Hsizes].
  rewrite Forall_forall in Hhash.
  split; [|split; [|split; [|split; [|split]]]].
  - intros k n Hann Huniq. destruct (Hcomplete k n Hann) as [n' Hn'].
    assert (n' = n) as -> by (apply Huniq; by apply Hsound).
    split; [done|]. intros id Hid. unfold attributed_tool.
    rewrite Hid. simpl. by rewrite Hn'.
  - intros k Hnone. destruct (idx !! k) as [n|] eqn:Hk; [|done].
    exfalso. apply (Hnone n). by apply Hsound.
  - intros id k Hid Hk. unfold attributed_tool. rewrite Hid. simpl.
    by rewrite Hk.
  - intros id content Hin. destruct (Hhash _ Hin) as [k Hk]. simpl in Hk.
    unfold attributed_tool. rewrite Hk. simpl. eauto.
  - intros tool. simpl. rewrite Hsizes, fold_results_get, Hempty. simpl.
    done.
  - intros b sizes k Hk. unfold tool_result_block.
    destruct (py_eq _ _); [|eauto]. rewrite Hk. simpl. eauto.
Qed.

Lemma tool_result_attribution_witness :
  exists st1 tool_names,
    pass1 scenario_loads "session.jsonl" ["user-line"; "assistant-line"]
    = Ok (st1, tool_names)
    /\ tool_names !! KStr "t1" = Some (KStr "Read")
    /\ attributed_tool tool_names (JStr "t1") = Ok (KStr "Read").
Proof.
  destruct (tool_result_attribution scenario_loads scenario_dumps
              "session.jsonl" ["user-line"; "assistant-line"]
              (Stats JNull "session.jsonl"
                 [("user", 1); ("assistant", 1); ("system", 0)]
                 [(KStr "Read", 1)] [(KStr "Read", SizeAgg 1 5)]
                 (tokens_of 100 50 0 0)
                 [(KStr "unknown", ModelUsage 100 50 1)] JNull JNull)
              eq_refl)
    as (st1 & idx & Hp1 & Hann & _).
  exists st1, idx. split; [exact Hp1|].
  destruct (Hann (KStr "t1") (KStr "Read")) as [Hk Hattr].
  - exists (JStr "Read"), (JStr "t1"). split; [|done].
    vm_compute. apply list_elem_of_here.
  - intros n' (name & id & Hin & _ & Hid & Hn).
    vm_compute in Hin. apply list_elem_of_singleton in Hin.
    injection Hin as -> ->. simpl in Hn. by injection Hn.
  - split; [exact Hk|]. by apply Hattr.
Defined.

(** ** First and last timestamp *)












(** ** Whether a record is accepted does not depend on the state *)

(** Every element of a loop that ends normally was accepted in a state
    that satisfies the invariant of the loop. *)
Lemma foldM_elements_run {A S : Type} (step : A -> S -> result S)
    (I : S -> Prop) (xs : list A) (acc acc' : S) :
  (forall x s s', x ∈ xs -> I s -> step x s = Ok s' -> I s') ->
  I acc -> foldM step acc xs = Ok acc' ->
  forall x, x ∈ xs -> exists s s', I s /\ step x s = Ok s'.
Proof.
  revert acc. induction xs as [|y xs IH]; intros acc Hstep Hacc; simpl.
  - intros _ x Hx. by apply elem_of_nil in Hx.
  - intros Hrun x Hx. apply bind_Ok_inv in Hrun as (s & Hs & Hrun).
    apply elem_of_cons in Hx as [->|Hx]; [eauto|].
    apply (IH s); [|by eapply Hstep; [apply list_elem_of_here|..]|done..].
    intros z s0 s1 Hz. apply Hstep. by apply list_elem_of_further.
Qed.

(** A loop whose elements are all accepted in every state that satisfies an
    invariant ends normally from such a state. *)
Lemma foldM_all_run {A S : Type} (step : A -> S -> result S)
    (I : S -> Prop) (xs : list A) (acc : S) :
  (forall x s, x ∈ xs -> I s -> exists s', step x s = Ok s' /\ I s') ->
  I acc -> exists acc', foldM step acc xs = Ok acc' /\ I acc'.
Proof.
  revert acc. induction xs as [|y xs IH]; intros acc Hstep Hacc; simpl;
    [eauto|].
  destruct (Hstep y acc (list_elem_of_here _ _) Hacc) as (s & -> & Hs).
  simpl. apply IH; [|done].
  intros z s0 Hz. apply Hstep. by apply list_elem_of_further.
Qed.





Lemma item_iadd_json_as_int (k : string) (x : json) (d d' : pydict string Z) :
  item_iadd_json k x d = Ok d' -> exists z, as_int x = Some z.
Proof.
  unfold item_iadd_json, int_add. destruct (dict_get k d); [|done].
  destruct (as_int x); [eauto|done].
Qed.

Lemma add_usage_fields (u : list (string * json)) (st st' : stats) :
  add_usage u st = Ok st' ->
  exists zi zo zr zc,
    as_int (default (JInt 0) (obj_get "input_tokens" u)) = Some zi
    /\ as_int (default (JInt 0) (obj_get "output_tokens" u)) = Some zo
    /\ as_int (default (JInt 0) (obj_get "cache_read_input_tokens" u))
       = Some zr
    /\ as_int (default (JInt 0) (obj_get "cache_creation_input_tokens" u))
       = Some zc.
Proof.
  unfold add_usage. intros Hrun.
  apply bind_Ok_inv in Hrun as (t1 & (zi & Hzi)%item_iadd_json_as_int & Hrun).
  apply bind_Ok_inv in Hrun as (t2 & (zo & Hzo)%item_iadd_json_as_int & Hrun).
  apply bind_Ok_inv in Hrun as (t3 & (zr & Hzr)%item_iadd_json_as_int & Hrun).
  apply bind_Ok_inv in Hrun as (t4 & (zc & Hzc)%item_iadd_json_as_int & Hrun).
  exists zi, zo, zr, zc. done.
Qed.

Lemma add_usage_runs (u : list (string * json)) (st : stats)
    (i o cr cc zi zo zr zc : Z) :
  tokens st = tokens_of i o cr cc ->
  as_int (default (JInt 0) (obj_get "input_tokens" u)) = Some zi ->
  as_int (default (JInt 0) (obj_get "output_tokens" u)) = Some zo ->
  as_int (default (JInt 0) (obj_get "cache_read_input_tokens" u)) = Some zr ->
  as_int (default (JInt 0) (obj_get "cache_creation_input_tokens" u))
  = Some zc ->
  add_usage u st
  = Ok (set_tokens (tokens_of (i + zi) (o + zo) (cr + zr) (cc + zc)) st).
Proof.
  intros Htok Hzi Hzo Hzr Hzc.
  unfold add_usage, item_iadd_json, int_add.
  rewrite Htok, Hzi, Hzo, Hzr, Hzc. reflexivity.
Qed.



Lemma count_message_runs (record_type : json) (st : stats) :
  (exists u a s,
      messages st = [("user", u); ("assistant", a); ("system", s)]) ->
  exists u a s,
    count_message record_type st
    = Ok (set_messages [("user", u); ("assistant", a); ("system", s)] st).
Proof.
  intros (u & a & s & Hm). unfold count_message.
  assert (Hid : exists u a s,
             Ok st
             = Ok (set_messages
                     [("user", u); ("assistant", a); ("system", s)] st)).
  { exists u, a, s. rewrite <- Hm. by destruct st. }
  destruct (existsb _ _) eqn:Hin; [|done].
  destruct record_type as [| | |t| |]; try done.
  simpl in Hin. unfold item_iadd. rewrite Hm.
  destruct (String.eqb_spec t "user") as [->|_]; [simpl; eauto|].
  destruct (String.eqb_spec t "assistant") as [->|_]; [simpl; eauto|].
  destruct (String.eqb_spec t "system") as [->|_]; [simpl; eauto|].
  discriminate.
Qed.








(** ** Snapshot export *)

Lemma known_item_step (k : string) (v u a : Z) :
  (if dict_mem k [("user", u); ("assistant", a)]
   then item_iadd k v [("user", u); ("assistant", a)]
   else Ok [("user", u); ("assistant", a)])
  = Ok [("user", u + (if decide (k = "user") then v else 0));
        ("assistant", a + (if decide (k = "assistant") then v else 0))].
Proof.
  unfold dict_mem, item_iadd. cbn [dict_get dict_set].
  destruct (decide (k = "user")) as [->|Hu];
    [|destruct (decide (k = "assistant")) as [->|Ha]];
    repeat (cbn [dict_set];
            first [rewrite decide_True by done|rewrite decide_False by done]);
    two_counts.
Qed.

Lemma add_known_items_user_assistant (items : list (string * Z)) (u a : Z) :
  add_known_items items [("user", u); ("assistant", a)]
  = Ok [("user", u + items_sum "user" items);
        ("assistant", a + items_sum "assistant" items)].
Proof.
  unfold add_known_items, items_sum. revert u a.
  induction items as [|[k v] items IH]; intros u a.
  - simpl. two_counts.
  - rewrite foldM_cons. cbn [fst snd].
    rewrite known_item_step, bind_Ok, IH, !filter_cons. cbn [fst].
    destruct (decide (k = "user")), (decide (k = "assistant")); two_counts.
Qed.

Lemma snapshot_totals_messages (all_stats : list stats) (t t' : totals)
    (u a : Z) :
  t_messages t = [("user", u); ("assistant", a)] ->
  foldM snapshot_accumulate t all_stats = Ok t' ->
  t_messages t'
  = [("user", u + messages_total "user" all_stats);
     ("assistant", a + messages_total "assistant" all_stats)].
Proof.
  unfold messages_total. revert t u a.
  induction all_stats as [|st l IH]; intros t u a Ht; simpl.
  - intros [= <-]. rewrite Ht. two_counts.
  - intros Hrun. apply bind_Ok_inv in Hrun as (t1 & Hacc & Hrun).
    unfold snapshot_accumulate in Hacc.
    rewrite Ht, add_known_items_user_assistant, bind_Ok in Hacc.
    apply bind_Ok_inv in Hacc as (tk & _ & [= <-]).
    eapply IH in Hrun; [|reflexivity].
    rewrite Hrun. two_counts.
Qed.

(** ** Statistics returned by analyze_session keep their counters *)

Lemma pass1_record_counters (obj : json) (st st' : stats)
    (tool_names tool_names' : index) :
  pass1_record obj (st, tool_names) = Ok (st', tool_names') ->
  counters_formed st -> counters_formed st'.
Proof.
  intros Hrun [Hmsgs (i & o' & cr & cc & Htok)].
  apply pass1_record_inv in Hrun as (o & st1 & st2 & -> & Hts & Hcnt & Hrest).
  destruct (track_session_id_effect o st) as (v & Hsid). rewrite Hsid in Hts.
  apply track_timestamps_effect in Hts as (f & l & ->).
  destruct (count_message_runs (get_or_none "type" o)
              (set_timestamps f l (set_session_id v st)) Hmsgs)
    as (u & a & s & Hcnt').
  rewrite Hcnt' in Hcnt. injection Hcnt as <-.
  destruct Hrest as [(msg & _ & _ & Hmsg)|(_ & -> & _)].
  - apply assistant_message_inv in Hmsg
      as (m & us & st3 & st4 & blocks & calls & _ & _ & Hu & Hm & _ & _ & ->).
    destruct (add_usage_effect us
                (set_messages [("user", u); ("assistant", a); ("system", s)]
                   (set_timestamps f l (set_session_id v st)))
                st3 i o' cr cc Htok Hu)
      as (zi & zo & zr & zc & _ & _ & ->).
    destruct (add_model_usage_effect m us _ st4 Hm)
      as (model & e & zi' & zo' & _ & _ & _ & _ & ->).
    split; [by exists u, a, s|]. simpl. eauto.
  - split; [by exists u, a, s|]. simpl. eauto.
Qed.

Lemma analysed_counters (st : stats) : analysed st -> counters_formed st.
Proof.
  intros (json_loads & json_dumps & path & lines & Hrun).
  apply analyze_session_inv in Hrun as (st1 & idx & H1 & H2).
  apply pass2_effect in H2 as (sizes & ->).
  assert (H : counters_formed st1); [|exact H].
  apply (pass1_invariant json_loads (fun s _ => counters_formed s)
           path lines st1 idx); [|by eauto using pass1_record_counters|done].
  split; [by exists 0, 0, 0|by exists 0, 0, 0, 0].
Qed.

Lemma add_items_tokens (i o cr cc i' o' cr' cc' : Z) :
  add_items (tokens_of i o cr cc) (tokens_of i' o' cr' cc')
  = Ok (tokens_of (i' + i) (o' + o) (cr' + cr) (cc' + cc)).
Proof. reflexivity. Qed.

Lemma add_items_messages (u a s u' a' s' : Z) :
  add_items [("user", u); ("assistant", a); ("system", s)]
    [("user", u'); ("assistant", a'); ("system", s')]
  = Ok [("user", u' + u); ("assistant", a' + a); ("system", s' + s)].
Proof. reflexivity. Qed.


Lemma summary_totals_returns (all_stats : list stats) :
  Forall analysed all_stats -> exists t, summary_totals all_stats = Ok t.
Proof.
  intros Hall. unfold summary_totals.
  destruct (foldM_all_run summary_accumulate
              (fun t => (exists u a s,
                            t_messages t
                            = [("user", u); ("assistant", a); ("system", s)])
                        /\ exists i o cr cc, t_tokens t = tokens_of i o cr cc)
              all_stats summary_totals0) as (t & Ht & _); [| |eauto].
  - intros st t Hin [(u & a & s & Hm) (i & o & cr & cc & Htok)].
    rewrite Forall_forall in Hall.
    destruct (analysed_counters st (Hall st Hin))
      as [(u' & a' & s' & Hm') (i' & o' & cr' & cc' & Htok')].
    unfold summary_accumulate.
    rewrite Hm, Hm', add_items_messages, bind_Ok.
    rewrite Htok, Htok', add_items_tokens, bind_Ok.
    eexists. split; [done|]. simpl. eauto 10.
  - split; [by exists 0, 0, 0|by exists 0, 0, 0, 0].
Qed.

Lemma sample_stats_analysed : analysed sample_stats.
Proof.
  exists scenario_loads, scenario_dumps, "session.jsonl", sample_lines.
  reflexivity.
Qed.

Lemma sample_all_analysed : Forall analysed [sample_stats].
Proof. constructor; [apply sample_stats_analysed|constructor]. Qed.

(** C10. The [messages] of the snapshot built by [export_snapshot] has the
    keys "user" and "assistant" only, and no key "system"; its two values are
    the sums of the per-session "user" and "assistant" counts, whatever the
    sessions count under "system" or any other key. *)
Theorem snapshot_messages_user_assistant_only
    (json_dumps : snapshot -> string) (now : string) (all_stats : list stats)
    (output_path : string) (append grafema_mcp : bool) (note : option string)
    (fs fs' : filesystem) (snap : snapshot) :
  export_snapshot json_dumps now all_stats output_path append grafema_mcp
    note fs = Ok (snap, fs') ->
  snap_messages snap
  = [("user", messages_total "user" all_stats);
     ("assistant", messages_total "assistant" all_stats)]
  /\ dict_keys (snap_messages snap) = ["user"; "assistant"]
  /\ dict_get "system" (snap_messages snap) = None.
Proof.
  unfold export_snapshot. intros Hrun.
  apply bind_Ok_inv in Hrun as (t & Ht & [= <- _]).
  apply (snapshot_totals_messages _ snapshot_totals0 _ 0 0 eq_refl) in Ht.
  simpl. rewrite Ht. done.
Qed.

Lemma snapshot_messages_user_assistant_only_witness :
  [("user", 2); ("assistant", 2)]
  = [("user", messages_total "user" [sample_stats; sample_stats]);
     ("assistant", messages_total "assistant" [sample_stats; sample_stats])]
  /\ dict_keys [("user", 2); ("assistant", 2)] = ["user"; "assistant"]
  /\ dict_get "system" [("user", 2); ("assistant", 2)] = None.
Proof.
  exact (snapshot_messages_user_assistant_only sample_dumps "2026-01-01"
           [sample_stats; sample_stats] "stats.jsonl" true false None
           sample_fs
           (write_snapshot "stats.jsonl" true
              (String.append "{}" newline) sample_fs)
           (Snapshot "2026-01-01" false 2 [("user", 2); ("assistant", 2)]
              (tokens_of 200 100 0 0) [(KStr "Read", 2)]
              [(KStr "Read", SizeAgg 2 10)] 2 10 10 None)
           eq_refl).
Defined.

(** *** The file that receives the snapshots *)








(** ** The aggregate report *)













(** * Further properties of the analyser *)

(** ** The cases of a record in pass 1 *)

Lemma add_usage_sets_tokens (u : list (string * json)) (st st' : stats) :
  add_usage u st = Ok st' ->
  exists t,
    st' = set_tokens t st
    /\ forall i o cr cc,
         tokens st = tokens_of i o cr cc ->
         t = tokens_of (i + usage_value "input_tokens" u)
               (o + usage_value "output_tokens" u)
               (cr + usage_value "cache_read_input_tokens" u)
               (cc + usage_value "cache_creation_input_tokens" u).
Proof.
  intros Hrun.
  destruct (add_usage_fields u st st' Hrun)
    as (zi & zo & zr & zc & Hzi & Hzo & Hzr & Hzc).
  pose proof Hrun as Hrun'. unfold add_usage in Hrun'.
  apply bind_Ok_inv in Hrun' as (t1 & _ & Hrun').
  apply bind_Ok_inv in Hrun' as (t2 & _ & Hrun').
  apply bind_Ok_inv in Hrun' as (t3 & _ & Hrun').
  apply bind_Ok_inv in Hrun' as (t4 & _ & [= <-]).
  exists t4. split; [done|]. intros i o cr cc Htok.
  rewrite (add_usage_runs u st i o cr cc zi zo zr zc) in Hrun by done.
  injection Hrun as <-.
  unfold usage_value. rewrite Hzi, Hzo, Hzr, Hzc. done.
Qed.

Lemma pass1_record_cases (obj : json) (st st' : stats)
    (tool_names tool_names' : index) :
  pass1_record obj (st, tool_names) = Ok (st', tool_names') ->
  exists o v f l msgs,
    obj = JObj o
    /\ let st1 := set_timestamps f l (set_session_id v st) in
       let st2 := set_messages msgs st1 in
       count_message (get_or_none "type" o) st1 = Ok st2
       /\ ((assistant_message_of obj = None
            /\ st' = st2 /\ tool_names' = tool_names)
           \/ exists m u t model calls,
                assistant_message_of obj = Some (m, u)
                /\ add_usage u st2 = Ok (set_tokens t st2)
                /\ has_model model (m, u)
                /\ let e := default model_usage0 (dict_get model (models st)) in
                   st' = set_tool_calls calls
                           (set_models
                              (dict_set model
                                 (ModelUsage
                                    (mu_input e + usage_value "input_tokens" u)
                                    (mu_output e + usage_value "output_tokens" u)
                                    (mu_calls e + 1)) (models st))
                              (set_tokens t st2))).
Proof.
  intros Hrun.
  apply pass1_record_inv in Hrun as (o & st1 & st2 & -> & Hts & Hcnt & Hrest).
  destruct (track_session_id_effect o st) as (v & Hsid). rewrite Hsid in Hts.
  apply track_timestamps_effect in Hts as (f & l & ->).
  pose proof Hcnt as Hcnt'.
  apply count_message_effect in Hcnt' as (msgs & ->).
  exists o, v, f, l, msgs. split; [done|]. cbn zeta. split; [done|].
  unfold assistant_message_of.
  destruct Hrest as [(msg & Hty & Hmsg & Hrun)|([Hty|Hmsg] & -> & ->)].
  - right. rewrite Hty, Hmsg.
    apply assistant_message_inv in Hrun
      as (m & u & st3 & st4 & blocks & calls & -> & Hu & Husage & Hm & _ & _
          & ->).
    rewrite Hu.
    destruct (add_usage_sets_tokens u _ st3 Husage) as (t & -> & _).
    destruct (add_model_usage_effect m u _ st4 Hm)
      as (model & e & zi & zo & Hmodel & -> & Hzi & Hzo & ->).
    exists m, u, t, model, calls. split; [done|]. split; [done|].
    split; [exact Hmodel|]. cbn zeta. simpl.
    unfold usage_value. rewrite Hzi, Hzo. done.
  - left. by rewrite Hty.
  - left. rewrite Hmsg. by destruct (py_eq _ _).
Qed.

(** ** Message, token and model counters *)

Lemma count_message_spec (record_type : json) (st : stats) (u a s : Z) :
  messages st = [("user", u); ("assistant", a); ("system", s)] ->
  count_message record_type st
  = Ok (set_messages
          [("user", u + (if py_eq record_type (JStr "user") then 1 else 0));
           ("assistant",
            a + (if py_eq record_type (JStr "assistant") then 1 else 0));
           ("system",
            s + (if py_eq record_type (JStr "system") then 1 else 0))] st).
Proof.
  intros Hm. unfold count_message.
  assert (Hid : Ok st
                = Ok (set_messages
                        [("user", u + 0); ("assistant", a + 0);
                         ("system", s + 0)] st)).
  { rewrite !Z.add_0_r, <- Hm. by destruct st. }
  destruct record_type as [| | |t| |]; try exact Hid.
  cbn [existsb py_eq]. unfold item_iadd. rewrite Hm.
  destruct (String.eqb_spec t "user") as [->|_];
    [simpl; by rewrite !Z.add_0_r|].
  destruct (String.eqb_spec t "assistant") as [->|_];
    [simpl; by rewrite !Z.add_0_r|].
  destruct (String.eqb_spec t "system") as [->|_];
    [simpl; by rewrite !Z.add_0_r|].
  simpl. exact Hid.
Qed.

Lemma model_usage_of_nil (k : pykey) : model_usage_of k [] = model_usage0.
Proof. reflexivity. Qed.

Lemma model_usage_add_0_r (e : model_usage) :
  model_usage_add e model_usage0 = e.
Proof. destruct e. unfold model_usage_add. simpl. f_equal; lia. Qed.

Lemma usage_total_app (field : string)
    (xs ys : list (list (string * json) * list (string * json))) :
  usage_total field (xs ++ ys) = usage_total field xs + usage_total field ys.
Proof.
  unfold usage_total, sumZ. induction xs as [|x xs IH]; simpl; lia.
Qed.

Lemma model_usage_of_app (k : pykey)
    (xs ys : list (list (string * json) * list (string * json))) :
  model_usage_of k (xs ++ ys)
  = model_usage_add (model_usage_of k xs) (model_usage_of k ys).
Proof.
  unfold model_usage_of, model_usage_add. cbn zeta. simpl.
  rewrite filter_app, !usage_total_app, length_app. f_equal. lia.
Qed.

Lemma model_usage_add_assoc (a b c : model_usage) :
  model_usage_add (model_usage_add a b) c
  = model_usage_add a (model_usage_add b c).
Proof. unfold model_usage_add. simpl. f_equal; lia. Qed.

(** What one accepted record adds to the counters. *)
Lemma pass1_record_counters_step (obj : json) (st st' : stats)
    (tool_names tool_names' : index) (u a s i o cr cc : Z) :
  pass1_record obj (st, tool_names) = Ok (st', tool_names') ->
  messages st = [("user", u); ("assistant", a); ("system", s)] ->
  tokens st = tokens_of i o cr cc ->
  let ms := option_list (assistant_message_of obj) in
  messages st'
  = [("user", u + type_is "user" obj);
     ("assistant", a + type_is "assistant" obj);
     ("system", s + type_is "system" obj)]
  /\ tokens st'
     = tokens_of (i + usage_total "input_tokens" ms)
         (o + usage_total "output_tokens" ms)
         (cr + usage_total "cache_read_input_tokens" ms)
         (cc + usage_total "cache_creation_input_tokens" ms)
  /\ (forall k,
        default model_usage0 (dict_get k (models st'))
        = model_usage_add (default model_usage0 (dict_get k (models st)))
            (model_usage_of k ms))
  /\ sum_values mu_calls (models st')
     = sum_values mu_calls (models st) + Z.of_nat (length ms).
Proof.
  intros Hrun Hm Htok.
  apply pass1_record_cases in Hrun
    as (ob & v & f & l & msgs & -> & Hcnt & Hcases).
  cbn zeta in Hcnt, Hcases.
  rewrite (count_message_spec _ _ u a s) in Hcnt by exact Hm.
  injection Hcnt as <-. unfold type_is.
  destruct Hcases as [(Hnone & -> & _)|(m & us & t & model & calls & Hsome
                                         & Hu & Hmodel & ->)].
  - rewrite Hnone. cbn [option_list]. unfold usage_total. simpl.
    rewrite !Z.add_0_r. split; [done|]. split; [done|]. split; [|lia].
    intros k. by rewrite model_usage_of_nil, model_usage_add_0_r.
  - rewrite Hsome. cbn [option_list].
    destruct (add_usage_sets_tokens us _ _ Hu) as (t' & Heq & Ht).
    injection Heq as ->. rewrite (Ht i o cr cc Htok).
    unfold usage_total, sumZ. simpl. rewrite !Z.add_0_r.
    split; [done|]. split; [done|]. split.
    + intros k. rewrite dict_get_set. unfold model_usage_of, model_usage_add.
      rewrite filter_cons, filter_nil.
      destruct (decide (model = k)) as [->|Hne].
      * rewrite (decide_True (P := has_model k (m, us))) by exact Hmodel.
        unfold usage_total, sumZ. simpl. f_equal; lia.
      * rewrite (decide_False (P := has_model k (m, us))).
        2: { unfold has_model in *. cbn [fst] in *. rewrite Hmodel.
             congruence. }
        unfold usage_total. simpl.
        destruct (default model_usage0 (dict_get k (models st))).
        simpl. f_equal; lia.
    + rewrite sum_values_set. simpl.
      destruct (dict_get model (models st)); simpl; lia.
Qed.

Lemma pass1_fold_counters (json_loads : string -> option json)
    (lines : list string) (st st' : stats) (tool_names tool_names' : index)
    (u a s i o cr cc : Z) :
  foldM (pass1_line json_loads) (st, tool_names) lines = Ok (st', tool_names') ->
  messages st = [("user", u); ("assistant", a); ("system", s)] ->
  tokens st = tokens_of i o cr cc ->
  let ms := assistant_messages json_loads lines in
  messages st'
  = [("user", u + records_of_type json_loads "user" lines);
     ("assistant", a + records_of_type json_loads "assistant" lines);
     ("system", s + records_of_type json_loads "system" lines)]
  /\ tokens st'
     = tokens_of (i + usage_total "input_tokens" ms)
         (o + usage_total "output_tokens" ms)
         (cr + usage_total "cache_read_input_tokens" ms)
         (cc + usage_total "cache_creation_input_tokens" ms)
  /\ (forall k,
        default model_usage0 (dict_get k (models st'))
        = model_usage_add (default model_usage0 (dict_get k (models st)))
            (model_usage_of k ms))
  /\ sum_values mu_calls (models st')
     = sum_values mu_calls (models st) + Z.of_nat (length ms).
Proof.
  revert st tool_names u a s i o cr cc.
  induction lines as [|line lines IH]; intros st idx u a s i o cr cc.
  - intros [= <- _] Hm Htok. cbn zeta. unfold records_of_type, usage_total.
    simpl. rewrite !Z.add_0_r. split; [done|]. split; [done|]. split; [|lia].
    intros k. by rewrite model_usage_of_nil, model_usage_add_0_r.
  - intros Hrun Hm Htok. simpl in Hrun.
    apply bind_Ok_inv in Hrun as ([s1 i1] & Hline & Hrun).
    assert (Hstep :
      let ms := option_list (json_loads line ≫= assistant_message_of) in
      messages s1
      = [("user", u + has_type json_loads "user" line);
         ("assistant", a + has_type json_loads "assistant" line);
         ("system", s + has_type json_loads "system" line)]
      /\ tokens s1
         = tokens_of (i + usage_total "input_tokens" ms)
             (o + usage_total "output_tokens" ms)
             (cr + usage_total "cache_read_input_tokens" ms)
             (cc + usage_total "cache_creation_input_tokens" ms)
      /\ (forall k,
            default model_usage0 (dict_get k (models s1))
            = model_usage_add (default model_usage0 (dict_get k (models st)))
                (model_usage_of k ms))
      /\ sum_values mu_calls (models s1)
         = sum_values mu_calls (models st) + Z.of_nat (length ms)).
    { unfold pass1_line, has_type in *.
      destruct (json_loads line) as [obj|]; simpl.
      - by apply (pass1_record_counters_step obj st s1 idx i1).
      - injection Hline as <- <-. unfold usage_total. simpl.
        rewrite !Z.add_0_r. split; [done|]. split; [done|]. split; [|lia].
        intros k. by rewrite model_usage_of_nil, model_usage_add_0_r. }
    cbn zeta in Hstep. destruct Hstep as (Hm1 & Htok1 & Hmod1 & Hcalls1).
    destruct (IH s1 i1 _ _ _ _ _ _ _ Hrun Hm1 Htok1)
      as (Hm' & Htok' & Hmod' & Hcalls').
    assert (Hms : assistant_messages json_loads (line :: lines)
                  = option_list (json_loads line ≫= assistant_message_of)
                    ++ assistant_messages json_loads lines).
    { unfold assistant_messages. simpl.
      by destruct (json_loads line ≫= assistant_message_of). }
    cbn zeta. rewrite Hms, Hm', Htok', Hcalls', Hcalls1.
    rewrite !usage_total_app, length_app. unfold records_of_type. simpl.
    split; [|split; [|split]].
    + two_counts.
    + unfold tokens_of. two_counts.
    + intros k. rewrite Hmod', Hmod1, model_usage_of_app.
      apply model_usage_add_assoc.
    + lia.
Qed.

Lemma pass1_counters (json_loads : string -> option json) (path : string)
    (lines : list string) (st : stats) (tool_names : index) :
  pass1 json_loads path lines = Ok (st, tool_names) ->
  let ms := assistant_messages json_loads lines in
  messages st
  = [("user", records_of_type json_loads "user" lines);
     ("assistant", records_of_type json_loads "assistant" lines);
     ("system", records_of_type json_loads "system" lines)]
  /\ tokens st
     = tokens_of (usage_total "input_tokens" ms)
         (usage_total "output_tokens" ms)
         (usage_total "cache_read_input_tokens" ms)
         (usage_total "cache_creation_input_tokens" ms)
  /\ (forall k,
        default model_usage0 (dict_get k (models st)) = model_usage_of k ms)
  /\ sum_values mu_calls (models st) = Z.of_nat (length ms).
Proof.
  unfold pass1. intros Hrun.
  destruct (pass1_fold_counters json_loads lines (stats_init path) st ∅
              tool_names 0 0 0 0 0 0 0 Hrun eq_refl eq_refl)
    as (Hm & Htok & Hmod & Hcalls).
  cbn zeta. rewrite Hm, Htok, Hcalls. simpl.
  split; [done|]. split; [done|]. split; [|done].
  intros k. rewrite Hmod. simpl. unfold model_usage_add.
  destruct (model_usage_of k _). simpl. done.
Qed.

(** X1. The statistics count, under "user", "assistant" and "system", the
    decoded records of each of these types; records of any other type, or
    without a type, are in none of the three counters. *)
Theorem message_counts_by_type
    (json_loads : string -> option json) (json_dumps : json -> string)
    (path : string) (lines : list string) (st : stats) :
  analyze_session json_loads json_dumps path lines = Ok st ->
  messages st
  = [("user", records_of_type json_loads "user" lines);
     ("assistant", records_of_type json_loads "assistant" lines);
     ("system", records_of_type json_loads "system" lines)].
Proof.
  intros Hrun.
  apply analyze_session_inv in Hrun as (st1 & idx & H1 & H2).
  apply pass2_effect in H2 as (sizes & ->).
  by apply pass1_counters in H1 as (Hm & _).
Qed.

Lemma message_counts_by_type_witness :
  messages sample_stats
  = [("user", records_of_type scenario_loads "user" sample_lines);
     ("assistant", records_of_type scenario_loads "assistant" sample_lines);
     ("system", records_of_type scenario_loads "system" sample_lines)].
Proof.
  exact (message_counts_by_type scenario_loads scenario_dumps "session.jsonl"
           sample_lines sample_stats eq_refl).
Defined.

(** X2. Each of the four token counters of the statistics is the sum, over
    the assistant records that carry a message, of the counter of that name
    in the usage of the message, a missing counter or a missing usage
    counting 0. *)
Theorem token_totals_sum_of_usages
    (json_loads : string -> option json) (json_dumps : json -> string)
    (path : string) (lines : list string) (st : stats) :
  analyze_session json_loads json_dumps path lines = Ok st ->
  let ms := assistant_messages json_loads lines in
  tokens st
  = [("input", usage_total "input_tokens" ms);
     ("output", usage_total "output_tokens" ms);
     ("cache_read", usage_total "cache_read_input_tokens" ms);
     ("cache_creation", usage_total "cache_creation_input_tokens" ms)].
Proof.
  intros Hrun.
  apply analyze_session_inv in Hrun as (st1 & idx & H1 & H2).
  apply pass2_effect in H2 as (sizes & ->).
  by apply pass1_counters in H1 as (_ & Htok & _).
Qed.

Lemma token_totals_sum_of_usages_witness :
  let ms := assistant_messages scenario_loads sample_lines in
  tokens sample_stats
  = [("input", usage_total "input_tokens" ms);
     ("output", usage_total "output_tokens" ms);
     ("cache_read", usage_total "cache_read_input_tokens" ms);
     ("cache_creation", usage_total "cache_creation_input_tokens" ms)].
Proof.
  exact (token_totals_sum_of_usages scenario_loads scenario_dumps
           "session.jsonl" sample_lines sample_stats eq_refl).
Defined.

Lemma assistant_messages_cons (json_loads : string -> option json)
    (line : string) (lines : list string) :
  assistant_messages json_loads (line :: lines)
  = option_list (json_loads line ≫= assistant_message_of)
    ++ assistant_messages json_loads lines.
Proof.
  unfold assistant_messages. simpl.
  by destruct (json_loads line ≫= assistant_message_of).
Qed.

Lemma assistant_message_has_type (json_loads : string -> option json)
    (line : string) :
  Z.of_nat (length (option_list (json_loads line ≫= assistant_message_of)))
  <= has_type json_loads "assistant" line.
Proof.
  unfold has_type.
  destruct (json_loads line) as [obj|]; simpl; [|lia].
  unfold assistant_message_of, type_is.
  destruct obj as [| | | | |o]; simpl; try lia.
  destruct (py_eq (get_or_none "type" o) (JStr "assistant")); simpl; [|lia].
  destruct (obj_get "message" o) as [[| | | | |m]|]; simpl; try lia.
  destruct (default (JObj []) (obj_get "usage" m)); simpl; lia.
Qed.

Lemma assistant_messages_bound (json_loads : string -> option json)
    (lines : list string) :
  Z.of_nat (length (assistant_messages json_loads lines))
  <= records_of_type json_loads "assistant" lines.
Proof.
  induction lines as [|line lines IH]; [done|].
  rewrite assistant_messages_cons, length_app.
  pose proof (assistant_message_has_type json_loads line) as Hline.
  unfold records_of_type, sumZ in *. cbn [map foldr]. lia.
Qed.

(** X3. The entry of each model in [models] holds the input and the output
    tokens and the number of the assistant messages that name this model
    ("unknown" when the message names none); a model that no message names
    has no calls.  The calls of all the models add up to the number of these
    messages, which is at most the "assistant" message count. *)
Theorem model_usage_by_model
    (json_loads : string -> option json) (json_dumps : json -> string)
    (path : string) (lines : list string) (st : stats) :
  analyze_session json_loads json_dumps path lines = Ok st ->
  let ms := assistant_messages json_loads lines in
  (forall k,
      default model_usage0 (dict_get k (models st)) = model_usage_of k ms)
  /\ sum_values mu_calls (models st) = Z.of_nat (length ms)
  /\ forall n,
       dict_get "assistant" (messages st) = Some n ->
       sum_values mu_calls (models st) <= n.
Proof.
  intros Hrun.
  apply analyze_session_inv in Hrun as (st1 & idx & H1 & H2).
  apply pass2_effect in H2 as (sizes & ->).
  apply pass1_counters in H1 as (Hm & _ & Hmod & Hcalls).
  cbn zeta. split; [exact Hmod|]. split; [exact Hcalls|].
  intros n. simpl. rewrite Hm, Hcalls. simpl. intros [= <-].
  apply assistant_messages_bound.
Qed.

Lemma model_usage_by_model_witness :
  let ms := assistant_messages scenario_loads sample_lines in
  (forall k,
      default model_usage0 (dict_get k (models sample_stats))
      = model_usage_of k ms)
  /\ sum_values mu_calls (models sample_stats) = Z.of_nat (length ms)
  /\ forall n,
       dict_get "assistant" (messages sample_stats) = Some n ->
       sum_values mu_calls (models sample_stats) <= n.
Proof.
  exact (model_usage_by_model scenario_loads scenario_dumps "session.jsonl"
           sample_lines sample_stats eq_refl).
Defined.

(** ** Files without records, and lines that are not objects *)

Lemma foldM_skip {A S : Type} (step : A -> S -> result S) (xs : list A)
    (acc : S) :
  (forall x s, x ∈ xs -> step x s = Ok s) -> foldM step acc xs = Ok acc.
Proof.
  induction xs as [|x xs IH]; intros Hskip; simpl; [done|].
  rewrite (Hskip x acc (list_elem_of_here _ _)). simpl.
  apply IH. intros y s Hy. apply Hskip. by apply list_elem_of_further.
Qed.

(** X4. A file that was read and on every line of which [json.loads]
    raises [json.JSONDecodeError], the empty file among them, gives the
    initial statistics: no session id, the path as file name, zero message
    and token counters, no tool, no model and no timestamp. *)
Theorem nothing_decodes_initial_stats
    (loads : string -> loads_outcome) (json_dumps : json -> string)
    (path : string) (lines : list string) :
  (forall line, line ∈ lines -> loads line = JSONDecodeError) ->
  analyze_session_file loads json_dumps (Ok lines) path
  = Ok (stats_init path).
Proof.
  intros Hnone. unfold analyze_session_file. rewrite bind_Ok.
  rewrite foldM_skip.
  - rewrite bind_Ok. apply foldM_skip.
    intros line s Hin. unfold pass2_try, pass2_line, decoded.
    by rewrite (Hnone line Hin).
  - intros line s Hin. unfold pass1_try, pass1_line, decoded.
    by rewrite (Hnone line Hin).
Qed.

Lemma nothing_decodes_initial_stats_witness :
  analyze_session_file deep_loads scenario_dumps (Ok [""; "{broken"])
    "session.jsonl"
  = Ok (stats_init "session.jsonl").
Proof.
  apply (nothing_decodes_initial_stats deep_loads scenario_dumps
           "session.jsonl" [""; "{broken"]).
  intros line Hin.
  apply elem_of_cons in Hin as [->|Hin]; [by vm_compute|].
  apply list_elem_of_singleton in Hin as ->. by vm_compute.
Defined.

(** ** A file is accepted line by line *)







Lemma foldM_app {A S : Type} (step : A -> S -> result S) (acc : S)
    (xs ys : list A) :
  foldM step acc (xs ++ ys) = (acc' ← foldM step acc xs; foldM step acc' ys).
Proof.
  revert acc. induction xs as [|x xs IH]; intros acc; simpl; [done|].
  destruct (step x acc) as [acc'|e]; simpl; [apply IH | done].
Qed.

(** X6. A line that decodes to anything but an object (a number, a string, a
    list, [null], ...) is not skipped: the analysis of a file with such a
    line never returns statistics, and it ends in [AttributeError] when the
    lines before that line are accepted by pass 1. *)
Theorem non_object_line_raises
    (json_loads : string -> option json) (json_dumps : json -> string)
    (path : string) (lines : list string) (line : string) (obj : json) :
  line ∈ lines ->
  json_loads line = Some obj ->
  (forall o, obj <> JObj o) ->
  (exists e, analyze_session json_loads json_dumps path lines = Raise e)
  /\ forall pre post acc,
       lines = pre ++ line :: post ->
       pass1 json_loads path pre = Ok acc ->
       analyze_session json_loads json_dumps path lines = Raise AttributeError.
Proof.
  intros Hin Hdec Hobj.
  assert (Hline : forall acc, pass1_line json_loads line acc
                              = Raise AttributeError).
  { intros [st idx]. unfold pass1_line. rewrite Hdec. unfold pass1_record.
    destruct obj; try done. by destruct (Hobj o). }
  split.
  - destruct (analyze_session json_loads json_dumps path lines)
      as [st|e] eqn:Hrun; [|eauto].
    apply analyze_session_inv in Hrun as (st1 & idx & H1 & _).
    destruct (foldM_elements_run (pass1_line json_loads) (fun _ => True)
                lines _ _ ltac:(done) I H1 line Hin)
      as (s0 & s1 & _ & Hok).
    by rewrite Hline in Hok.
  - intros pre post acc -> Hpre. unfold analyze_session, pass1 in *.
    rewrite foldM_app, Hpre, bind_Ok. cbn [foldM]. by rewrite Hline.
Qed.

Lemma non_object_line_raises_witness :
  analyze_session number_loads scenario_dumps "session.jsonl"
    ["assistant-line"; "42"; "user-line"] = Raise AttributeError.
Proof.
  destruct (non_object_line_raises number_loads scenario_dumps
              "session.jsonl" ["assistant-line"; "42"; "user-line"] "42"
              (JInt 42)) as [_ Hraise].
  - apply list_elem_of_further, list_elem_of_here.
  - reflexivity.
  - discriminate.
  - refine (Hraise ["assistant-line"] ["user-line"] _ eq_refl eq_refl).
Defined.

(** ** Timestamps that are not strings *)

Lemma py_cmp_str_inv (op : cmp_op) (ts : json) (f : string) (b : bool) :
  py_cmp op ts (JStr f) = Ok b -> exists s, ts = JStr s.
Proof.
  destruct ts as [| b0 | z | s | l | o]; simpl; try discriminate; eauto.
Qed.

Lemma track_timestamps_first_str (o : list (string * json)) (st st' : stats)
    (f : string) :
  track_timestamps o st = Ok st' ->
  ts_first st = JStr f ->
  (exists f', ts_first st' = JStr f')
  /\ forall ts, obj_get "timestamp" o = Some ts -> exists s, ts = JStr s.
Proof.
  unfold track_timestamps. intros Hrun Hf.
  destruct (obj_get "timestamp" o) as [ts|];
    [|injection Hrun as <-; split; [eauto|done]].
  rewrite Hf in Hrun. simpl in Hrun.
  apply bind_Ok_inv in Hrun as (b1 & Hb1 & Hrun).
  apply py_cmp_str_inv in Hb1 as (s & ->).
  apply bind_Ok_inv in Hrun as (b2 & _ & [= <-]). simpl.
  split; [destruct b1; eauto|]. intros ? [= <-]. eauto.
Qed.

Lemma track_timestamps_adopts_str (o : list (string * json)) (st st' : stats)
    (s : string) :
  track_timestamps o st = Ok st' ->
  obj_get "timestamp" o = Some (JStr s) ->
  exists f', ts_first st' = JStr f'.
Proof.
  unfold track_timestamps. intros Hrun Hts. rewrite Hts in Hrun.
  apply bind_Ok_inv in Hrun as (b1 & Hb1 & Hrun).
  apply bind_Ok_inv in Hrun as (b2 & _ & [= <-]). simpl.
  destruct b1; [eauto|].
  destruct (ts_first st) as [| b0 | z | f | l | ob]; simpl in Hb1;
    try discriminate Hb1; eauto.
Qed.

Lemma pass1_fold_first_str (json_loads : string -> option json)
    (lines : list string) (st st' : stats) (tool_names tool_names' : index)
    (f : string) :
  foldM (pass1_line json_loads) (st, tool_names) lines = Ok (st', tool_names') ->
  ts_first st = JStr f ->
  exists f', ts_first st' = JStr f'.
Proof.
  revert st tool_names f.
  induction lines as [|line lines IH]; intros st idx f; simpl.
  - intros [= <- _]. eauto.
  - intros Hrun Hf. apply bind_Ok_inv in Hrun as ([s i] & Hline & Hrun).
    unfold pass1_line in Hline.
    destruct (json_loads line) as [obj|];
      [|injection Hline as <- <-; by apply (IH st idx f)].
    apply pass1_record_header in Hline as (o & st1 & -> & Hts & _ & Hf1 & _).
    destruct (track_session_id_effect o st) as (v & Hsid).
    rewrite Hsid in Hts.
    apply (track_timestamps_first_str _ _ _ f) in Hts as [(f' & Hf') _];
      [|done].
    apply (IH s i f'); [done|congruence].
Qed.

(** X7. Once a record with a string timestamp has been read, a later record
    whose timestamp is not a string ([null], a number, a list, ...) ends the
    analysis in an exception: the file never gives statistics.  (The other
    order can be accepted: the comparison is skipped while no timestamp is
    known.) *)
Theorem non_string_timestamp_after_string_raises
    (json_loads : string -> option json) (json_dumps : json -> string)
    (path : string) (before between after : list string)
    (dated other : string) (od oo : list (string * json)) (s : string)
    (ts : json) :
  json_loads dated = Some (JObj od) ->
  obj_get "timestamp" od = Some (JStr s) ->
  json_loads other = Some (JObj oo) ->
  obj_get "timestamp" oo = Some ts ->
  (forall s', ts <> JStr s') ->
  exists e,
    analyze_session json_loads json_dumps path
      (before ++ dated :: between ++ other :: after) = Raise e.
Proof.
  intros Hdated Hs Hother Hts Hnot.
  destruct (analyze_session json_loads json_dumps path _) as [st|e] eqn:Hrun;
    [|eauto].
  exfalso.
  apply analyze_session_inv in Hrun as (st1 & idx & H1 & _).
  unfold pass1 in H1. rewrite foldM_app in H1.
  apply bind_Ok_inv in H1 as ([s0 i0] & _ & H1). cbn [foldM] in H1.
  apply bind_Ok_inv in H1 as ([s1 i1] & Hd & H1).
  rewrite foldM_app in H1.
  apply bind_Ok_inv in H1 as ([s2 i2] & Hbetween & H1). cbn [foldM] in H1.
  apply bind_Ok_inv in H1 as ([s3 i3] & Ho & _).
  unfold pass1_line in Hd, Ho. rewrite Hdated in Hd. rewrite Hother in Ho.
  apply pass1_record_header in Hd as (o & st' & [= <-] & Htd & _ & Hf1 & _).
  destruct (track_session_id_effect od s0) as (v & Hsid). rewrite Hsid in Htd.
  apply (track_timestamps_adopts_str _ _ _ s) in Htd as (f1 & Hf1'); [|done].
  destruct (pass1_fold_first_str json_loads between s1 s2 i1 i2 f1 Hbetween)
    as (f2 & Hf2); [congruence|].
  apply pass1_record_header in Ho as (o' & st'' & [= <-] & Hto & _).
  destruct (track_session_id_effect oo s2) as (v' & Hsid').
  rewrite Hsid' in Hto.
  apply (track_timestamps_first_str _ _ _ f2) in Hto as [_ Hstr]; [|done].
  destruct (Hstr ts Hts) as (s' & ->). by apply (Hnot s').
Qed.

Lemma non_string_timestamp_after_string_raises_witness :
  (exists e,
     analyze_session null_ts_loads scenario_dumps "session.jsonl"
       ([] ++ "dated" :: [] ++ "undated" :: []) = Raise e)
  /\ exists st,
       analyze_session null_ts_loads scenario_dumps "session.jsonl"
         ["undated"; "dated"] = Ok st.
Proof.
  split; [|eexists; reflexivity].
  apply (non_string_timestamp_after_string_raises null_ts_loads
           scenario_dumps "session.jsonl" [] [] [] "dated" "undated"
           [("timestamp", JStr "2026-01-01T00:00:00Z")]
           [("timestamp", JNull)] "2026-01-01T00:00:00Z" JNull);
    try reflexivity.
  discriminate.
Defined.

(** ** Tables of tools *)

Section pydict_more.
Context {K V : Type} `{EqDecision K}.
Implicit Types (k : K) (v : V) (d : pydict K V).

Lemma dict_get_elem_of k v d : dict_get k d = Some v -> (k, v) ∈ d.
Proof.
  induction d as [|[k' v'] d IH]; simpl; [done|].
  destruct (decide (k = k')) as [->|Hne].
  - intros [= ->]. apply list_elem_of_here.
  - intros Hget. apply list_elem_of_further. by apply IH.
Qed.

Lemma dict_set_Forall (P : K * V -> Prop) k v d :
  Forall P d -> (forall k', P (k', v)) -> Forall P (dict_set k v d).
Proof.
  intros Hd Hv. revert Hd.
  induction d as [|[k' v'] d' IH]; intros Hd; simpl.
  - constructor; [apply Hv|constructor].
  - apply Forall_cons in Hd as [Hx Hd].
    destruct (decide (k = k')); constructor; auto.
Qed.

Lemma dd_update_Forall (P : V -> Prop) (dflt : V) (f : V -> V) k d :
  Forall (fun kv => P (snd kv)) d ->
  (forall old, P old -> P (f old)) ->
  (dict_get k d = None -> P (f dflt)) ->
  Forall (fun kv => P (snd kv)) (dd_update dflt f k d).
Proof.
  intros Hd Hold Hnew. unfold dd_update.
  apply dict_set_Forall; [done|]. intros k0. simpl.
  destruct (dict_get k d) as [old|] eqn:Hget; simpl; [|by apply Hnew].
  apply Hold. apply dict_get_elem_of in Hget.
  rewrite Forall_forall in Hd. by apply (Hd (k, old)).
Qed.

Lemma dict_get_is_Some_keys k d : is_Some (dict_get k d) <-> k ∈ dict_keys d.
Proof.
  destruct (dict_get k d) as [v|] eqn:Hget.
  - split; [intros _|eauto].
    destruct (decide (k ∈ dict_keys d)) as [|Hn]; [done|].
    apply dict_get_None_keys in Hn. congruence.
  - split; [by intros [? ?]|].
    intros Hin. by apply dict_get_None_keys in Hget.
Qed.
End pydict_more.

Lemma content_size_nonneg (json_dumps : json -> string) (content : json) :
  0 <= content_size json_dumps content.
Proof.
  assert (Hlen : forall s, 0 <= len s) by (intros s; unfold len; lia).
  destruct content as [| | | |l|]; simpl; try apply Hlen.
  unfold sumZ. induction l as [|b l IH]; simpl; [lia|].
  specialize (Hlen (json_dumps b)). lia.
Qed.

Lemma use_step_tables (acc : pydict pykey Z * index) (u : json * json) :
  calls_positive (fst acc) /\ NoDup (dict_keys (fst acc)) ->
  calls_positive (fst (use_step acc u))
  /\ NoDup (dict_keys (fst (use_step acc u))).
Proof.
  intros [Hpos Hnd]. unfold use_step.
  destruct (py_hash (fst u)) as [n|]; simpl; [|done].
  split; [|by apply dict_keys_set_NoDup].
  apply (dd_update_Forall (fun v => 1 <= v)); [done|intros; lia..].
Qed.

Lemma fold_uses_tables (uses : list (json * json))
    (acc : pydict pykey Z * index) :
  calls_positive (fst acc) /\ NoDup (dict_keys (fst acc)) ->
  calls_positive (fst (fold_left use_step uses acc))
  /\ NoDup (dict_keys (fst (fold_left use_step uses acc))).
Proof.
  revert acc. induction uses as [|u uses IH]; intros acc Hacc; simpl; [done|].
  apply IH. by apply use_step_tables.
Qed.

Lemma result_step_tables (json_dumps : json -> string) (tool_names : index)
    (sizes : pydict pykey size_agg) (r : json * json) :
  sizes_positive sizes /\ NoDup (dict_keys sizes) ->
  sizes_positive (result_step json_dumps tool_names sizes r)
  /\ NoDup (dict_keys (result_step json_dumps tool_names sizes r)).
Proof.
  intros [Hpos Hnd]. unfold result_step.
  destruct (attributed_tool tool_names (fst r)) as [tool|]; [|done].
  pose proof (content_size_nonneg json_dumps (snd r)) as Hsize.
  unfold add_result. split.
  - apply (dd_update_Forall
             (fun e => 1 <= sz_count e /\ 0 <= sz_total_chars e)).
    + apply (dd_update_Forall
               (fun e => 1 <= sz_count e /\ 0 <= sz_total_chars e));
        [done|simpl; intros; lia..].
    + simpl. intros. lia.
    + unfold dd_update. by rewrite dict_get_set_eq.
  - unfold dd_update. by do 2 apply dict_keys_set_NoDup.
Qed.

Lemma fold_results_tables (json_dumps : json -> string) (tool_names : index)
    (results : list (json * json)) (sizes : pydict pykey size_agg) :
  sizes_positive sizes /\ NoDup (dict_keys sizes) ->
  let sizes' := fold_left (result_step json_dumps tool_names) results sizes in
  sizes_positive sizes' /\ NoDup (dict_keys sizes').
Proof.
  revert sizes. induction results as [|r results IH]; intros sizes Hs; simpl;
    [done|].
  apply IH. by apply result_step_tables.
Qed.

Lemma pass1_record_models_positive (obj : json) (st st' : stats)
    (tool_names tool_names' : index) :
  pass1_record obj (st, tool_names) = Ok (st', tool_names') ->
  Forall (fun kv => 1 <= mu_calls (snd kv)) (models st) ->
  Forall (fun kv => 1 <= mu_calls (snd kv)) (models st').
Proof.
  intros Hrun Hpos.
  apply pass1_record_cases in Hrun
    as (o & v & f & l & msgs & -> & _ & Hcases).
  cbn zeta in Hcases.
  destruct Hcases as [(_ & -> & _)|(m & u & t & model & calls & _ & _ & _
                                     & ->)]; [done|].
  simpl. apply dict_set_Forall; [done|]. intros k0. simpl.
  destruct (dict_get model (models st)) as [old|] eqn:Hget; simpl; [|lia].
  apply dict_get_elem_of in Hget. rewrite Forall_forall in Hpos.
  specialize (Hpos _ Hget). simpl in Hpos. lia.
Qed.

Lemma records_of_type_nonneg (json_loads : string -> option json)
    (t : string) (lines : list string) :
  0 <= records_of_type json_loads t lines.
Proof.
  unfold records_of_type, sumZ.
  induction lines as [|line lines IH]; simpl; [lia|].
  assert (0 <= has_type json_loads t line); [|lia].
  unfold has_type, type_is.
  destruct (json_loads line) as [[| | | | |o]|]; try lia.
  destruct (py_eq _ _); lia.
Qed.

(** The tables of tools of a run: positive entries, each tool once. *)
Lemma analyze_session_tables
    (json_loads : string -> option json) (json_dumps : json -> string)
    (path : string) (lines : list string) (st : stats) :
  analyze_session json_loads json_dumps path lines = Ok st ->
  calls_positive (tool_calls st)
  /\ sizes_positive (tool_result_sizes st)
  /\ NoDup (dict_keys (tool_calls st))
  /\ NoDup (dict_keys (tool_result_sizes st)).
Proof.
  intros Hrun.
  apply analyze_session_inv in Hrun as (st1 & idx & H1 & H2).
  pose proof (pass1_sizes_empty _ _ _ _ _ H1) as Hempty.
  unfold pass1 in H1. apply pass1_fold_uses in H1.
  destruct (fold_uses_tables (tool_uses json_loads lines)
              (tool_calls (stats_init path), ∅))
    as [Hcalls Hnd]; [split; [constructor|apply NoDup_nil_2]|].
  rewrite <- H1 in Hcalls, Hnd. simpl in Hcalls, Hnd.
  pose proof H2 as H2'. apply pass2_effect in H2' as (sizes & ->).
  apply pass2_fold_results in H2 as [_ Hsizes]. simpl in *.
  destruct (fold_results_tables json_dumps idx
              (tool_results json_loads lines) (tool_result_sizes st1))
    as [Hpos Hnd']; [rewrite Hempty; split; [constructor|apply NoDup_nil_2]|].
  rewrite <- Hsizes in Hpos, Hnd'. done.
Qed.

Lemma analysed_tables (st : stats) :
  analysed st ->
  calls_positive (tool_calls st)
  /\ sizes_positive (tool_result_sizes st)
  /\ NoDup (dict_keys (tool_calls st))
  /\ NoDup (dict_keys (tool_result_sizes st)).
Proof.
  intros (json_loads & json_dumps & path & lines & Hrun).
  by apply analyze_session_tables in Hrun.
Qed.

(** X8. In the statistics [analyze_session] returns, every tool listed in
    [tool_calls] was called at least once, every tool listed in
    [tool_result_sizes] has at least one result and a total size that is not
    negative, every model listed in [models] has at least one call, no
    message counter is negative, and no tool is listed twice. *)
Theorem statistics_tables_positive
    (json_loads : string -> option json) (json_dumps : json -> string)
    (path : string) (lines : list string) (st : stats) :
  analyze_session json_loads json_dumps path lines = Ok st ->
  calls_positive (tool_calls st)
  /\ sizes_positive (tool_result_sizes st)
  /\ Forall (fun kv => 1 <= mu_calls (snd kv)) (models st)
  /\ (forall k n, dict_get k (messages st) = Some n -> 0 <= n)
  /\ NoDup (dict_keys (tool_calls st))
  /\ NoDup (dict_keys (tool_result_sizes st)).
Proof.
  intros Hrun.
  destruct (analyze_session_tables _ _ _ _ _ Hrun) as (Hc & Hs & Hnc & Hns).
  apply analyze_session_inv in Hrun as (st1 & idx & H1 & H2).
  pose proof (pass1_counters _ _ _ _ _ H1) as (Hm & _).
  assert (Hmodels : Forall (fun kv => 1 <= mu_calls (snd kv)) (models st1)).
  { apply (pass1_invariant json_loads
             (fun s _ => Forall (fun kv => 1 <= mu_calls (snd kv)) (models s))
             path lines st1 idx); [constructor| |done].
    intros line obj s i s' i' _ _. apply pass1_record_models_positive. }
  apply pass2_effect in H2 as (sizes & ->). simpl in *.
  split; [done|]. split; [done|]. split; [done|]. split; [|done].
  intros k n. rewrite Hm. simpl.
  repeat case_decide; intros [= <-]; apply records_of_type_nonneg.
Qed.

Lemma statistics_tables_positive_witness :
  calls_positive (tool_calls sample_stats)
  /\ sizes_positive (tool_result_sizes sample_stats)
  /\ Forall (fun kv => 1 <= mu_calls (snd kv)) (models sample_stats)
  /\ (forall k n, dict_get k (messages sample_stats) = Some n -> 0 <= n)
  /\ NoDup (dict_keys (tool_calls sample_stats))
  /\ NoDup (dict_keys (tool_result_sizes sample_stats)).
Proof.
  exact (statistics_tables_positive scenario_loads scenario_dumps
           "session.jsonl" sample_lines sample_stats eq_refl).
Defined.

Lemma add_result_keys (tool tool' : pykey) (size : Z)
    (sizes : pydict pykey size_agg) :
  tool' ∈ dict_keys (add_result tool size sizes) ->
  tool' = tool \/ tool' ∈ dict_keys sizes.
Proof.
  rewrite <- !dict_get_is_Some_keys. unfold add_result, dd_update.
  destruct (decide (tool = tool')) as [->|Hne]; [auto|].
  rewrite !dict_get_set_ne by done. auto.
Qed.

Lemma fold_results_keys (json_dumps : json -> string) (tool_names : index)
    (results : list (json * json)) (sizes : pydict pykey size_agg)
    (tool : pykey) :
  tool ∈ dict_keys (fold_left (result_step json_dumps tool_names) results sizes)
  -> tool ∈ dict_keys sizes
     \/ exists r, r ∈ results /\ attributed_tool tool_names (fst r) = Ok tool.
Proof.
  revert sizes. induction results as [|r results IH]; intros sizes; simpl;
    [auto|].
  intros Hin. apply IH in Hin as [Hin|(r' & Hr' & Hattr)].
  - unfold result_step in Hin.
    destruct (attributed_tool tool_names (fst r)) as [t|] eqn:Hattr; [|auto].
    apply add_result_keys in Hin as [->|Hin]; [|auto].
    right. exists r. split; [apply list_elem_of_here|done].
  - right. exists r'. split; [by apply list_elem_of_further|done].
Qed.

(** X9. Every tool name under which [tool_result_sizes] counts results is
    either "unknown" or a tool listed in [tool_calls]: results are never
    attributed to a tool that the file does not call. *)
Theorem result_tools_are_called_tools
    (json_loads : string -> option json) (json_dumps : json -> string)
    (path : string) (lines : list string) (st : stats) (tool : pykey) :
  analyze_session json_loads json_dumps path lines = Ok st ->
  tool ∈ dict_keys (tool_result_sizes st) ->
  tool = KStr "unknown" \/ tool ∈ dict_keys (tool_calls st).
Proof.
  intros Hrun Hin.
  apply analyze_session_inv in Hrun as (st1 & idx & H1 & H2).
  pose proof (pass1_sizes_empty _ _ _ _ _ H1) as Hempty.
  pose proof (pass1_index _ _ _ _ _ H1) as (Hcalls & _ & Hsound & _).
  pose proof H2 as H2'. apply pass2_effect in H2' as (sizes & ->).
  apply pass2_fold_results in H2 as [_ Hsizes]. simpl in *.
  rewrite Hsizes, Hempty in Hin.
  apply fold_results_keys in Hin as [Hin|(r & _ & Hattr)];
    [by apply elem_of_nil in Hin|].
  unfold attributed_tool in Hattr.
  destruct (py_hash (fst r)) as [k|]; simpl in Hattr; [|done].
  destruct (idx !! k) as [n|] eqn:Hk; simpl in Hattr;
    injection Hattr as <-; [|by left].
  right. apply dict_get_is_Some_keys.
  apply Hsound in Hk as (name & id & Huse & _ & _ & Hn).
  specialize (Hcalls n). unfold uses_of in Hcalls.
  assert (Hmem : (name, id) ∈ filter (fun u => py_hash (fst u) = Ok n)
                                (tool_uses json_loads lines))
    by by apply list_elem_of_filter.
  destruct (filter _ _) as [|x l] eqn:Hf; [by apply elem_of_nil in Hmem|].
  destruct (dict_get n (tool_calls st1)); [eauto|].
  simpl in Hcalls. lia.
Qed.

Lemma result_tools_are_called_tools_witness :
  KStr "Read" = KStr "unknown"
  \/ KStr "Read" ∈ dict_keys (tool_calls sample_stats).
Proof.
  apply (result_tools_are_called_tools scenario_loads scenario_dumps
           "session.jsonl" sample_lines sample_stats (KStr "Read") eq_refl).
  apply list_elem_of_here.
Defined.

(** ** Aggregation over sessions *)

Lemma add_tool_calls_get (items tot : pydict pykey Z) (k : pykey) :
  NoDup (dict_keys items) ->
  default 0 (dict_get k (add_tool_calls items tot))
  = default 0 (dict_get k tot) + default 0 (dict_get k items).
Proof.
  unfold add_tool_calls. revert tot.
  induction items as [|[k' v] items IH]; intros tot Hnd; simpl; [lia|].
  apply NoDup_cons in Hnd as [Hk' Hnd].
  rewrite IH, dd_iadd_get by done.
  destruct (decide (k' = k)) as [->|Hne].
  - rewrite !decide_True by done.
    apply dict_get_None_keys in Hk'. cbn [fst] in Hk'. rewrite Hk'.
    simpl. lia.
  - rewrite !decide_False by congruence. lia.
Qed.

Lemma add_tool_calls_keys (items tot : pydict pykey Z) :
  NoDup (dict_keys tot) -> NoDup (dict_keys (add_tool_calls items tot)).
Proof.
  unfold add_tool_calls. revert tot.
  induction items as [|[k v] items IH]; intros tot Hnd; simpl; [done|].
  apply IH. unfold dd_iadd, dd_update. by apply dict_keys_set_NoDup.
Qed.

Lemma size_update_get (k k' : pykey) (c t : Z)
    (sizes : pydict pykey size_agg) :
  default size_agg0
    (dict_get k'
       (dd_update size_agg0
          (fun e => SizeAgg (sz_count e) (sz_total_chars e + t)) k
          (dd_update size_agg0
             (fun e => SizeAgg (sz_count e + c) (sz_total_chars e)) k sizes)))
  = let old := default size_agg0 (dict_get k' sizes) in
    if decide (k = k')
    then SizeAgg (sz_count old + c) (sz_total_chars old + t)
    else old.
Proof.
  unfold dd_update. cbn zeta.
  destruct (decide (k = k')) as [->|Hne].
  - by rewrite !dict_get_set_eq.
  - by rewrite !dict_get_set_ne.
Qed.

Lemma add_tool_result_sizes_get (items tot : pydict pykey size_agg)
    (k : pykey) :
  NoDup (dict_keys items) ->
  let old := default size_agg0 (dict_get k tot) in
  let new := default size_agg0 (dict_get k items) in
  default size_agg0 (dict_get k (add_tool_result_sizes items tot))
  = SizeAgg (sz_count old + sz_count new)
      (sz_total_chars old + sz_total_chars new).
Proof.
  unfold add_tool_result_sizes. revert tot.
  induction items as [|[k' v] items IH]; intros tot Hnd; cbn zeta.
  - simpl. destruct (default size_agg0 (dict_get k tot)). simpl.
    f_equal; lia.
  - apply NoDup_cons in Hnd as [Hk' Hnd]. cbn [fold_left fst snd].
    cbn zeta in IH. rewrite IH by done. rewrite size_update_get. cbn zeta.
    simpl. destruct (decide (k' = k)) as [->|Hne].
    + rewrite !decide_True by done.
      apply dict_get_None_keys in Hk'. cbn [fst] in Hk'. rewrite Hk'.
      simpl. f_equal; lia.
    + rewrite !decide_False by congruence. done.
Qed.

Lemma add_tool_result_sizes_keys (items tot : pydict pykey size_agg) :
  NoDup (dict_keys tot) -> NoDup (dict_keys (add_tool_result_sizes items tot)).
Proof.
  unfold add_tool_result_sizes. revert tot.
  induction items as [|[k v] items IH]; intros tot Hnd; simpl; [done|].
  apply IH. unfold dd_update. by do 2 apply dict_keys_set_NoDup.
Qed.

Lemma item_iadd_three (k : string) (v u a s : Z) (m : pydict string Z) :
  item_iadd k v [("user", u); ("assistant", a); ("system", s)] = Ok m ->
  m = [("user", u + (if decide (k = "user") then v else 0));
       ("assistant", a + (if decide (k = "assistant") then v else 0));
       ("system", s + (if decide (k = "system") then v else 0))].
Proof.
  unfold item_iadd. cbn [dict_get].
  destruct (decide (k = "user")) as [->|Hu];
    [|destruct (decide (k = "assistant")) as [->|Ha];
      [|destruct (decide (k = "system")) as [->|Hs]; [|done]]];
    intros [= <-];
    repeat (cbn [dict_set];
            first [rewrite decide_True by done|rewrite decide_False by done]);
    two_counts.
Qed.

Lemma add_items_three (items : list (string * Z)) (u a s : Z)
    (m : pydict string Z) :
  add_items items [("user", u); ("assistant", a); ("system", s)] = Ok m ->
  m = [("user", u + items_sum "user" items);
       ("assistant", a + items_sum "assistant" items);
       ("system", s + items_sum "system" items)].
Proof.
  unfold add_items, items_sum. revert u a s.
  induction items as [|[k v] items IH]; intros u a s.
  - intros [= <-]. simpl. two_counts.
  - rewrite foldM_cons. cbn [fst snd]. intros Hrun.
    apply bind_Ok_inv in Hrun as (m1 & Hitem & Hrun).
    apply item_iadd_three in Hitem as ->. apply IH in Hrun as ->.
    rewrite !filter_cons. cbn [fst].
    destruct (decide (k = "user")), (decide (k = "assistant")),
      (decide (k = "system")); two_counts.
Qed.

Lemma accumulate_agree (st : stats) (ts ts' tn : totals) (u a s : Z) :
  summary_accumulate st ts = Ok ts' ->
  t_messages ts = [("user", u); ("assistant", a); ("system", s)] ->
  t_messages tn = [("user", u); ("assistant", a)] ->
  t_tokens tn = t_tokens ts ->
  t_tool_calls tn = t_tool_calls ts ->
  t_tool_result_sizes tn = t_tool_result_sizes ts ->
  exists tn' u' a' s',
    snapshot_accumulate st tn = Ok tn'
    /\ t_messages ts' = [("user", u'); ("assistant", a'); ("system", s')]
    /\ t_messages tn' = [("user", u'); ("assistant", a')]
    /\ t_tokens tn' = t_tokens ts'
    /\ t_tool_calls tn' = t_tool_calls ts'
    /\ t_tool_result_sizes tn' = t_tool_result_sizes ts'.
Proof.
  intros Hrun Hms Hmn Htok Hcalls Hsizes.
  unfold summary_accumulate in Hrun.
  apply bind_Ok_inv in Hrun as (m & Hm & Hrun).
  apply bind_Ok_inv in Hrun as (k & Hk & [= <-]).
  rewrite Hms in Hm. apply add_items_three in Hm as ->.
  unfold snapshot_accumulate.
  rewrite Hmn, add_known_items_user_assistant, bind_Ok, Htok, Hk, bind_Ok.
  eexists _, _, _, _. split; [done|]. simpl.
  rewrite Hcalls, Hsizes. done.
Qed.

(** X10. The aggregation loop of [export_snapshot] follows the one of
    [print_summary]: whenever the totals of [print_summary] are computed for
    a list of sessions, those of [export_snapshot] are too, with the same
    token totals, the same tool-call table and the same table of result
    sizes, and with the "user" and "assistant" message totals of
    [print_summary] as its only message totals. *)
Theorem snapshot_totals_follow_summary_totals
    (all_stats : list stats) (ts : totals) :
  summary_totals all_stats = Ok ts ->
  exists tn u a s,
    snapshot_totals all_stats = Ok tn
    /\ t_messages ts = [("user", u); ("assistant", a); ("system", s)]
    /\ t_messages tn = [("user", u); ("assistant", a)]
    /\ t_tokens tn = t_tokens ts
    /\ t_tool_calls tn = t_tool_calls ts
    /\ t_tool_result_sizes tn = t_tool_result_sizes ts.
Proof.
  unfold summary_totals, snapshot_totals.
  assert (Hgen : forall ts0 tn0 u a s,
    t_messages ts0 = [("user", u); ("assistant", a); ("system", s)] ->
    t_messages tn0 = [("user", u); ("assistant", a)] ->
    t_tokens tn0 = t_tokens ts0 ->
    t_tool_calls tn0 = t_tool_calls ts0 ->
    t_tool_result_sizes tn0 = t_tool_result_sizes ts0 ->
    foldM summary_accumulate ts0 all_stats = Ok ts ->
    exists tn u a s,
      foldM snapshot_accumulate tn0 all_stats = Ok tn
      /\ t_messages ts = [("user", u); ("assistant", a); ("system", s)]
      /\ t_messages tn = [("user", u); ("assistant", a)]
      /\ t_tokens tn = t_tokens ts
      /\ t_tool_calls tn = t_tool_calls ts
      /\ t_tool_result_sizes tn = t_tool_result_sizes ts).
  { induction all_stats as [|st l IH]; intros ts0 tn0 u a s Hms Hmn Ht Hc Hs.
    - intros [= <-]. exists tn0, u, a, s. done.
    - simpl. intros Hrun. apply bind_Ok_inv in Hrun as (ts1 & Hacc & Hrun).
      destruct (accumulate_agree st ts0 ts1 tn0 u a s Hacc Hms Hmn Ht Hc Hs)
        as (tn1 & u' & a' & s' & -> & Hms' & Hmn' & Ht' & Hc' & Hs').
      rewrite bind_Ok. by apply (IH ts1 tn1 u' a' s'). }
  by apply (Hgen summary_totals0 snapshot_totals0 0 0 0).
Qed.

Lemma snapshot_totals_follow_summary_totals_witness :
  exists tn u a s,
    snapshot_totals [sample_stats; sample_stats] = Ok tn
    /\ [("user", 2); ("assistant", 2); ("system", 4)]
       = [("user", u); ("assistant", a); ("system", s)]
    /\ t_messages tn = [("user", u); ("assistant", a)]
    /\ t_tokens tn = tokens_of 200 100 0 0
    /\ t_tool_calls tn = [(KStr "Read", 2)]
    /\ t_tool_result_sizes tn = [(KStr "Read", SizeAgg 2 10)].
Proof.
  exact (snapshot_totals_follow_summary_totals [sample_stats; sample_stats]
           (Totals [("user", 2); ("assistant", 2); ("system", 4)]
              (tokens_of 200 100 0 0) [(KStr "Read", 2)]
              [(KStr "Read", SizeAgg 2 10)])
           eq_refl).
Defined.

(** ** The aggregated tables *)

Lemma summary_accumulate_tables (st : stats) (t t' : totals) :
  summary_accumulate st t = Ok t' ->
  t_tool_calls t' = add_tool_calls (tool_calls st) (t_tool_calls t)
  /\ t_tool_result_sizes t'
     = add_tool_result_sizes (tool_result_sizes st) (t_tool_result_sizes t).
Proof.
  unfold summary_accumulate. intros Hrun.
  apply bind_Ok_inv in Hrun as (m & _ & Hrun).
  by apply bind_Ok_inv in Hrun as (k & _ & [= <-]).
Qed.


Lemma add_tool_calls_mem (items tot : pydict pykey Z) (k : pykey) :
  k ∈ dict_keys (add_tool_calls items tot)
  <-> k ∈ dict_keys tot \/ k ∈ dict_keys items.
Proof.
  unfold add_tool_calls. revert tot.
  induction items as [|[k' v] items IH]; intros tot; cbn [fold_left fst snd].
  - split; [auto|]. intros [?|Hin]; [done|]. by apply elem_of_nil in Hin.
  - rewrite IH. unfold dd_iadd, dd_update.
    change (dict_keys ((k', v) :: items)) with (k' :: dict_keys items).
    rewrite elem_of_cons.
    rewrite <- !dict_get_is_Some_keys, dict_get_set.
    destruct (decide (k' = k)) as [->|Hne].
    { split; [intros _; right; by left|intros _; left; by eexists]. }
    split; [intros [?|?]; auto|].
    intros [?|[?|?]]; [auto|congruence|auto].
Qed.

Lemma add_tool_result_sizes_mem (items tot : pydict pykey size_agg)
    (k : pykey) :
  k ∈ dict_keys (add_tool_result_sizes items tot)
  <-> k ∈ dict_keys tot \/ k ∈ dict_keys items.
Proof.
  unfold add_tool_result_sizes. revert tot.
  induction items as [|[k' v] items IH]; intros tot; simpl.
  - split; [auto|]. intros [?|Hin]; [done|]. by apply elem_of_nil in Hin.
  - rewrite IH. unfold dd_update.
    change (dict_keys ((k', v) :: items)) with (k' :: dict_keys items).
    rewrite elem_of_cons.
    rewrite <- !dict_get_is_Some_keys, !dict_get_set.
    destruct (decide (k' = k)) as [->|Hne].
    { split; [intros _; right; by left|intros _; left; by eexists]. }
    split; [intros [?|?]; auto|].
    intros [?|[?|?]]; [auto|congruence|auto].
Qed.

(** The entry of each tool after the loop over the sessions. *)
Lemma fold_tables_get (step : stats -> totals -> result totals)
    (all_stats : list stats) (t t' : totals) (tool : pykey) :
  adds_tables step ->
  Forall (fun st => NoDup (dict_keys (tool_calls st))
                    /\ NoDup (dict_keys (tool_result_sizes st))) all_stats ->
  foldM step t all_stats = Ok t' ->
  default 0 (dict_get tool (t_tool_calls t'))
  = default 0 (dict_get tool (t_tool_calls t))
    + total_at tool (map tool_calls all_stats)
  /\ (let old := default size_agg0 (dict_get tool (t_tool_result_sizes t)) in
      let new := sizes_at tool (map tool_result_sizes all_stats) in
      default size_agg0 (dict_get tool (t_tool_result_sizes t'))
      = SizeAgg (sz_count old + sz_count new)
          (sz_total_chars old + sz_total_chars new)).
Proof.
  intros Hstep Hall. revert t.
  induction Hall as [|st all_stats [Hc Hs] _ IH]; intros t.
  - intros [= <-]. unfold total_at, sizes_at. simpl.
    split; [lia|]. destruct (default size_agg0 _). simpl. f_equal; lia.
  - rewrite foldM_cons. intros Hrun.
    apply bind_Ok_inv in Hrun as (t1 & H1 & Hrun).
    apply Hstep in H1 as [Hcalls Hsizes].
    apply IH in Hrun as [-> ->]. cbn zeta.
    rewrite Hcalls, Hsizes, add_tool_calls_get by done.
    pose proof (add_tool_result_sizes_get (tool_result_sizes st)
                  (t_tool_result_sizes t) tool Hs) as Hget.
    cbn zeta in Hget. rewrite Hget.
    unfold total_at, sizes_at, sumZ. cbn [map foldr sz_count sz_total_chars].
    split; [lia|]. f_equal; lia.
Qed.

(** The tools listed after the loop over the sessions. *)
Lemma fold_tables_mem (step : stats -> totals -> result totals)
    (all_stats : list stats) (t t' : totals) (tool : pykey) :
  adds_tables step ->
  foldM step t all_stats = Ok t' ->
  (tool ∈ dict_keys (t_tool_calls t')
   <-> tool ∈ dict_keys (t_tool_calls t)
       \/ exists st, st ∈ all_stats /\ tool ∈ dict_keys (tool_calls st))
  /\ (tool ∈ dict_keys (t_tool_result_sizes t')
      <-> tool ∈ dict_keys (t_tool_result_sizes t)
          \/ exists st,
               st ∈ all_stats /\ tool ∈ dict_keys (tool_result_sizes st)).
Proof.
  intros Hstep. revert t.
  induction all_stats as [|st all_stats IH]; intros t.
  - intros [= <-]. split; (split; [auto|]); intros [?|(st & Hin & _)];
      try done; by apply elem_of_nil in Hin.
  - rewrite foldM_cons. intros Hrun.
    apply bind_Ok_inv in Hrun as (t1 & H1 & Hrun).
    apply Hstep in H1 as [Hcalls Hsizes].
    apply IH in Hrun as [-> ->].
    rewrite Hcalls, Hsizes, add_tool_calls_mem, add_tool_result_sizes_mem.
    split; (split;
      [intros [[?|?]|(st' & Hin & ?)];
         [by left
         |right; exists st; split; [apply list_elem_of_here|done]
         |right; exists st'; split; [by apply list_elem_of_further|done]]
      |intros [?|(st' & Hin & ?)]; [by left; left|];
       apply elem_of_cons in Hin as [->|Hin]; [by left; right|];
       right; by exists st']).
Qed.

Lemma fold_tables_NoDup (step : stats -> totals -> result totals)
    (all_stats : list stats) (t t' : totals) :
  adds_tables step ->
  foldM step t all_stats = Ok t' ->
  NoDup (dict_keys (t_tool_calls t)) ->
  NoDup (dict_keys (t_tool_result_sizes t)) ->
  NoDup (dict_keys (t_tool_calls t'))
  /\ NoDup (dict_keys (t_tool_result_sizes t')).
Proof.
  intros Hstep. revert t.
  induction all_stats as [|st all_stats IH]; intros t.
  - by intros [= <-].
  - rewrite foldM_cons. intros Hrun Hc Hs.
    apply bind_Ok_inv in Hrun as (t1 & H1 & Hrun).
    apply Hstep in H1 as [Hcalls Hsizes].
    apply (IH _ Hrun).
    + rewrite Hcalls. by apply add_tool_calls_keys.
    + rewrite Hsizes. by apply add_tool_result_sizes_keys.
Qed.

Lemma analysed_keys_unique (all_stats : list stats) :
  Forall analysed all_stats ->
  Forall (fun st => NoDup (dict_keys (tool_calls st))
                    /\ NoDup (dict_keys (tool_result_sizes st))) all_stats.
Proof.
  intros Hall. eapply Forall_impl; [exact Hall|]. intros st Hst.
  by apply analysed_tables in Hst as (_ & _ & ? & ?).
Qed.


Lemma summary_adds_tables : adds_tables summary_accumulate.
Proof. intros st t t'. apply summary_accumulate_tables. Qed.

Lemma sample_pair_analysed : Forall analysed [sample_stats; sample_stats].
Proof.
  constructor; [apply sample_stats_analysed|apply sample_all_analysed].
Qed.



(** *** The summary metrics *)

Lemma dict_get_nonneg {V : Type} (f : V -> Z) (k : pykey)
    (d : pydict pykey V) :
  Forall (fun kv => 0 <= f (snd kv)) d ->
  0 <= match dict_get k d with Some v => f v | None => 0 end.
Proof.
  intros Hall. destruct (dict_get k d) as [v|] eqn:Hk; [|lia].
  apply dict_get_elem_of in Hk. rewrite Forall_forall in Hall.
  exact (Hall _ Hk).
Qed.

(** The entries of the three read and search tools are part of the table. *)
Lemma read_tools_bound {V : Type} (f : V -> Z) (d : pydict pykey V) :
  Forall (fun kv => 0 <= f (snd kv)) d ->
  0 <= sumZ (map (fun t => match dict_get t d with
                           | Some v => f v
                           | None => 0
                           end) read_tools)
    <= sum_values f d.
Proof.
  induction 1 as [|[k v] d Hv Hall IH].
  - unfold sum_values. simpl. lia.
  - pose proof (dict_get_nonneg f (KStr "Read") d Hall).
    pose proof (dict_get_nonneg f (KStr "Glob") d Hall).
    pose proof (dict_get_nonneg f (KStr "Grep") d Hall).
    unfold sum_values, read_tools, sumZ in *.
    cbn [map foldr dict_get snd] in *.
    repeat case_decide; subst; try discriminate; lia.
Qed.

Lemma add_tool_calls_read_search (items tot : pydict pykey Z) :
  NoDup (dict_keys items) ->
  read_search_calls_of (add_tool_calls items tot)
  = read_search_calls_of tot + read_search_calls_of items.
Proof.
  intros Hnd. unfold read_search_calls_of, read_tools, sumZ.
  cbn [map foldr]. rewrite !add_tool_calls_get by done. lia.
Qed.

Lemma read_search_chars_default (sizes : pydict pykey size_agg) :
  read_search_chars_of sizes
  = sumZ (map (fun t =>
                 sz_total_chars (default size_agg0 (dict_get t sizes)))
            read_tools).
Proof.
  unfold read_search_chars_of, read_tools. cbn [map].
  by repeat destruct (dict_get _ sizes).
Qed.

Lemma add_tool_result_sizes_read_search (items tot : pydict pykey size_agg) :
  NoDup (dict_keys items) ->
  read_search_chars_of (add_tool_result_sizes items tot)
  = read_search_chars_of tot + read_search_chars_of items.
Proof.
  intros Hnd. rewrite !read_search_chars_default. unfold read_tools, sumZ.
  cbn [map foldr].
  pose proof (add_tool_result_sizes_get items tot (KStr "Read") Hnd) as H1.
  pose proof (add_tool_result_sizes_get items tot (KStr "Glob") Hnd) as H2.
  pose proof (add_tool_result_sizes_get items tot (KStr "Grep") Hnd) as H3.
  cbn zeta in H1, H2, H3. rewrite H1, H2, H3. simpl. lia.
Qed.

Lemma add_tool_calls_sum (items tot : pydict pykey Z) :
  sum_values id (add_tool_calls items tot)
  = sum_values id tot + sum_values id items.
Proof.
  unfold add_tool_calls. revert tot.
  induction items as [|[k v] items IH]; intros tot; cbn [fold_left fst snd].
  - unfold sum_values. simpl. lia.
  - rewrite IH. unfold dd_iadd, dd_update. rewrite sum_values_set.
    unfold sum_values, sumZ. cbn [map foldr snd].
    destruct (dict_get k tot); unfold id; simpl; lia.
Qed.

Lemma add_tool_result_sizes_total (items tot : pydict pykey size_agg) :
  total_chars_of (add_tool_result_sizes items tot)
  = total_chars_of tot + total_chars_of items.
Proof.
  change total_chars_of with (sum_values (K := pykey) sz_total_chars).
  unfold add_tool_result_sizes. revert tot.
  induction items as [|[k v] items IH]; intros tot; cbn [fold_left fst snd].
  - unfold sum_values. simpl. lia.
  - rewrite IH. unfold dd_update.
    rewrite sum_values_set, dict_get_set_eq, sum_values_set.
    unfold sum_values, sumZ. cbn [map foldr snd].
    destruct (dict_get k tot); simpl; lia.
Qed.



(** The state of either aggregation loop after the sessions. *)
Lemma fold_tables_metrics (step : stats -> totals -> result totals)
    (all_stats : list stats) (t t' : totals) :
  adds_tables step ->
  Forall (fun st => NoDup (dict_keys (tool_calls st))
                    /\ NoDup (dict_keys (tool_result_sizes st))) all_stats ->
  foldM step t all_stats = Ok t' ->
  read_search_calls_of (t_tool_calls t')
  = read_search_calls_of (t_tool_calls t)
    + read_search_total (map tool_calls all_stats)
  /\ read_search_chars_of (t_tool_result_sizes t')
     = read_search_chars_of (t_tool_result_sizes t)
       + sumZ (map (fun st => read_search_chars_of (tool_result_sizes st))
                 all_stats)
  /\ total_chars_of (t_tool_result_sizes t')
     = total_chars_of (t_tool_result_sizes t)
       + sumZ (map (fun st => total_chars_of (tool_result_sizes st))
                 all_stats)
  /\ sum_values id (t_tool_calls t')
     = sum_values id (t_tool_calls t)
       + sumZ (map (fun st => sum_values id (tool_calls st)) all_stats).
Proof.
  intros Hstep Hall. revert t.
  induction Hall as [|st all_stats [Hc Hs] _ IH]; intros t.
  - intros [= <-]. unfold read_search_total. simpl. lia.
  - rewrite foldM_cons. intros Hrun.
    apply bind_Ok_inv in Hrun as (t1 & H1 & Hrun).
    apply Hstep in H1 as [Hcalls Hsizes].
    apply IH in Hrun as (-> & -> & -> & ->).
    rewrite Hcalls, Hsizes, add_tool_calls_read_search,
      add_tool_result_sizes_read_search, add_tool_result_sizes_total,
      add_tool_calls_sum by done.
    unfold read_search_total, sumZ. cbn [map foldr]. lia.
Qed.


Lemma analysed_positive (all_stats : list stats) :
  Forall analysed all_stats ->
  Forall (fun st => calls_positive (tool_calls st)
                    /\ sizes_positive (tool_result_sizes st)) all_stats.
Proof.
  intros Hall. eapply Forall_impl; [exact Hall|]. intros st Hst.
  by apply analysed_tables in Hst as (? & ? & _ & _).
Qed.



(** ** The listings of [print_summary] *)

(** *** Sorting by descending key *)

Section sorted_desc_facts.
Context {A : Type} (key : A -> Z).

Lemma insert_desc_perm (x : A) (l : list A) :
  Permutation (insert_desc key x l) (x :: l).
Proof.
  induction l as [|y l IH]; simpl; [done|].
  destruct (key y <=? key x); [done|].
  rewrite IH. apply perm_swap.
Qed.

Lemma sorted_desc_perm (l : list A) : Permutation (sorted_desc key l) l.
Proof.
  induction l as [|x l IH]; simpl; [done|].
  rewrite insert_desc_perm. by constructor.
Qed.

Lemma insert_desc_descending (x : A) (l : list A) :
  descending key l -> descending key (insert_desc key x l).
Proof.
  induction l as [|y l IH]; simpl; [by split|].
  intros [Hy Hl]. destruct (key y <=? key x) eqn:Hle.
  - apply Z.leb_le in Hle. simpl. split; [|done].
    constructor; [done|]. eapply Forall_impl; [exact Hy|].
    simpl. intros; lia.
  - apply Z.leb_gt in Hle. simpl. split; [|by apply IH].
    rewrite insert_desc_perm. constructor; [lia|done].
Qed.

Lemma sorted_desc_descending (l : list A) : descending key (sorted_desc key l).
Proof.
  induction l as [|x l IH]; simpl; [done|]. by apply insert_desc_descending.
Qed.

(** The sort is stable: elements of equal key keep their order. *)
Lemma insert_desc_stable (c : Z) (x : A) (l : list A) :
  filter (fun y => key y = c) (insert_desc key x l)
  = filter (fun y => key y = c) (x :: l).
Proof.
  induction l as [|y l IH]; simpl; [done|].
  destruct (key y <=? key x) eqn:Hle; [done|]. apply Z.leb_gt in Hle.
  rewrite (filter_cons _ y (insert_desc key x l)), IH.
  rewrite !filter_cons. repeat case_decide; try done; lia.
Qed.

Lemma sorted_desc_stable (c : Z) (l : list A) :
  filter (fun y => key y = c) (sorted_desc key l)
  = filter (fun y => key y = c) l.
Proof.
  induction l as [|x l IH]; simpl; [done|].
  rewrite insert_desc_stable, !filter_cons, IH. done.
Qed.

Lemma descending_app (l1 l2 : list A) :
  descending key (l1 ++ l2)
  -> descending key l1
     /\ forall x y, x ∈ l1 -> y ∈ l2 -> key y <= key x.
Proof.
  induction l1 as [|z l1 IH]; simpl.
  - intros _. split; [done|]. intros x y Hx. by apply elem_of_nil in Hx.
  - intros [Hz Hl]. apply IH in Hl as [Hl Hcross].
    apply Forall_app in Hz as [Hz1 Hz2]. split; [done|].
    intros x y Hx Hy. apply elem_of_cons in Hx as [->|Hx]; [|by apply Hcross].
    rewrite Forall_forall in Hz2. by apply Hz2.
Qed.

(** The first [n] elements of a sorted list are sorted, and none of the
    others has a greater key. *)
Lemma descending_take (n : nat) (l : list A) :
  descending key l
  -> descending key (take n l)
     /\ forall x y, x ∈ take n l -> y ∈ drop n l -> key y <= key x.
Proof. rewrite <- (take_drop n l) at 1. apply descending_app. Qed.
End sorted_desc_facts.

(** *** The listing of all tools *)

Lemma dict_get_of_elem {K V : Type} `{EqDecision K} (k : K) (v : V)
    (d : pydict K V) :
  NoDup (dict_keys d) -> (k, v) ∈ d -> dict_get k d = Some v.
Proof.
  induction d as [|[k' v'] d IH]; intros Hnd Hin;
    [by apply elem_of_nil in Hin|].
  apply NoDup_cons in Hnd as [Hk' Hnd]. cbn [dict_get].
  apply elem_of_cons in Hin as [[= -> ->]|Hin]; [by rewrite decide_True|].
  rewrite decide_False; [by apply IH|]. intros ->. apply Hk'.
  apply (list_elem_of_fmap_2 fst) in Hin. exact Hin.
Qed.

Lemma dict_keys_elem {K V : Type} `{EqDecision K} (k : K) (d : pydict K V) :
  k ∈ dict_keys d -> exists v, (k, v) ∈ d.
Proof.
  intros Hk. apply dict_get_is_Some_keys in Hk as [v Hv].
  exists v. by apply dict_get_elem_of.
Qed.

(** The table after the reads of line 235. *)
Lemma read_tools_added (calls : pydict pykey Z) :
  fold_left (fun c tool => dd_iadd tool 0 c) read_tools calls
  = add_tool_calls read_tools_items calls.
Proof. reflexivity. Qed.

Lemma read_tools_items_NoDup : NoDup (dict_keys read_tools_items).
Proof.
  apply (bool_decide_unpack _). by vm_compute.
Qed.

Lemma read_tools_added_get (calls : pydict pykey Z) (k : pykey) :
  default 0 (dict_get k (add_tool_calls read_tools_items calls))
  = default 0 (dict_get k calls).
Proof.
  rewrite add_tool_calls_get by apply read_tools_items_NoDup.
  unfold read_tools_items. simpl. repeat case_decide; simpl; lia.
Qed.

(** What a call of [print_summary] that returns has computed. *)
Lemma print_summary_inv (all_stats : list stats) (s : summary) :
  print_summary all_stats = Ok s ->
  exists t r,
    summary_totals all_stats = Ok t
    /\ report_sizes (t_tool_result_sizes t) = Ok r
    /\ let calls := add_tool_calls read_tools_items (t_tool_calls t) in
       s = Summary (length all_stats) t
             (read_search_calls_of (t_tool_calls t))
             (filter (fun kv => snd kv <> 0)
                (map (fun tool => (tool, default 0 (dict_get tool calls)))
                   read_tools))
             (take 15 (sorted_desc snd calls)) r.
Proof.
  unfold print_summary. intros Hrun.
  apply bind_Ok_inv in Hrun as (t & Ht & Hrun).
  apply bind_Ok_inv in Hrun as ([] & _ & Hrun). cbn zeta in Hrun.
  apply bind_Ok_inv in Hrun as (r & Hr & [= <-]).
  exists t, r. split; [done|]. split; [done|]. reflexivity.
Qed.

Lemma summary_calls_table (all_stats : list stats) (t : totals) :
  Forall analysed all_stats ->
  summary_totals all_stats = Ok t ->
  let calls := add_tool_calls read_tools_items (t_tool_calls t) in
  NoDup (dict_keys calls)
  /\ (forall k,
        default 0 (dict_get k calls)
        = total_at k (map tool_calls all_stats))
  /\ (forall k, k ∈ dict_keys calls <-> summary_tool all_stats k).
Proof.
  intros Hall Ht calls. unfold summary_totals in Ht. subst calls.
  destruct (fold_tables_NoDup summary_accumulate all_stats summary_totals0 t
              summary_adds_tables Ht) as [Hnd _];
    [apply NoDup_nil_2|apply NoDup_nil_2|].
  split; [by apply add_tool_calls_keys|]. split.
  - intros k. rewrite read_tools_added_get.
    destruct (fold_tables_get summary_accumulate all_stats summary_totals0 t
                k summary_adds_tables (analysed_keys_unique _ Hall) Ht)
      as [-> _].
    simpl. lia.
  - intros k. rewrite add_tool_calls_mem.
    destruct (fold_tables_mem summary_accumulate all_stats summary_totals0 t
                k summary_adds_tables Ht) as [-> _].
    unfold summary_tool. change (dict_keys read_tools_items) with read_tools.
    split.
    + intros [[Hin|?]|?]; [by apply elem_of_nil in Hin|by right|by left].
    + intros [?|?]; [by right|by left; right].
Qed.

(** X13. When [print_summary] returns on analysed sessions (it does unless
    a token total is too large for [format_tokens]), its count of read and
    search calls is the sum over the sessions, and it lists a read tool
    under that heading when its total is not 0.  The listing of all tools is
    in descending order of calls, has at most 15 rows and no tool twice, and
    gives each listed tool its total over the sessions.  It is drawn from the
    tools of the sessions and the three read tools, which line 235 adds to the
    table with count 0: a tool of these that is not listed is left out only
    when 15 rows are listed, none of them with fewer calls. *)
Theorem summary_tool_listing (all_stats : list stats) (s : summary) :
  Forall analysed all_stats ->
  print_summary all_stats = Ok s ->
  sum_read_total s = read_search_total (map tool_calls all_stats)
  /\ (forall tool n,
        (tool, n) ∈ sum_read_calls s
        <-> tool ∈ read_tools
            /\ n = total_at tool (map tool_calls all_stats) /\ n <> 0)
  /\ descending snd (sum_all_tools s)
  /\ (length (sum_all_tools s) <= 15)%nat
  /\ NoDup (map fst (sum_all_tools s))
  /\ (forall tool n,
        (tool, n) ∈ sum_all_tools s ->
        summary_tool all_stats tool
        /\ n = total_at tool (map tool_calls all_stats))
  /\ (forall tool,
        summary_tool all_stats tool ->
        tool ∉ map fst (sum_all_tools s) ->
        length (sum_all_tools s) = 15%nat
        /\ forall row,
             row ∈ sum_all_tools s ->
             total_at tool (map tool_calls all_stats) <= snd row).
Proof.
  intros Hall Hrun.
  apply print_summary_inv in Hrun as (t & r & Ht & Hr & ->). cbn zeta.
  cbn [sum_read_total sum_read_calls sum_all_tools].
  destruct (summary_calls_table all_stats t Hall Ht) as (Hnd & Hget & Hmem).
  cbn zeta in Hnd, Hget, Hmem.
  set (calls := add_tool_calls read_tools_items (t_tool_calls t)) in *.
  pose proof (sorted_desc_perm snd calls) as Hperm.
  pose proof (sorted_desc_descending snd calls) as Hdesc.
  apply (descending_take snd 15) in Hdesc as [Hdesc Hrest].
  set (sorted := sorted_desc snd calls) in *.
  assert (Hrow : forall tool n,
             (tool, n) ∈ sorted ->
             summary_tool all_stats tool
             /\ n = total_at tool (map tool_calls all_stats)).
  { intros tool n Hin. rewrite Hperm in Hin.
    pose proof (dict_get_of_elem _ _ _ Hnd Hin) as Hk. split.
    - apply Hmem, dict_get_is_Some_keys. by rewrite Hk.
    - rewrite <- Hget, Hk. done. }
  split.
  { unfold summary_totals in Ht.
    destruct (fold_tables_metrics summary_accumulate all_stats
                summary_totals0 t summary_adds_tables
                (analysed_keys_unique _ Hall) Ht) as (-> & _).
    reflexivity. }
  split.
  { intros tool n. unfold read_tools. cbn [map].
    rewrite !Hget, !filter_cons, filter_nil. cbn [snd].
    repeat case_decide; rewrite ?elem_of_cons, ?elem_of_nil;
      split; intros Hin;
      repeat match goal with
             | H : _ \/ _ |- _ => destruct H
             | H : _ /\ _ |- _ => destruct H
             | H : (_, _) = (_, _) |- _ => injection H as -> ->
             | H : False |- _ => destruct H
             end; subst; try done; try congruence; auto 10. }
  split; [done|]. split; [rewrite length_take; lia|].
  assert (Hkeys : NoDup (fst <$> sorted)) by (rewrite Hperm; exact Hnd).
  split.
  { rewrite <- (take_drop 15 sorted), fmap_app in Hkeys.
    by apply NoDup_app in Hkeys as (? & _). }
  split.
  { intros tool n Hin. apply Hrow.
    rewrite <- (take_drop 15 sorted). apply elem_of_app. by left. }
  intros tool Htool Hout.
  apply Hmem, dict_keys_elem in Htool as (n & Hin).
  rewrite <- Hperm, <- (take_drop 15 sorted) in Hin.
  apply elem_of_app in Hin as [Hin|Hin].
  { exfalso. apply Hout. apply (list_elem_of_fmap_2 fst) in Hin.
    exact Hin. }
  split.
  - rewrite length_take. apply list_elem_of_lookup in Hin as (i & Hi).
    apply lookup_lt_Some in Hi. rewrite length_drop in Hi. lia.
  - intros row Hrow'. pose proof (Hrest _ _ Hrow' Hin) as Hle.
    destruct (Hrow tool n) as [_ <-]; [|done].
    rewrite <- (take_drop 15 sorted). apply elem_of_app. by right.
Qed.

Lemma summary_tool_listing_witness :
  exists s,
    print_summary [sample_stats; sample_stats] = Ok s
    /\ sum_read_total s = 2
    /\ descending snd (sum_all_tools s)
    /\ forall n, (KStr "Read", n) ∈ sum_all_tools s -> n = 2.
Proof.
  eexists. split; [by vm_compute|].
  destruct (summary_tool_listing [sample_stats; sample_stats] _
              sample_pair_analysed eq_refl)
    as (Hread & _ & Hdesc & _ & _ & Hrow & _).
  split; [exact Hread|]. split; [exact Hdesc|].
  intros n Hin. exact (proj2 (Hrow (KStr "Read") n Hin)).
Defined.

(** *** The report of the result sizes *)

Lemma add_tool_result_sizes_positive (items tot : pydict pykey size_agg) :
  sizes_positive items -> sizes_positive tot ->
  sizes_positive (add_tool_result_sizes items tot).
Proof.
  unfold sizes_positive, add_tool_result_sizes. intros Hitems. revert tot.
  induction Hitems as [|[k v] items [Hc Hs] _ IH]; intros tot Htot;
    cbn [fold_left fst snd]; [done|].
  cbn [snd] in Hc, Hs. apply IH.
  apply (dd_update_Forall
           (fun e => 1 <= sz_count e /\ 0 <= sz_total_chars e)).
  - apply (dd_update_Forall
             (fun e => 1 <= sz_count e /\ 0 <= sz_total_chars e));
      [done|simpl; intros; lia|simpl; intros; lia].
  - simpl. intros; lia.
  - unfold dd_update. by rewrite dict_get_set_eq.
Qed.

Lemma fold_tables_positive (step : stats -> totals -> result totals)
    (all_stats : list stats) (t t' : totals) :
  adds_tables step ->
  Forall (fun st => calls_positive (tool_calls st)
                    /\ sizes_positive (tool_result_sizes st)) all_stats ->
  foldM step t all_stats = Ok t' ->
  sizes_positive (t_tool_result_sizes t) ->
  sizes_positive (t_tool_result_sizes t').
Proof.
  intros Hstep Hall. revert t.
  induction Hall as [|st all_stats [Hc Hs] _ IH]; intros t.
  - by intros [= <-].
  - rewrite foldM_cons. intros Hrun Hts.
    apply bind_Ok_inv in Hrun as (t1 & H1 & Hrun).
    apply Hstep in H1 as [_ Hsizes].
    apply (IH _ Hrun). rewrite Hsizes.
    by apply add_tool_result_sizes_positive.
Qed.

(** An entry of a table of sizes is at most the total of the table. *)
Lemma entry_le_total (sizes : pydict pykey size_agg) (k : pykey)
    (d : size_agg) :
  sizes_positive sizes -> (k, d) ∈ sizes ->
  1 <= sz_count d /\ 0 <= sz_total_chars d <= total_chars_of sizes.
Proof.
  unfold sizes_positive, total_chars_of.
  induction 1 as [|[k' d'] sizes [Hc Hs] Hall IH]; intros Hin;
    [by apply elem_of_nil in Hin|].
  cbn [snd] in Hc, Hs. unfold sumZ in *. cbn [map foldr snd].
  assert (0 <= foldr Z.add 0
                 (map (fun kv => sz_total_chars (snd kv)) sizes)).
  { clear IH Hin. induction Hall as [|[k0 d0] l [_ H0] _ IHl]; simpl in *;
      lia. }
  apply elem_of_cons in Hin as [[= -> ->]|Hin]; [lia|].
  apply IH in Hin. lia.
Qed.

Lemma average_bounds (d : size_agg) (z : Z) :
  average d = Ok z -> 1 <= sz_count d -> 0 <= sz_total_chars d ->
  0 <= z <= sz_total_chars d.
Proof.
  unfold average, py_floordiv. intros Hrun Hc Hs.
  destruct (sz_count d =? 0) eqn:H0; [apply Z.eqb_eq in H0; lia|].
  simpl in Hrun. injection Hrun as <-. split.
  - apply Z.div_pos; lia.
  - apply Z.div_le_upper_bound; [lia|]. nia.
Qed.

Lemma percentage_bounds (chars total pct : Z) :
  percentage chars total = Ok pct -> 0 <= chars <= total ->
  0 <= pct <= 100.
Proof.
  unfold percentage, py_floordiv. intros Hrun Hc.
  destruct (total =? 0) eqn:H0; simpl in Hrun.
  - injection Hrun as <-. lia.
  - injection Hrun as <-. apply Z.eqb_neq in H0. split.
    + apply Z.div_pos; lia.
    + apply Z.div_le_upper_bound; lia.
Qed.

Lemma read_row_bounds (sizes : pydict pykey size_agg) (tool : pykey)
    (rows rows' : list size_row) :
  sizes_positive sizes ->
  read_row sizes tool rows = Ok rows' ->
  Forall (row_in_bounds (total_chars_of sizes)) rows ->
  Forall (row_in_bounds (total_chars_of sizes)) rows'.
Proof.
  intros Hpos. unfold read_row.
  destruct (dict_get tool sizes) as [d|] eqn:Hd; [|by intros [= <-]].
  apply dict_get_elem_of in Hd.
  destruct (entry_le_total _ _ _ Hpos Hd) as (Hc & Hs).
  destruct (negb _); [|by intros [= <-]].
  intros Hrun Hrows. apply bind_Ok_inv in Hrun as (avg & Havg & [= <-]).
  apply average_bounds in Havg; [|lia|lia].
  apply Forall_app. split; [done|]. constructor; [|constructor].
  unfold row_in_bounds. simpl. lia.
Qed.

Lemma all_row_bounds (sizes : pydict pykey size_agg)
    (kv : pykey * size_agg) (rows rows' : list size_row) :
  sizes_positive sizes -> kv ∈ sizes ->
  all_row (total_chars_of sizes) kv rows = Ok rows' ->
  Forall (row_in_bounds (total_chars_of sizes)) rows ->
  Forall (row_in_bounds (total_chars_of sizes)) rows'.
Proof.
  intros Hpos Hin. destruct kv as [k d].
  destruct (entry_le_total _ _ _ Hpos Hin) as (Hc & Hs).
  unfold all_row. cbn [fst snd]. intros Hrun Hrows.
  apply bind_Ok_inv in Hrun as (avg & Havg & Hrun).
  apply bind_Ok_inv in Hrun as (pct & Hpct & [= <-]).
  apply average_bounds in Havg; [|lia|lia].
  apply percentage_bounds in Hpct; [|lia].
  apply Forall_app. split; [done|]. constructor; [|constructor].
  unfold row_in_bounds. simpl. lia.
Qed.

(** The rows that the loop of lines 257-260 writes: one a tool, in order. *)
Lemma all_rows_shape (total : Z) (l : list (pykey * size_agg))
    (rows rows' : list size_row) :
  foldM (all_row total) rows l = Ok rows' ->
  map row_tool rows' = map row_tool rows ++ map fst l
  /\ map row_chars rows'
     = map row_chars rows ++ map (fun kv => sz_total_chars (snd kv)) l.
Proof.
  revert rows. induction l as [|kv l IH]; intros rows.
  - intros [= <-]. by rewrite !app_nil_r.
  - rewrite foldM_cons. intros Hrun.
    apply bind_Ok_inv in Hrun as (rows1 & H1 & Hrun).
    apply IH in Hrun as [-> ->]. unfold all_row in H1.
    apply bind_Ok_inv in H1 as (avg & _ & H1).
    apply bind_Ok_inv in H1 as (pct & _ & [= <-]).
    rewrite !map_app. cbn [map row_tool row_chars].
    by rewrite <- !app_assoc.
Qed.

Lemma descending_map {A B : Type} (f : A -> B) (key : B -> Z) (l : list A) :
  descending key (map f l) <-> descending (fun x => key (f x)) l.
Proof.
  induction l as [|x l IH]; simpl; [done|].
  rewrite IH. change (map f l) with (f <$> l). by rewrite Forall_fmap.
Qed.

Lemma report_sizes_inv (sizes : pydict pykey size_agg)
    (r : option size_report) :
  report_sizes sizes = Ok r ->
  match r with
  | None => sizes = []
  | Some rep =>
      sizes <> []
      /\ rep_read_chars rep = read_search_chars_of sizes
      /\ percentage (read_search_chars_of sizes) (total_chars_of sizes)
         = Ok (rep_read_pct rep)
      /\ foldM (read_row sizes) [] read_tools = Ok (rep_read_rows rep)
      /\ foldM (all_row (total_chars_of sizes)) []
           (take 10 (sorted_desc (fun kv => sz_total_chars (snd kv)) sizes))
         = Ok (rep_all_rows rep)
  end.
Proof.
  unfold report_sizes. destruct sizes as [|kv sizes]; [by intros [= <-]|].
  cbn zeta. intros Hrun.
  apply bind_Ok_inv in Hrun as (pct & Hpct & Hrun).
  apply bind_Ok_inv in Hrun as (rr & Hrr & Hrun).
  apply bind_Ok_inv in Hrun as (ar & Har & [= <-]).
  done.
Qed.

(** X14. When [print_summary] returns on analysed sessions, it reports the
    result sizes exactly when some session has a tool result.  In the
    report, the size of the read and search results is the sum over the
    sessions and its percentage is between 0 and 100; on every row the size
    is between 0 and the total size of all results, the average between 0
    and the size, the percentage between 0 and 100; the rows of all tools
    are at most 10, the largest size first. *)
Theorem summary_size_report (all_stats : list stats) (s : summary) :
  Forall analysed all_stats ->
  print_summary all_stats = Ok s ->
  match sum_sizes s with
  | None => forall st, st ∈ all_stats -> tool_result_sizes st = []
  | Some r =>
      let total :=
        sumZ (map (fun st => total_chars_of (tool_result_sizes st))
                all_stats) in
      (exists st, st ∈ all_stats /\ tool_result_sizes st <> [])
      /\ rep_read_chars r
         = sumZ (map (fun st =>
                        read_search_chars_of (tool_result_sizes st))
                   all_stats)
      /\ 0 <= rep_read_pct r <= 100
      /\ Forall (row_in_bounds total) (rep_read_rows r)
      /\ Forall (row_in_bounds total) (rep_all_rows r)
      /\ descending row_chars (rep_all_rows r)
      /\ (length (rep_all_rows r) <= 10)%nat
  end.
Proof.
  intros Hall Hrun.
  apply print_summary_inv in Hrun as (t & r & Ht & Hr & ->). cbn zeta.
  cbn [sum_sizes].
  unfold summary_totals in Ht.
  pose proof (fold_tables_positive summary_accumulate all_stats
                summary_totals0 t summary_adds_tables
                (analysed_positive _ Hall) Ht) as Hpos.
  destruct (fold_tables_metrics summary_accumulate all_stats
              summary_totals0 t summary_adds_tables
              (analysed_keys_unique _ Hall) Ht) as (_ & Hread & Htot & _).
  change (read_search_chars_of (t_tool_result_sizes summary_totals0))
    with 0 in Hread.
  change (total_chars_of (t_tool_result_sizes summary_totals0))
    with 0 in Htot.
  rewrite Z.add_0_l in Hread, Htot.
  assert (Hmem : forall tool,
             tool ∈ dict_keys (t_tool_result_sizes t)
             <-> exists st,
                   st ∈ all_stats
                   /\ tool ∈ dict_keys (tool_result_sizes st)).
  { intros tool.
    destruct (fold_tables_mem summary_accumulate all_stats summary_totals0 t
                tool summary_adds_tables Ht) as [_ ->].
    split; [|auto]. intros [Hin|?]; [|done]. by apply elem_of_nil in Hin. }
  set (sizes := t_tool_result_sizes t) in *.
  specialize (Hpos ltac:(constructor)).
  apply report_sizes_inv in Hr. destruct r as [rep|].
  - destruct Hr as (Hne & Hrc & Hpct & Hrr & Har). cbn zeta.
    rewrite <- Htot.
    assert (Hnonneg : Forall (fun kv => 0 <= sz_total_chars (snd kv)) sizes).
    { eapply Forall_impl; [exact Hpos|]. simpl. intros; lia. }
    pose proof (read_tools_bound sz_total_chars sizes Hnonneg) as Hbound.
    split.
    { destruct sizes as [|[k d] sizes'] eqn:Hs; [done|].
      destruct (proj1 (Hmem k)) as (st & Hst & Hk);
        [apply list_elem_of_here|].
      exists st. split; [done|]. intros Hnil. rewrite Hnil in Hk.
      by apply elem_of_nil in Hk. }
    split; [by rewrite Hrc|]. split.
    { apply percentage_bounds in Hpct; [done|]. exact Hbound. }
    split.
    { apply (foldM_invariant (read_row sizes)
               (Forall (row_in_bounds (total_chars_of sizes))) read_tools)
        with (acc := []) (acc' := rep_read_rows rep);
        [|constructor|done].
      intros tool rows rows' _. by apply read_row_bounds. }
    set (top := take 10 (sorted_desc (fun kv => sz_total_chars (snd kv))
                           sizes)) in *.
    split.
    { apply (foldM_invariant (all_row (total_chars_of sizes))
               (Forall (row_in_bounds (total_chars_of sizes))) top)
        with (acc := []) (acc' := rep_all_rows rep);
        [|constructor|done].
      intros kv rows rows' Hkv. apply all_row_bounds; [done|].
      rewrite <- (sorted_desc_perm (fun kv => sz_total_chars (snd kv)) sizes).
      unfold top in Hkv. rewrite <- (take_drop 10 (sorted_desc _ sizes)).
      apply elem_of_app. by left. }
    apply all_rows_shape in Har as [Htools Hchars]. simpl in Htools, Hchars.
    split.
    + apply (descending_map row_chars id). rewrite Hchars.
      apply descending_map. unfold id, top.
      apply (descending_take (fun kv => sz_total_chars (snd kv)) 10),
        sorted_desc_descending.
    + rewrite <- (length_map row_tool), Htools, length_map. unfold top.
      rewrite length_take. lia.
  - intros st Hst. destruct (tool_result_sizes st) as [|[k d] l] eqn:Hs;
      [done|].
    assert (Hk : k ∈ dict_keys sizes).
    { apply Hmem. exists st. split; [done|]. rewrite Hs.
      apply list_elem_of_here. }
    rewrite Hr in Hk. by apply elem_of_nil in Hk.
Qed.

Lemma summary_size_report_witness :
  exists s r,
    print_summary [sample_stats; sample_stats] = Ok s
    /\ sum_sizes s = Some r
    /\ rep_read_chars r = 10
    /\ 0 <= rep_read_pct r <= 100
    /\ Forall (row_in_bounds 10) (rep_all_rows r).
Proof.
  eexists _, _. split; [by vm_compute|]. split; [reflexivity|].
  destruct (summary_size_report [sample_stats; sample_stats] _
              sample_pair_analysed eq_refl)
    as (_ & Hread & Hpct & _ & Hrows & _).
  split; [exact Hread|]. split; [exact Hpct|exact Hrows].
Defined.

(** ** The file written by [export_snapshot] *)

(** X15. A call of [export_snapshot] that returns has left every file but
    its target as it was and has removed none; a target that did not exist
    holds the line of the snapshot whatever [append] is, and an existing
    target is continued by that line ([append]) or replaced by it. *)
Theorem export_snapshot_touches_target_only
    (json_dumps : snapshot -> string) (now : string) (all_stats : list stats)
    (output_path : string) (append grafema_mcp : bool) (note : option string)
    (fs fs' : filesystem) (snap : snapshot) :
  export_snapshot json_dumps now all_stats output_path append grafema_mcp
    note fs = Ok (snap, fs') ->
  (forall path, path <> output_path -> fs' !! path = fs !! path)
  /\ dom fs' = {[output_path]} ∪ dom fs
  /\ fs' !! output_path
     = Some (match fs !! output_path with
             | Some old =>
                 if append then old +:+ (json_dumps snap +:+ newline)
                 else json_dumps snap +:+ newline
             | None => json_dumps snap +:+ newline
             end).
Proof.
  unfold export_snapshot. intros Hrun.
  apply bind_Ok_inv in Hrun as (t & _ & [= <- <-]).
  unfold write_snapshot.
  destruct (fs !! output_path) as [old|]; [destruct append|];
    (split; [intros path Hne; by rewrite lookup_insert_ne|]);
    (split; [by rewrite dom_insert_L|]);
    by rewrite lookup_insert_eq.
Qed.

Lemma export_snapshot_touches_target_only_witness :
  exists snap fs',
    export_snapshot sample_dumps "2026-01-01" [sample_stats] "new.jsonl"
      false false None sample_fs = Ok (snap, fs')
    /\ fs' !! "stats.jsonl" = Some ("earlier" +:+ newline)
    /\ fs' !! "new.jsonl" = Some (sample_dumps snap +:+ newline).
Proof.
  eexists _, _. split; [reflexivity|].
  destruct (export_snapshot_touches_target_only sample_dumps "2026-01-01"
              [sample_stats] "new.jsonl" false false None sample_fs _ _
              eq_refl) as (Hframe & _ & Htarget).
  split; [|exact Htarget].
  rewrite (Hframe "stats.jsonl"); [reflexivity|discriminate].
Defined.

(** ** The report of one session *)


(** *** The order of the keys *)











(** *** Sorting the items of [models] *)











(** *** The three groups of tools *)

Lemma sumZ_app (l1 l2 : list Z) : sumZ (l1 ++ l2) = sumZ l1 + sumZ l2.
Proof. unfold sumZ. induction l1 as [|x l1 IH]; simpl; lia. Qed.

Lemma sumZ_perm (l1 l2 : list Z) : l1 ≡ₚ l2 -> sumZ l1 = sumZ l2.
Proof. unfold sumZ. induction 1; simpl; lia. Qed.

Lemma filter_exclusive {A : Type} (P Q : A -> Prop)
    `{!forall x, Decision (P x)} `{!forall x, Decision (Q x)} (l : list A) :
  (forall x, P x -> Q x -> False) ->
  filter (fun x => P x \/ Q x) l ≡ₚ filter P l ++ filter Q l.
Proof.
  intros Hex.
  rewrite <- (filter_app_complement P (filter (fun x => P x \/ Q x) l)).
  rewrite (list_filter_filter_l P) by auto.
  rewrite list_filter_filter.
  rewrite (list_filter_iff (fun x => ~ P x /\ (P x \/ Q x)) Q);
    [reflexivity|].
  intros x. split.
  - intros [Hn [?|?]]; [by destruct Hn|done].
  - intros HQ. split; [|by right]. intros HP. by apply (Hex x).
Qed.

Lemma filter_key_eq {V : Type} (t : pykey) (d : list (pykey * V)) :
  NoDup (dict_keys d) ->
  filter (fun kv => fst kv = t) d
  = match dict_get t d with Some n => [(t, n)] | None => [] end.
Proof.
  induction d as [|[k v] d IH]; intros Hnd; [done|].
  change (dict_keys ((k, v) :: d)) with (k :: dict_keys d) in Hnd.
  apply NoDup_cons in Hnd as [Hk Hnd]. rewrite filter_cons. cbn [fst dict_get].
  rewrite (IH Hnd). destruct (decide (k = t)) as [->|Hne].
  - rewrite decide_True by done.
    apply dict_get_None_keys in Hk. by rewrite Hk.
  - by rewrite decide_False by congruence.
Qed.

(** The rows of a group are the entries of the table for its tools. *)
Lemma listed_of_filter (group : list pykey) (calls : list (pykey * Z)) :
  NoDup group -> NoDup (dict_keys calls) ->
  listed_of group calls ≡ₚ filter (fun kv => fst kv ∈ group) calls.
Proof.
  intros Hg Hnd. induction Hg as [|t group Ht _ IH].
  - unfold listed_of. simpl. clear Hnd.
    induction calls as [|kv calls IHc]; [done|].
    rewrite filter_cons_False; [done|]. apply not_elem_of_nil.
  - rewrite (list_filter_iff _ (fun kv => fst kv = t \/ fst kv ∈ group))
      by (intros kv; apply elem_of_cons).
    rewrite filter_exclusive by (intros kv -> ?; done).
    rewrite filter_key_eq, <- IH by done.
    unfold listed_of. cbn [omap list_omap]. by destruct (dict_get t calls).
Qed.

Lemma listed_of_sum (group : list pykey) (calls : pydict pykey Z) :
  sumZ (map (fun t => default 0 (dict_get t calls)) group)
  = sumZ (map snd (listed_of group calls)).
Proof.
  unfold listed_of, sumZ. induction group as [|t group IH]; [done|].
  cbn [map foldr omap list_omap]. rewrite IH.
  by destruct (dict_get t calls).
Qed.

Lemma descending_filter {A : Type} (key : A -> Z) (P : A -> Prop)
    `{!forall x, Decision (P x)} (l : list A) :
  descending key l -> descending key (filter P l).
Proof.
  induction l as [|x l IH]; [done|]. intros [Hx Hl].
  rewrite filter_cons. destruct (decide (P x)); [|by apply IH].
  split; [|by apply IH].
  apply Forall_forall. intros y Hy. apply list_elem_of_filter in Hy as [_ Hy].
  rewrite Forall_forall in Hx. by apply Hx.
Qed.

Lemma group_tools_partition (calls : list (pykey * Z)) :
  NoDup (dict_keys calls) ->
  let g := group_tools calls in
  grp_read g ++ grp_edit g ++ grp_other g ≡ₚ calls
  /\ grp_read_total g = sumZ (map snd (grp_read g))
  /\ grp_edit_total g = sumZ (map snd (grp_edit g))
  /\ descending snd (grp_other g).
Proof.
  intros Hnd g. unfold g, group_tools.
  cbn [grp_read grp_edit grp_other grp_read_total grp_edit_total].
  split; [|split; [apply listed_of_sum|split; [apply listed_of_sum|]]].
  - rewrite (sorted_desc_perm snd calls).
    rewrite !listed_of_filter by (done || apply (bool_decide_unpack _); by vm_compute).
    rewrite <- (filter_app_complement (fun kv => fst kv ∈ read_tools) calls)
      at 4.
    f_equiv.
    rewrite <- (filter_app_complement (fun kv => fst kv ∈ edit_tools)
                  (filter (fun kv => ¬ fst kv ∈ read_tools) calls)).
    rewrite (list_filter_filter_l (fun kv => fst kv ∈ edit_tools)).
    + f_equiv. rewrite list_filter_filter. apply reflexive_eq.
      apply list_filter_iff. intros kv. tauto.
    + intros kv Hin Hin'. revert Hin Hin'. unfold edit_tools, read_tools.
      rewrite !elem_of_cons, !elem_of_nil.
      intros [->|[->|[->|[]]]] [?|[?|[?|[]]]]; discriminate.
  - apply descending_filter, sorted_desc_descending.
Qed.

Lemma print_stats_tools (duration : json -> json -> option string)
    (st : stats) (verbose : bool) (r : stats_report) :
  print_stats duration st verbose = Ok r ->
  rpt_tools r
  = match tool_calls st with
    | [] => None
    | calls => Some (group_tools calls)
    end.
Proof.
  unfold print_stats. intros Hrun.
  repeat (apply bind_Ok_inv in Hrun as (? & _ & Hrun)).
  by injection Hrun as <-.
Qed.

(** X17. The section on tool calls that [print_stats] prints for an
    analysed session is left out exactly when the session calls no tool.
    Otherwise every tool of [tool_calls] is on one row of one of the three
    groups, with its count; the two totals are the sums of the rows of the
    read and search group and of the edit group; the other tools are in
    descending order of calls; and the two totals and the other rows add up
    to the calls of the session. *)
Theorem print_stats_tool_groups
    (duration : json -> json -> option string) (st : stats)
    (verbose : bool) (r : stats_report) :
  analysed st ->
  print_stats duration st verbose = Ok r ->
  match rpt_tools r with
  | None => tool_calls st = []
  | Some g =>
      tool_calls st <> []
      /\ grp_read g ++ grp_edit g ++ grp_other g ≡ₚ tool_calls st
      /\ grp_read_total g = sumZ (map snd (grp_read g))
      /\ grp_edit_total g = sumZ (map snd (grp_edit g))
      /\ descending snd (grp_other g)
      /\ grp_read_total g + grp_edit_total g + sumZ (map snd (grp_other g))
         = sum_values id (tool_calls st)
  end.
Proof.
  intros Hst Hrun. apply print_stats_tools in Hrun as ->.
  apply analysed_tables in Hst as (_ & _ & Hnd & _).
  destruct (tool_calls st) as [|c calls] eqn:Hcalls; [done|].
  destruct (group_tools_partition (c :: calls) Hnd)
    as (Hperm & Hread & Hedit & Hdesc).
  cbn zeta in Hperm, Hread, Hedit, Hdesc.
  split; [done|]. split; [done|]. split; [done|]. split; [done|].
  split; [done|]. rewrite Hread, Hedit.
  change (sum_values id (c :: calls)) with (sumZ (map snd (c :: calls))).
  apply (fmap_Permutation snd), sumZ_perm in Hperm.
  change (sumZ (map snd (grp_read (group_tools (c :: calls))
                           ++ grp_edit (group_tools (c :: calls))
                           ++ grp_other (group_tools (c :: calls))))
          = sumZ (map snd (c :: calls))) in Hperm.
  rewrite <- Hperm, !map_app, !sumZ_app. lia.
Qed.

Lemma print_stats_tool_groups_witness :
  exists r g,
    print_stats no_duration sample_stats false = Ok r
    /\ rpt_tools r = Some g
    /\ grp_read g = [(KStr "Read", 1)]
    /\ grp_read_total g + grp_edit_total g + sumZ (map snd (grp_other g)) = 1.
Proof.
  eexists _, _. split; [reflexivity|]. split; [reflexivity|].
  split; [reflexivity|].
  exact (proj2 (proj2 (proj2 (proj2 (proj2
           (print_stats_tool_groups no_duration sample_stats false _
              sample_stats_analysed eq_refl)))))).
Defined.

(** ** Runs of main *)


Lemma export_snapshot_inv (json_dumps : snapshot -> string) (now : string)
    (all_stats : list stats) (output_path : string)
    (append grafema_mcp : bool) (note : option string) (fs fs' : filesystem)
    (snap : snapshot) :
  export_snapshot json_dumps now all_stats output_path append grafema_mcp
    note fs = Ok (snap, fs') ->
  fs' = write_snapshot output_path append (json_dumps snap +:+ newline) fs
  /\ sessions_count snap = length all_stats.
Proof.
  unfold export_snapshot. intros Hrun.
  by apply bind_Ok_inv in Hrun as (t & _ & [= <- <-]).
Qed.

Section main_facts.
Variable json_loads : string -> option json.
Variable json_dumps : json -> string.
Variable snapshot_dumps : snapshot -> string.
Variable duration : json -> json -> option string.
Variable now : string.
Variable find_grafema_sessions : option string -> list string.
Variable readlines : string -> list string.
Variable default_export_path : string.

Local Abbreviation analysis := (analysis_of json_loads json_dumps readlines).
Local Abbreviation loop :=
  (analyze_files json_loads json_dumps duration readlines).
Local Abbreviation run_main :=
  (main json_loads json_dumps snapshot_dumps duration now
     find_grafema_sessions readlines default_export_path).
Local Abbreviation paths_of := (files_to_analyze find_grafema_sessions).
Local Abbreviation target := (export_target default_export_path).

Lemma existing_cons_Some (fs : filesystem) (path text : string)
    (paths : list string) :
  fs !! path = Some text ->
  existing fs (path :: paths) = (path, text) :: existing fs paths.
Proof. intros Hp. unfold existing. cbn [omap list_omap]. by rewrite Hp. Qed.

Lemma existing_cons_None (fs : filesystem) (path : string)
    (paths : list string) :
  fs !! path = None -> existing fs (path :: paths) = existing fs paths.
Proof. intros Hp. unfold existing. cbn [omap list_omap]. by rewrite Hp. Qed.

(** The loop of lines 376-381 when no exception leaves it. *)
Lemma analyze_files_returns (a : args) (fs : filesystem)
    (paths : list string) (all_stats all_stats' : list stats)
    (out out' : list output) :
  loop a fs paths all_stats out = (all_stats', out', None) ->
  exists new reports,
    all_stats' = all_stats ++ new
    /\ out' = out ++ map StatsPrinted reports
    /\ Forall2 (fun pt st => analysis pt = Ok st) (existing fs paths) new
    /\ if reports_wanted a
       then Forall2
              (fun st r => print_stats duration st (arg_verbose a) = Ok r)
              new reports
       else reports = [].
Proof.
  revert all_stats out.
  induction paths as [|path paths IH]; intros all_stats out; cbn [analyze_files].
  - intros [= <- <-]. exists [], []. rewrite !app_nil_r.
    split; [done|]. split; [done|]. split; [constructor|].
    destruct (reports_wanted a); [constructor|done].
  - destruct (fs !! path) as [text|] eqn:Hp.
    2:{ rewrite (existing_cons_None _ _ _ Hp). apply IH. }
    rewrite (existing_cons_Some _ _ _ _ Hp).
    destruct (analyze_session json_loads json_dumps path (readlines text))
      as [st|e] eqn:Hst; [|done].
    change (negb (arg_summary_only a) && negb (arg_json a))
      with (reports_wanted a).
    destruct (reports_wanted a) eqn:Hw.
    + destruct (print_stats duration st (arg_verbose a)) as [r|e] eqn:Hr;
        [|done].
      intros Hrun.
      apply IH in Hrun as (new & reports & -> & -> & Hnew & Hreports).
      exists (st :: new), (r :: reports). rewrite <- !app_assoc.
      split; [done|]. split; [done|]. split; by constructor.
    + intros Hrun.
      apply IH in Hrun as (new & reports & -> & -> & Hnew & ->).
      exists (st :: new), []. rewrite <- !app_assoc.
      split; [done|]. split; [done|]. split; [by constructor|done].
Qed.


(** The four ways a run of [main] ends. *)
Lemma main_cases (a : args) (fs : filesystem) :
  (paths_of a = [] /\ run_main a fs = Run [NoFilesMessage] fs (SystemExit 1))
  \/ (paths_of a <> []
      /\ exists all_stats out,
           loop a fs (paths_of a) [] [] = (all_stats, out, None)
           /\ exists out',
                print_totals a all_stats out = Ok out'
                /\ run_main a fs = export_requested snapshot_dumps now
                                     default_export_path a all_stats out' fs)
  \/ (paths_of a <> []
      /\ exists all_stats out e,
           run_main a fs = Run out fs (Uncaught e)
           /\ (loop a fs (paths_of a) [] [] = (all_stats, out, Some e)
               \/ (loop a fs (paths_of a) [] [] = (all_stats, out, None)
                   /\ print_totals a all_stats out = Raise e))).
Proof.
  unfold main. destruct (paths_of a) as [|p ps] eqn:Hpaths; [by left|].
  right.
  destruct (loop a fs (p :: ps) [] []) as [[all_stats out] [e|]] eqn:Hloop.
  - right. split; [done|]. exists all_stats, out, e. split; [done|by left].
  - destruct (print_totals a all_stats out) as [out'|e] eqn:Htot.
    + left. split; [done|]. exists all_stats, out. split; [done|].
      by exists out'.
    + right. split; [done|]. exists all_stats, out, e.
      split; [done|by right].
Qed.
Lemma export_requested_cases (a : args) (all_stats : list stats)
    (out : list output) (fs : filesystem) :
  let r := export_requested snapshot_dumps now default_export_path a
             all_stats out fs in
  (r = Run out fs Returned /\ (arg_export a = false \/ all_stats = []))
  \/ (exists snap fs',
        arg_export a = true /\ all_stats <> []
        /\ export_snapshot snapshot_dumps now all_stats (target a) true
             (arg_grafema_mcp a) (arg_note a) fs = Ok (snap, fs')
        /\ r = Run (out ++ [ExportPrinted (target a) snap]) fs' Returned)
  \/ (exists e, r = Run out fs (Uncaught e)).
Proof.
  cbn zeta. unfold export_requested.
  destruct (arg_export a); [|left; split; [done|by left]].
  destruct all_stats as [|st all_stats]; [left; split; [done|by right]|].
  fold (target a).
  destruct (export_snapshot _ _ _ _ _ _ _ _) as [[snap fs']|e] eqn:Hexp.
  - right. left. by exists snap, fs'.
  - right. right. by exists e.
Qed.





(** X19. A run of [main] that returns has analysed the paths that exist, in
    the order of the command line and each as often as it is given, and
    nothing else.  It has printed the report of each session when reports
    are wanted, then the JSON of the sessions ([--json]) or, for two sessions
    or more, their summary; and with [--export] and at least one session it
    has exported one snapshot, whose [sessions_count] is the number of the
    existing paths. *)
Theorem main_returned_run (a : args) (fs : filesystem) :
  status (run_main a fs) = Returned ->
  exists all_stats reports totals_out export_out,
    Forall2 (fun pt st => analysis pt = Ok st)
      (existing fs (paths_of a)) all_stats
    /\ (if reports_wanted a
        then Forall2
               (fun st r => print_stats duration st (arg_verbose a) = Ok r)
               all_stats reports
        else reports = [])
    /\ printed (run_main a fs)
       = map StatsPrinted reports ++ totals_out ++ export_out
    /\ (if arg_json a then totals_out = [JsonPrinted all_stats]
        else if (1 <? length all_stats)%nat
        then exists s,
               print_summary all_stats = Ok s
               /\ totals_out = [SummaryPrinted s]
        else totals_out = [])
    /\ (if arg_export a && negb (Nat.eqb (length all_stats) 0)
        then exists snap,
               export_snapshot snapshot_dumps now all_stats (target a) true
                 (arg_grafema_mcp a) (arg_note a) fs
               = Ok (snap, files_after (run_main a fs))
               /\ export_out = [ExportPrinted (target a) snap]
               /\ sessions_count snap
                  = length (existing fs (paths_of a))
        else export_out = [] /\ files_after (run_main a fs) = fs).
Proof.
  destruct (main_cases a fs)
    as [[_ ->]|[(_ & all_stats & out & Hloop & out' & Htot & ->)
               |(_ & all_stats & out & e & -> & _)]]; [done| |done].
  intros Hret.
  apply analyze_files_returns in Hloop
    as (new & reports & -> & -> & Hnew & Hrep).
  cbn [app] in *.
  assert (exists totals_out,
             out' = map StatsPrinted reports ++ totals_out
             /\ (if arg_json a then totals_out = [JsonPrinted new]
                 else if (1 <? length new)%nat
                 then exists s,
                        print_summary new = Ok s
                        /\ totals_out = [SummaryPrinted s]
                 else totals_out = [])) as (totals_out & -> & Htotals).
  { unfold print_totals in Htot. destruct (arg_json a).
    - injection Htot as <-. by eexists.
    - destruct (1 <? length new)%nat.
      + apply bind_Ok_inv in Htot as (s & Hs & [= <-]). eauto.
      + injection Htot as <-. exists []. by rewrite app_nil_r. }
  exists new, reports, totals_out.
  destruct (export_requested_cases a new
              (map StatsPrinted reports ++ totals_out) fs)
    as [[Hrun Hno]|[(snap & fs' & Hexp & Hne & Hrun & Hr)|(e & Hr)]].
  - exists []. rewrite Hrun. cbn [printed files_after].
    rewrite !app_nil_r. split; [done|]. split; [done|]. split; [done|].
    split; [done|].
    destruct Hno as [-> | ->]; [done|]. by rewrite andb_false_r.
  - exists [ExportPrinted (target a) snap]. rewrite Hr.
    cbn [printed files_after]. rewrite <- app_assoc.
    split; [done|]. split; [done|]. split; [done|]. split; [done|].
    rewrite Hexp. destruct new as [|st new]; [done|]. cbn [length Nat.eqb negb andb].
    exists snap. split; [done|]. split; [done|].
    apply export_snapshot_inv in Hrun as [_ ->].
    by rewrite (Forall2_length _ _ _ Hnew).
  - rewrite Hr in Hret. done.
Qed.



End main_facts.

Lemma main_returned_run_witness :
  let r := main scenario_loads scenario_dumps sample_dumps no_duration
             "2026-01-01" no_sessions sample_readlines "default.jsonl"
             sample_args sample_disk in
  status r = Returned
  /\ exists all_stats reports totals_out export_out,
       Forall2
         (fun pt st =>
            analysis_of scenario_loads scenario_dumps sample_readlines pt
            = Ok st)
         (existing sample_disk (files_to_analyze no_sessions sample_args))
         all_stats
       /\ length all_stats = 2%nat
       /\ printed r = map StatsPrinted reports ++ totals_out ++ export_out.
Proof.
  cbn zeta. split; [by vm_compute|].
  destruct (main_returned_run scenario_loads scenario_dumps sample_dumps
              no_duration "2026-01-01" no_sessions sample_readlines
              "default.jsonl" sample_args sample_disk)
    as (all_stats & reports & totals_out & export_out & Hall & _ & Hout & _);
    [by vm_compute|].
  exists all_stats, reports, totals_out, export_out.
  split; [exact Hall|]. split; [|exact Hout].
  apply Forall2_length in Hall. rewrite <- Hall. by vm_compute.
Defined.

(** ** The sort of the listings *)

(** X21. The order in which [print_stats] and [print_summary] list tools,
    [sorted(..., key=lambda x: -x[1])] and its like on sizes, keeps every
    row, puts no row before one with a greater number, and leaves rows with
    the same number in the order of the table. *)
Theorem listings_sorted_stably {A : Type} (key : A -> Z) (l : list A) :
  sorted_desc key l ≡ₚ l
  /\ descending key (sorted_desc key l)
  /\ forall c,
       filter (fun x => key x = c) (sorted_desc key l)
       = filter (fun x => key x = c) l.
Proof.
  split; [apply sorted_desc_perm|].
  split; [apply sorted_desc_descending|].
  intros c. apply sorted_desc_stable.
Qed.
